(** * IP Subnet & Protocol Calculator: the calculation engine

    A shallow embedding of [get_ip_class] and [calculate_subnet_details]
    from [Subnet-Calculator.py], together with the part of CPython's
    [ipaddress] module (3.11) that [ipaddress.ip_network(s, strict=False)]
    runs through, and of the string builtins both rely on.

    Conventions.
    - A Python [str] is a [string]; its characters are the code points
      0..255.
    - A Python [int] is a [Z].
    - A raised exception is the left injection of a sum and carries its
      class and its message, so that an [except] clause can select it.
    - The insertion-ordered dictionary returned by the engine is an
      association list, written to with [od_set].
    - The one piece of state that outlives a call, the netmask cache of
      [ipaddress], is threaded through the calls in [Cached]. *)

From Stdlib Require Import ZArith String Ascii List Bool Lia.
From Stdlib Require DecimalString HexadecimalString.
From stdpp Require Import base option gmap strings list.

Local Open Scope string_scope.
Local Open Scope Z_scope.

(** ** Python builtins on [str] *)

Module Py.

Definition dquote : ascii := "034"%char.
Definition squote : ascii := "'"%char.
Definition backslash : ascii := "\"%char.

Definition ord (c : ascii) : Z := Z.of_N (N_of_ascii c).

Definition str1 (c : ascii) : string := String c EmptyString.

(** [c in s] for a one-character [c]. *)
Fixpoint contains (c : ascii) (s : string) : bool :=
  match s with
  | EmptyString => false
  | String d s' => if Ascii.eqb d c then true else contains c s'
  end.

(** [s.split(sep)] for a one-character separator: never the empty list. *)
Fixpoint split (sep : ascii) (s : string) : list string :=
  match s with
  | EmptyString => [EmptyString]
  | String c s' =>
      if Ascii.eqb c sep then EmptyString :: split sep s'
      else match split sep s' with
           | [] => [str1 c]
           | p :: ps => String c p :: ps
           end
  end.

(** [s.partition(sep)]: the text before the first [sep], whether [sep]
    was found, and the text after it. *)
Fixpoint partition (sep : ascii) (s : string) : string * bool * string :=
  match s with
  | EmptyString => (EmptyString, false, EmptyString)
  | String c s' =>
      if Ascii.eqb c sep then (EmptyString, true, s')
      else let '(a, found, b) := partition sep s' in (String c a, found, b)
  end.

(** [sep.join(parts)]. *)
Fixpoint join (sep : string) (parts : list string) : string :=
  match parts with
  | [] => EmptyString
  | [p] => p
  | p :: ps => p +:+ sep +:+ join sep ps
  end.

Fixpoint all_chars (f : ascii -> bool) (s : string) : bool :=
  match s with
  | EmptyString => true
  | String c s' => f c && all_chars f s'
  end.

Definition is_ascii_char (c : ascii) : bool := ord c <? 128.

(** [str.isdigit] on a character: the ASCII digits and the three
    superscript digits of Latin-1. *)
Definition is_digit_char (c : ascii) : bool :=
  let n := ord c in
  ((48 <=? n) && (n <=? 57)) || (n =? 178) || (n =? 179) || (n =? 185).

Definition isascii (s : string) : bool := all_chars is_ascii_char s.

Definition isdigit (s : string) : bool :=
  match s with
  | EmptyString => false
  | _ => all_chars is_digit_char s
  end.

(** [str(n)] and ["%d" % n]. *)
Definition str_of_int (n : Z) : string :=
  DecimalString.NilZero.string_of_int (Z.to_int n).

Definition hex_char (d : Z) : ascii :=
  nth (Z.to_nat d) (list_ascii_of_string "0123456789abcdef") "0"%char.

(** The hexadecimal digits of [n] pushed in front of [acc], last digit
    first; [fuel] bounds the number of digits. *)
Fixpoint hex_digits (fuel : nat) (n : Z) (acc : string) : string :=
  match fuel with
  | O => acc
  | S fuel' =>
      let acc := String (hex_char (n mod 16)) acc in
      if n / 16 =? 0 then acc else hex_digits fuel' (n / 16) acc
  end.

(** ["%x" % n] for [n >= 0]: [n] has at most [log2 n + 1] digits. *)
Definition hex_of_int (n : Z) : string :=
  hex_digits (S (Z.to_nat (Z.log2 n))) n EmptyString.

Fixpoint zeros (k : nat) : string :=
  match k with
  | O => EmptyString
  | S k' => String "0" (zeros k')
  end.

(** ["%0<width>x" % n]. *)
Definition hex_padded (width : nat) (n : Z) : string :=
  let h := hex_of_int n in
  zeros (width - String.length h) +:+ h.

(** [s[start:start+len]]. *)
Definition slice (start len : nat) (s : string) : string :=
  String.substring start len s.

(** *** [repr] of a [str] and of a [bytes] *)

Definition hex2 (c : ascii) : string := hex_padded 2 (ord c).

(** [str.isprintable] on a code point below 256. *)
Definition is_printable (c : ascii) : bool :=
  let n := ord c in
  ((32 <=? n) && (n <=? 126)) || ((161 <=? n) && negb (n =? 173)).

Definition repr_quote (s : string) : ascii :=
  if contains squote s && negb (contains dquote s) then dquote else squote.

Definition repr_char (printable : ascii -> bool) (q c : ascii) : string :=
  if Ascii.eqb c backslash then String backslash (str1 backslash)
  else if Ascii.eqb c q then String backslash (str1 q)
  else if ord c =? 9 then String backslash "t"
  else if ord c =? 10 then String backslash "n"
  else if ord c =? 13 then String backslash "r"
  else if printable c then str1 c
  else String backslash ("x" +:+ hex2 c).

Fixpoint repr_body (printable : ascii -> bool) (q : ascii) (s : string) : string :=
  match s with
  | EmptyString => EmptyString
  | String c s' => repr_char printable q c +:+ repr_body printable q s'
  end.

(** [repr(s)], also ["%r" % s] and [f"{s!r}"]. *)
Definition repr (s : string) : string :=
  let q := repr_quote s in
  String q (repr_body is_printable q s) +:+ str1 q.

Definition is_printable_byte (c : ascii) : bool :=
  let n := ord c in (32 <=? n) && (n <=? 126).

(** [repr(b)] for a [bytes] object given by its bytes. *)
Definition repr_bytes (b : string) : string :=
  let q := repr_quote b in
  String "b" (String q (repr_body is_printable_byte q b)) +:+ str1 q.

(** *** [int(s, base)] *)

(** The characters [int] strips from both ends: the ASCII white space of
    the C locale and the two Latin-1 spaces. *)
Definition is_int_space (c : ascii) : bool :=
  let n := ord c in
  ((9 <=? n) && (n <=? 13)) || (n =? 32) || (n =? 133) || (n =? 160).

Fixpoint lstrip (s : string) : string :=
  match s with
  | String c s' => if is_int_space c then lstrip s' else s
  | EmptyString => EmptyString
  end.

Fixpoint rev_onto (s acc : string) : string :=
  match s with
  | EmptyString => acc
  | String c s' => rev_onto s' (String c acc)
  end.

Definition rev_string (s : string) : string := rev_onto s EmptyString.

Definition strip (s : string) : string :=
  rev_string (lstrip (rev_string (lstrip s))).

Definition digit_value (c : ascii) : option Z :=
  let n := ord c in
  if (48 <=? n) && (n <=? 57) then Some (n - 48)
  else if (97 <=? n) && (n <=? 122) then Some (n - 87)
  else if (65 <=? n) && (n <=? 90) then Some (n - 55)
  else None.

(** The digits of a literal, with single underscores between digits.
    [prev] tells whether an underscore may come next; the result is the
    value and the number of digits read. *)
Fixpoint int_digits (base : Z) (s : string) (acc : Z) (count : Z) (prev : bool)
  : option (Z * Z) :=
  match s with
  | EmptyString => if prev then Some (acc, count) else None
  | String c s' =>
      if Ascii.eqb c "_" then
        if prev then int_digits base s' acc count false else None
      else
        match digit_value c with
        | Some d =>
            if d <? base then int_digits base s' (acc * base + d) (count + 1) true
            else None
        | None => None
        end
  end.

Definition max_str_digits : Z := 4300.

(** An optional sign in front of the digits. *)
Definition split_sign (s : string) : bool * string :=
  match s with
  | String c s' =>
      if Ascii.eqb c "+" then (false, s')
      else if Ascii.eqb c "-" then (true, s')
      else (false, s)
  | EmptyString => (false, s)
  end.

(** An optional [0x] or [0X] in front of hexadecimal digits, and the one
    underscore allowed after it. *)
Definition skip_hex_prefix (s : string) : string :=
  match s with
  | String c1 (String c2 s') =>
      if Ascii.eqb c1 "0" && (Ascii.eqb c2 "x" || Ascii.eqb c2 "X") then
        match s' with
        | String c3 s'' => if Ascii.eqb c3 "_" then s'' else s'
        | EmptyString => s'
        end
      else s
  | _ => s
  end.

(** [int(s, base)] for base 10 or 16; [None] stands for [ValueError]. *)
Definition int_base (base : Z) (s : string) : option Z :=
  let s := strip s in
  let '(neg, s) := split_sign s in
  let s := if base =? 16 then skip_hex_prefix s else s in
  match int_digits base s 0 0 false with
  | Some (v, count) =>
      if (base =? 10) && (max_str_digits <? count) then None
      else Some (if neg then - v else v)
  | None => None
  end.

(** [int(s)]. *)
Definition int (s : string) : option Z := int_base 10 s.

(** [n.bit_length()]. *)
Definition bit_length (n : Z) : Z :=
  if n =? 0 then 0 else Z.log2 (Z.abs n) + 1.

End Py.

(** ** Exceptions *)

(** The exception classes that the engine and [ipaddress] raise or name
    in an [except] clause.  [AddressValueError] and [NetmaskValueError]
    are subclasses of [ValueError]; [OverflowError] and [StopIteration]
    are not. *)
Inductive exn_class : Type :=
| CValueError
| CAddressValueError
| CNetmaskValueError
| COverflowError
| CStopIteration.

(** A raised exception: its class and [str(e)]. *)
Record exn : Type := Exn { exn_cls : exn_class; exn_msg : string }.

Definition AddressValueError (msg : string) : exn := Exn CAddressValueError msg.
Definition NetmaskValueError (msg : string) : exn := Exn CNetmaskValueError msg.
Definition ValueError (msg : string) : exn := Exn CValueError msg.
Definition OverflowError (msg : string) : exn := Exn COverflowError msg.
Definition StopIteration : exn := Exn CStopIteration EmptyString.

(** [issubclass(c, handler)]. *)
Definition subclass (c handler : exn_class) : bool :=
  match handler, c with
  | CValueError, (CValueError | CAddressValueError | CNetmaskValueError) => true
  | CAddressValueError, CAddressValueError => true
  | CNetmaskValueError, CNetmaskValueError => true
  | COverflowError, COverflowError => true
  | CStopIteration, CStopIteration => true
  | _, _ => false
  end.

Definition result (A : Type) : Type := (exn + A)%type.

Definition ret {A : Type} (a : A) : result A := inr a.
Definition raise {A : Type} (e : exn) : result A := inl e.

Definition bind {A B : Type} (c : result A) (k : A -> result B) : result B :=
  match c with
  | inl e => inl e
  | inr a => k a
  end.

(** [try: c  except handler as e: h e]. *)
Definition catch {A : Type} (c : result A) (handler : exn_class)
  (h : exn -> result A) : result A :=
  match c with
  | inl e => if subclass (exn_cls e) handler then h e else inl e
  | inr a => inr a
  end.

Notation "x <- c ;; k" := (bind c (fun x => k))
  (at level 20, c at level 99, k at level 200, only parsing).
Notation "' p <- c ;; k" := (bind c (fun x => let 'p := x in k))
  (at level 20, p pattern, c at level 99, k at level 200, only parsing).

Fixpoint mapM {A B : Type} (f : A -> result B) (l : list A) : result (list B) :=
  match l with
  | [] => ret []
  | a :: l' => b <- f a ;; bs <- mapM f l' ;; ret (b :: bs)
  end.

(** ** The [ipaddress] module *)

(** The two address families: the [_BaseV4] and [_BaseV6] mixins. *)
Inductive family : Type := V4 | V6.

Definition version (f : family) : Z :=
  match f with V4 => 4 | V6 => 6 end.

Definition max_prefixlen (f : family) : Z :=
  match f with V4 => 32 | V6 => 128 end.

Definition ALL_ONES (f : family) : Z := 2 ^ max_prefixlen f - 1.

(** An [IPv4Address] or [IPv6Address] object. *)
Record IPAddress : Type := Address {
  addr_family : family;
  ip_int : Z;
  scope_id : option string
}.

(** An [IPv4Network] or [IPv6Network] object. *)
Record IPNetwork : Type := Network {
  net_family : family;
  network_address : IPAddress;
  netmask : IPAddress;
  prefixlen : Z
}.

(** The argument of [_make_netmask], which is also the key of
    [_netmask_cache]: the text after the slash, or the integer
    [_max_prefixlen] when there is no slash. *)
Abbreviation mask_arg := (string + Z)%type (only parsing).
Abbreviation MaskStr := (@inl string Z) (only parsing).
Abbreviation MaskInt := (@inr string Z) (only parsing).

(** [n.to_bytes(len, 'big')]. *)
Definition to_bytes (len : nat) (n : Z) : result string :=
  if n <? 0 then raise (OverflowError "can't convert negative int to unsigned")
  else if 2 ^ (8 * Z.of_nat len) <=? n then raise (OverflowError "int too big to convert")
  else ret (string_of_list_ascii
              (map (fun i => ascii_of_N (Z.to_N (Z.land (Z.shiftr n (8 * Z.of_nat i)) 255)))
                   (rev (seq 0 len)))).

Definition _count_righthand_zero_bits (number bits : Z) : Z :=
  if number =? 0 then bits
  else Z.min bits (Py.bit_length (Z.land (Z.lnot number) (number - 1))).

Definition _check_int_address (f : family) (address : Z) : result unit :=
  if address <? 0 then
    raise (AddressValueError
             (Py.str_of_int address +:+ " (< 0) is not permitted as an IPv"
              +:+ Py.str_of_int (version f) +:+ " address"))
  else if ALL_ONES f <? address then
    raise (AddressValueError
             (Py.str_of_int address +:+ " (>= 2**" +:+ Py.str_of_int (max_prefixlen f)
              +:+ ") is not permitted as an IPv" +:+ Py.str_of_int (version f)
              +:+ " address"))
  else ret tt.

(** [IPv4Address(n)] and [IPv6Address(n)] for an integer [n]. *)
Definition address_of_int (f : family) (address : Z) : result IPAddress :=
  _ <- _check_int_address f address ;;
  ret (Address f address None).

(** The shift count is a prefix length that both callers have checked to
    lie in [[0, max_prefixlen]]. *)
Definition _ip_int_from_prefix (f : family) (prefixlen : Z) : Z :=
  Z.lxor (ALL_ONES f) (Z.shiftr (ALL_ONES f) prefixlen).

Definition _prefix_from_ip_int (f : family) (ip_int : Z) : result Z :=
  let trailing_zeroes := _count_righthand_zero_bits ip_int (max_prefixlen f) in
  let prefixlen := max_prefixlen f - trailing_zeroes in
  let leading_ones := Z.shiftr ip_int trailing_zeroes in
  let all_ones := Z.shiftl 1 prefixlen - 1 in
  if negb (leading_ones =? all_ones) then
    let byteslen := max_prefixlen f / 8 in
    details <- to_bytes (Z.to_nat byteslen) ip_int ;;
    raise (ValueError ("Netmask pattern " +:+ Py.repr_bytes details
                       +:+ " mixes zeroes & ones"))
  else ret prefixlen.

(** [netmask_repr] is [repr] of the offending netmask. *)
Definition _report_invalid_netmask {A : Type} (netmask_repr : string) : result A :=
  raise (NetmaskValueError (netmask_repr +:+ " is not a valid netmask")).

Definition _prefix_from_prefix_string (f : family) (prefixlen_str : string) : result Z :=
  if negb (Py.isascii prefixlen_str && Py.isdigit prefixlen_str) then
    _report_invalid_netmask (Py.repr prefixlen_str)
  else
    match Py.int prefixlen_str with
    | None => _report_invalid_netmask (Py.repr prefixlen_str)
    | Some prefixlen =>
        if negb ((0 <=? prefixlen) && (prefixlen <=? max_prefixlen f)) then
          _report_invalid_netmask (Py.repr prefixlen_str)
        else ret prefixlen
    end.

(** *** IPv4 text *)

Definition _parse_octet (octet_str : string) : result Z :=
  if String.eqb octet_str EmptyString then
    raise (ValueError "Empty octet not permitted")
  else if negb (Py.isascii octet_str && Py.isdigit octet_str) then
    raise (ValueError ("Only decimal digits permitted in " +:+ Py.repr octet_str))
  else if 3 <? Z.of_nat (String.length octet_str) then
    raise (ValueError ("At most 3 characters permitted in " +:+ Py.repr octet_str))
  else if negb (String.eqb octet_str "0") && String.eqb (Py.slice 0 1 octet_str) "0" then
    raise (ValueError ("Leading zeros are not permitted in " +:+ Py.repr octet_str))
  else
    match Py.int_base 10 octet_str with
    | None =>
        raise (ValueError ("invalid literal for int() with base 10: "
                           +:+ Py.repr octet_str))
    | Some octet_int =>
        if 255 <? octet_int then
          raise (ValueError ("Octet " +:+ Py.str_of_int octet_int
                             +:+ " (> 255) not permitted"))
        else ret octet_int
    end.

(** [int.from_bytes(bs, 'big')] on a list of byte values. *)
Definition from_bytes (bs : list Z) : Z :=
  fold_left (fun acc b => acc * 256 + b) bs 0.

Definition _ip_int_from_string_v4 (ip_str : string) : result Z :=
  if String.eqb ip_str EmptyString then
    raise (AddressValueError "Address cannot be empty")
  else
    let octets := Py.split "." ip_str in
    if negb (Z.of_nat (length octets) =? 4) then
      raise (AddressValueError ("Expected 4 octets in " +:+ Py.repr ip_str))
    else
      catch (bs <- mapM _parse_octet octets ;; ret (from_bytes bs))
        CValueError
        (fun exc => raise (AddressValueError
                             (exn_msg exc +:+ " in " +:+ Py.repr ip_str))).

(** [IPv4Address(s)] for a string [s]. *)
Definition IPv4Address (address : string) : result IPAddress :=
  if Py.contains "/" address then
    raise (AddressValueError ("Unexpected '/' in " +:+ Py.repr address))
  else
    ip <- _ip_int_from_string_v4 address ;;
    ret (Address V4 ip None).

Definition _string_from_ip_int_v4 (ip_int : Z) : result string :=
  bs <- to_bytes 4 ip_int ;;
  ret (Py.join "." (map (fun b => Py.str_of_int (Py.ord b)) (list_ascii_of_string bs))).

Definition _prefix_from_ip_string (ip_str : string) : result Z :=
  ip_int <- catch (_ip_int_from_string_v4 ip_str) CAddressValueError
              (fun _ => _report_invalid_netmask (Py.repr ip_str)) ;;
  catch (_prefix_from_ip_int V4 ip_int) CValueError
    (fun _ =>
       let ip_int := Z.lxor ip_int (ALL_ONES V4) in
       catch (_prefix_from_ip_int V4 ip_int) CValueError
         (fun _ => _report_invalid_netmask (Py.repr ip_str))).

(** *** IPv6 text *)

Definition _HEXTET_COUNT : Z := 8.

(** Membership in [_HEX_DIGITS]. *)
Definition is_hex_digit (c : ascii) : bool :=
  Py.contains c "0123456789ABCDEFabcdef".

Definition _parse_hextet (hextet_str : string) : result Z :=
  if negb (Py.all_chars is_hex_digit hextet_str) then
    raise (ValueError ("Only hex digits permitted in " +:+ Py.repr hextet_str))
  else if 4 <? Z.of_nat (String.length hextet_str) then
    raise (ValueError ("At most 4 characters permitted in " +:+ Py.repr hextet_str))
  else
    match Py.int_base 16 hextet_str with
    | None =>
        raise (ValueError ("invalid literal for int() with base 16: "
                           +:+ Py.repr hextet_str))
    | Some n => ret n
    end.

(** The loop over [range(1, len(parts) - 1)] that looks for the one
    empty part a double colon leaves; [i] is the index of the head of
    [interior]. *)
Fixpoint find_skip_index (ip_str : string) (interior : list string) (i : Z)
  (skip_index : option Z) : result (option Z) :=
  match interior with
  | [] => ret skip_index
  | part :: rest =>
      if String.eqb part EmptyString then
        match skip_index with
        | Some _ =>
            raise (AddressValueError ("At most one '::' permitted in " +:+ Py.repr ip_str))
        | None => find_skip_index ip_str rest (i + 1) (Some i)
        end
      else find_skip_index ip_str rest (i + 1) skip_index
  end.

(** [for p in ps: ip_int <<= 16; ip_int |= _parse_hextet(p)]. *)
Fixpoint shift_in_hextets (ps : list string) (ip_int : Z) : result Z :=
  match ps with
  | [] => ret ip_int
  | p :: ps' =>
      let ip_int := Z.shiftl ip_int 16 in
      h <- _parse_hextet p ;;
      shift_in_hextets ps' (Z.lor ip_int h)
  end.

(** [l[-n:]] for [n >= 0] read as the last [n] elements, the way
    [range(-n, 0)] indexes them. *)
Definition last_n {A : Type} (n : Z) (l : list A) : list A :=
  drop (length l - Z.to_nat n) l.

Definition _ip_int_from_string_v6 (ip_str : string) : result Z :=
  if String.eqb ip_str EmptyString then
    raise (AddressValueError "Address cannot be empty")
  else
    let parts := Py.split ":" ip_str in
    let _min_parts := 3 in
    if Z.of_nat (length parts) <? _min_parts then
      raise (AddressValueError ("At least " +:+ Py.str_of_int _min_parts
                                +:+ " parts expected in " +:+ Py.repr ip_str))
    else
      parts <-
        (if Py.contains "." (List.last parts EmptyString) then
           a <- catch (IPv4Address (List.last parts EmptyString)) CAddressValueError
                  (fun exc => raise (AddressValueError
                                       (exn_msg exc +:+ " in " +:+ Py.repr ip_str))) ;;
           let ipv4_int := ip_int a in
           ret (removelast parts
                  ++ [Py.hex_of_int (Z.land (Z.shiftr ipv4_int 16) 65535);
                      Py.hex_of_int (Z.land ipv4_int 65535)])%list
         else ret parts) ;;
      let _max_parts := _HEXTET_COUNT + 1 in
      if _max_parts <? Z.of_nat (length parts) then
        raise (AddressValueError ("At most " +:+ Py.str_of_int (_max_parts - 1)
                                  +:+ " colons permitted in " +:+ Py.repr ip_str))
      else
        skip_index <- find_skip_index ip_str (removelast (tail parts)) 1 None ;;
        let first_empty := String.eqb (hd EmptyString parts) EmptyString in
        let last_empty := String.eqb (List.last parts EmptyString) EmptyString in
        '(parts_hi, parts_lo, parts_skipped) <-
          match skip_index with
          | Some skip_index =>
              let parts_hi := skip_index in
              let parts_lo := Z.of_nat (length parts) - skip_index - 1 in
              parts_hi <-
                (if first_empty then
                   let parts_hi := parts_hi - 1 in
                   if negb (parts_hi =? 0) then
                     raise (AddressValueError
                              ("Leading ':' only permitted as part of '::' in "
                               +:+ Py.repr ip_str))
                   else ret parts_hi
                 else ret parts_hi) ;;
              parts_lo <-
                (if last_empty then
                   let parts_lo := parts_lo - 1 in
                   if negb (parts_lo =? 0) then
                     raise (AddressValueError
                              ("Trailing ':' only permitted as part of '::' in "
                               +:+ Py.repr ip_str))
                   else ret parts_lo
                 else ret parts_lo) ;;
              let parts_skipped := _HEXTET_COUNT - (parts_hi + parts_lo) in
              if parts_skipped <? 1 then
                raise (AddressValueError
                         ("Expected at most " +:+ Py.str_of_int (_HEXTET_COUNT - 1)
                          +:+ " other parts with '::' in " +:+ Py.repr ip_str))
              else ret (parts_hi, parts_lo, parts_skipped)
          | None =>
              if negb (Z.of_nat (length parts) =? _HEXTET_COUNT) then
                raise (AddressValueError
                         ("Exactly " +:+ Py.str_of_int _HEXTET_COUNT
                          +:+ " parts expected without '::' in " +:+ Py.repr ip_str))
              else if first_empty then
                raise (AddressValueError
                         ("Leading ':' only permitted as part of '::' in "
                          +:+ Py.repr ip_str))
              else if last_empty then
                raise (AddressValueError
                         ("Trailing ':' only permitted as part of '::' in "
                          +:+ Py.repr ip_str))
              else ret (Z.of_nat (length parts), 0, 0)
          end ;;
        catch
          (ip_int <- shift_in_hextets (take (Z.to_nat parts_hi) parts) 0 ;;
           let ip_int := Z.shiftl ip_int (16 * parts_skipped) in
           shift_in_hextets (last_n parts_lo parts) ip_int)
          CValueError
          (fun exc => raise (AddressValueError
                               (exn_msg exc +:+ " in " +:+ Py.repr ip_str))).

Definition _split_scope_id (ip_str : string) : result (string * option string) :=
  let '(addr, sep, scope_id) := Py.partition "%" ip_str in
  if negb sep then ret (addr, None)
  else if String.eqb scope_id EmptyString || Py.contains "%" scope_id then
    raise (AddressValueError
             ("Invalid IPv6 address: " +:+ Py.str1 Py.dquote +:+ Py.repr ip_str
              +:+ Py.str1 Py.dquote))
  else ret (addr, Some scope_id).

(** [IPv6Address(s)] for a string [s]. *)
Definition IPv6Address (address : string) : result IPAddress :=
  if Py.contains "/" address then
    raise (AddressValueError ("Unexpected '/' in " +:+ Py.repr address))
  else
    '(addr_str, scope) <- _split_scope_id address ;;
    ip <- _ip_int_from_string_v6 addr_str ;;
    ret (Address V6 ip scope).

(** The state of the loop of [_compress_hextets]. *)
Record dc_state : Type := DcState {
  best_doublecolon_start : Z;
  best_doublecolon_len : Z;
  doublecolon_start : Z;
  doublecolon_len : Z
}.

Definition dc_step (st : dc_state) (index : Z) (hextet : string) : dc_state :=
  if String.eqb hextet "0" then
    let doublecolon_len := doublecolon_len st + 1 in
    let doublecolon_start :=
      if doublecolon_start st =? -1 then index else doublecolon_start st in
    if best_doublecolon_len st <? doublecolon_len then
      DcState doublecolon_start doublecolon_len doublecolon_start doublecolon_len
    else
      DcState (best_doublecolon_start st) (best_doublecolon_len st)
        doublecolon_start doublecolon_len
  else
    DcState (best_doublecolon_start st) (best_doublecolon_len st) (-1) 0.

Fixpoint dc_loop (hextets : list string) (index : Z) (st : dc_state) : dc_state :=
  match hextets with
  | [] => st
  | h :: hs => dc_loop hs (index + 1) (dc_step st index h)
  end.

Definition _compress_hextets (hextets : list string) : list string :=
  let st := dc_loop hextets 0 (DcState (-1) 0 (-1) 0) in
  if 1 <? best_doublecolon_len st then
    let best_doublecolon_end := best_doublecolon_start st + best_doublecolon_len st in
    let hextets :=
      if best_doublecolon_end =? Z.of_nat (length hextets)
      then (hextets ++ [EmptyString])%list else hextets in
    let hextets :=
      (take (Z.to_nat (best_doublecolon_start st)) hextets
         ++ [EmptyString] ++ drop (Z.to_nat best_doublecolon_end) hextets)%list in
    if best_doublecolon_start st =? 0 then EmptyString :: hextets else hextets
  else hextets.

Definition _string_from_ip_int_v6 (ip_int : Z) : result string :=
  if ALL_ONES V6 <? ip_int then raise (ValueError "IPv6 address is too large")
  else
    let hex_str := Py.hex_padded 32 ip_int in
    hextets <-
      mapM (fun x =>
              match Py.int_base 16 (Py.slice x 4 hex_str) with
              | None =>
                  raise (ValueError ("invalid literal for int() with base 16: "
                                     +:+ Py.repr (Py.slice x 4 hex_str)))
              | Some n => ret (Py.hex_of_int n)
              end)
           [0; 4; 8; 12; 16; 20; 24; 28]%nat ;;
    let hextets := _compress_hextets hextets in
    ret (Py.join ":" hextets).

(** [str(a)] for an address object. *)
Definition str_address (a : IPAddress) : result string :=
  match addr_family a with
  | V4 => _string_from_ip_int_v4 (ip_int a)
  | V6 =>
      ip_str <- _string_from_ip_int_v6 (ip_int a) ;;
      match scope_id a with
      | Some sc =>
          if String.eqb sc EmptyString then ret ip_str
          else ret (ip_str +:+ "%" +:+ sc)
      | None => ret ip_str
      end
  end.

(** [a + n] and [a - n] for an address [a] and an integer [n]. *)
Definition address_add (a : IPAddress) (other : Z) : result IPAddress :=
  address_of_int (addr_family a) (ip_int a + other).

Definition address_sub (a : IPAddress) (other : Z) : result IPAddress :=
  address_of_int (addr_family a) (ip_int a - other).

(** *** Networks *)

(** [_make_netmask] when the argument is not in [_netmask_cache]. *)
Definition _make_netmask (f : family) (arg : mask_arg) : result (IPAddress * Z) :=
  prefixlen <-
    match arg with
    | inr prefixlen =>
        if negb ((0 <=? prefixlen) && (prefixlen <=? max_prefixlen f)) then
          _report_invalid_netmask (Py.str_of_int prefixlen)
        else ret prefixlen
    | inl arg =>
        match f with
        | V4 =>
            catch (_prefix_from_prefix_string V4 arg) CNetmaskValueError
              (fun _ => _prefix_from_ip_string arg)
        | V6 => _prefix_from_prefix_string V6 arg
        end
    end ;;
  netmask <- address_of_int f (_ip_int_from_prefix f prefixlen) ;;
  ret (netmask, prefixlen).

Definition _split_optional_netmask (address : string) : result (list string) :=
  let addr := Py.split "/" address in
  if 2 <? Z.of_nat (length addr) then
    raise (AddressValueError ("Only one '/' permitted in " +:+ Py.repr address))
  else ret addr.

Definition _split_addr_prefix (f : family) (address : string)
  : result (string * mask_arg) :=
  address <- _split_optional_netmask address ;;
  match address with
  | [addr; mask] => ret (addr, MaskStr mask)
  | _ => ret (hd EmptyString address, MaskInt (max_prefixlen f))
  end.

(** [IPv4Address(s)] or [IPv6Address(s)]. *)
Definition address_of_str (f : family) (address : string) : result IPAddress :=
  match f with
  | V4 => IPv4Address address
  | V6 => IPv6Address address
  end.

(** [str(net)]: ["%s/%d" % (net.network_address, net.prefixlen)]. *)
Definition str_network (network_address : IPAddress) (prefixlen : Z) : result string :=
  a <- str_address network_address ;;
  ret (a +:+ "/" +:+ Py.str_of_int prefixlen).

(** The body shared by [IPv4Network.__init__] and [IPv6Network.__init__],
    given the outcome of [_make_netmask]. *)
Definition network_init (f : family) (strict : bool) (network_address : IPAddress)
  (made : IPAddress * Z) : result IPNetwork :=
  let '(netmask, prefixlen) := made in
  let packed := ip_int network_address in
  network_address <-
    (if negb (Z.land packed (ip_int netmask) =? packed) then
       if strict then
         self <- str_network network_address prefixlen ;;
         raise (ValueError (self +:+ " has host bits set"))
       else address_of_int f (Z.land packed (ip_int netmask))
     else ret network_address) ;;
  ret (Network f network_address netmask prefixlen).

(** [IPv4Network(address, strict)] and [IPv6Network(address, strict)]. *)
Definition IPNetwork_new (f : family) (address : string) (strict : bool)
  : result IPNetwork :=
  '(addr, mask) <- _split_addr_prefix f address ;;
  network_address <- address_of_str f addr ;;
  made <- _make_netmask f mask ;;
  network_init f strict network_address made.

Definition IPv4Network : string -> bool -> result IPNetwork := IPNetwork_new V4.
Definition IPv6Network : string -> bool -> result IPNetwork := IPNetwork_new V6.

(** [except (AddressValueError, NetmaskValueError): pass]. *)
Definition is_address_or_netmask_error (e : exn) : bool :=
  subclass (exn_cls e) CAddressValueError || subclass (exn_cls e) CNetmaskValueError.

Definition not_a_network (address : string) : exn :=
  ValueError (Py.repr address +:+ " does not appear to be an IPv4 or IPv6 network").

(** [ipaddress.ip_network(address, strict)]. *)
Definition ip_network (address : string) (strict : bool) : result IPNetwork :=
  match IPv4Network address strict with
  | inr net => ret net
  | inl e =>
      if is_address_or_netmask_error e then
        match IPv6Network address strict with
        | inr net => ret net
        | inl e =>
            if is_address_or_netmask_error e then raise (not_a_network address)
            else inl e
        end
      else inl e
  end.

(** [ipaddress.ip_address(address)]. *)
Definition ip_address (address : string) : result IPAddress :=
  match IPv4Address address with
  | inr a => ret a
  | inl e =>
      if is_address_or_netmask_error e then
        match IPv6Address address with
        | inr a => ret a
        | inl e =>
            if is_address_or_netmask_error e then
              raise (ValueError (Py.repr address
                                 +:+ " does not appear to be an IPv4 or IPv6 address"))
            else inl e
        end
      else inl e
  end.

Definition net_hostmask (net : IPNetwork) : result IPAddress :=
  address_of_int (net_family net)
    (Z.lxor (ip_int (netmask net)) (ALL_ONES (net_family net))).

Definition net_broadcast_address (net : IPNetwork) : result IPAddress :=
  h <- net_hostmask net ;;
  address_of_int (net_family net)
    (Z.lor (ip_int (network_address net)) (ip_int h)).

Definition net_num_addresses (net : IPNetwork) : result Z :=
  b <- net_broadcast_address net ;;
  ret (ip_int b - ip_int (network_address net) + 1).

(** [next(net.hosts())]: the first address the generator of
    [_BaseNetwork.hosts] yields, or [StopIteration] when
    [range(network + 1, broadcast)] is empty. *)
Definition next_hosts (net : IPNetwork) : result IPAddress :=
  let network := ip_int (network_address net) in
  b <- net_broadcast_address net ;;
  let broadcast := ip_int b in
  if network + 1 <? broadcast then address_of_int (net_family net) (network + 1)
  else raise StopIteration.

(** ** The engine: [Subnet-Calculator.py] *)

(** A value stored in the result dictionary: a [str] or an [int]. *)
Inductive value : Type :=
| VStr (s : string)
| VInt (n : Z).

(** The [OrderedDict] (and, for the error case, the [dict]) the engine
    returns: the keys in insertion order. *)
Definition details : Type := list (string * value).

(** [d[k] = v]: overwrite in place when [k] is present, append otherwise. *)
Fixpoint od_set (k : string) (v : value) (d : details) : details :=
  match d with
  | [] => [(k, v)]
  | (k', v') :: d' =>
      if String.eqb k' k then (k, v) :: d' else (k', v') :: od_set k v d'
  end.

(** [d.get(k)]. *)
Fixpoint od_get (k : string) (d : details) : option value :=
  match d with
  | [] => None
  | (k', v) :: d' => if String.eqb k' k then Some v else od_get k d'
  end.

(** [list(d.keys())]. *)
Definition od_keys (d : details) : list string := map fst d.

(** [get_ip_class]: the bare [except] turns every failure of
    [int(ip_address_str.split('.')[0])] into ["N/A"]. *)
Definition get_ip_class (ip_address_str : string) : string :=
  match Py.int (hd EmptyString (Py.split "." ip_address_str)) with
  | Some first_octet =>
      if (1 <=? first_octet) && (first_octet <=? 126) then "Class A"
      else if (128 <=? first_octet) && (first_octet <=? 191) then "Class B"
      else if (192 <=? first_octet) && (first_octet <=? 223) then "Class C"
      else if (224 <=? first_octet) && (first_octet <=? 239) then "Class D (Multicast)"
      else if (240 <=? first_octet) && (first_octet <=? 255) then "Class E (Reserved)"
      else "Special/Reserved"
  | None => "N/A"
  end.

(** The [try] block of [calculate_subnet_details] from the line after
    the call of [ip_network] to [return details]. *)
Definition subnet_details (ip_with_cidr : string) (network : IPNetwork)
  : result details :=
  let version := version (net_family network) in
  let details : details := [] in
  let details := od_set "Input IP/CIDR" (VStr ip_with_cidr) details in
  let details := od_set "IP Version" (VStr ("IPv" +:+ Py.str_of_int version)) details in
  network_id <- str_address (network_address network) ;;
  let details := od_set "Network ID" (VStr network_id) details in
  details <-
    (if version =? 4 then
       s <- str_address (network_address network) ;;
       let ip_class := get_ip_class s in
       ret (od_set "Historical Class" (VStr ip_class) details)
     else ret details) ;;
  let details :=
    od_set "CIDR Prefix" (VStr ("/" +:+ Py.str_of_int (prefixlen network))) details in
  if version =? 4 then
    total_hosts <- net_num_addresses network ;;
    let host_bits := 32 - prefixlen network in
    '(usable_hosts, broadcast_address, host_range) <-
      (if prefixlen network =? 31 then
         let usable_hosts := 2 in
         b <- address_add (network_address network) 1 ;;
         broadcast_address <- str_address b ;;
         n <- str_address (network_address network) ;;
         ret (usable_hosts, broadcast_address,
              n +:+ " - " +:+ broadcast_address +:+ " (RFC 3021 P2P)")
       else if prefixlen network =? 32 then
         let usable_hosts := 1 in
         broadcast_address <- str_address (network_address network) ;;
         host_range <- str_address (network_address network) ;;
         ret (usable_hosts, broadcast_address, host_range)
       else
         let usable_hosts := total_hosts - 2 in
         b <- net_broadcast_address network ;;
         broadcast_address <- str_address b ;;
         host_range <-
           catch
             (first_host <- next_hosts network ;;
              b <- net_broadcast_address network ;;
              last_host <- address_sub b 1 ;;
              first <- str_address first_host ;;
              last <- str_address last_host ;;
              ret (first +:+ " - " +:+ last))
             CStopIteration
             (fun _ => ret "None") ;;
         ret (usable_hosts, broadcast_address, host_range)) ;;
    m <- str_address (netmask network) ;;
    let details := od_set "Subnet Mask" (VStr m) details in
    let details := od_set "Host Bits (h)" (VInt host_bits) details in
    let details :=
      od_set "Subnet Bits (s)"
        (VInt (if 24 <? prefixlen network then prefixlen network mod 8
               else prefixlen network)) details in
    let details := od_set "Total IP Addresses" (VInt total_hosts) details in
    let details :=
      if prefixlen network =? 31 then
        od_set "Usable Host Count"
          (VStr (Py.str_of_int usable_hosts +:+ " (RFC 3021 P2P)")) details
      else if prefixlen network =? 32 then
        od_set "Usable Host Count"
          (VStr (Py.str_of_int usable_hosts +:+ " (Single Address)")) details
      else od_set "Usable Host Count" (VInt usable_hosts) details in
    let details := od_set "Broadcast Address" (VStr broadcast_address) details in
    let details := od_set "Usable Host Range" (VStr host_range) details in
    ret details
  else if version =? 6 then
    let host_bits := 128 - prefixlen network in
    let details := od_set "Subnet Mask Concept" (VStr "Not Applicable (N/A)") details in
    let details := od_set "Host Bits" (VInt host_bits) details in
    let details :=
      if 64 <=? host_bits then
        let details :=
          od_set "Total IP Addresses"
            (VStr ("2^" +:+ Py.str_of_int host_bits +:+ " (Standard /64 Subnet)"))
            details in
        od_set "Usable Host Count" (VStr "Effectively infinite") details
      else
        let details :=
          od_set "Total IP Addresses" (VStr ("2^" +:+ Py.str_of_int host_bits))
            details in
        od_set "Usable Host Count" (VStr ("2^" +:+ Py.str_of_int host_bits)) details in
    let details :=
      od_set "Broadcast Address Concept" (VStr "Not Applicable (Uses Multicast)")
        details in
    let details :=
      od_set "Host Range Concept" (VStr "The entire address space after the prefix.")
        details in
    ret details
  else ret details.

(** [except ValueError as e: return {"Error": f"Invalid input: {e}"}];
    an exception of another class leaves the function. *)
Definition on_ValueError (r : result details) : result details :=
  catch r CValueError
    (fun e => ret [("Error", VStr ("Invalid input: " +:+ exn_msg e))]).

(** [calculate_subnet_details]; [inl] is an exception that escapes. *)
Definition calculate_subnet_details (ip_with_cidr : string) : result details :=
  on_ValueError
    (network <- ip_network ip_with_cidr false ;;
     subnet_details ip_with_cidr network).


(** ** The netmask cache *)

(** [_make_netmask] keeps its results in the class attribute
    [_netmask_cache], one dictionary for [_BaseV4] and one for [_BaseV6],
    shared by all calls made in the process.  The definitions above are
    the body run on a miss; here the two dictionaries are threaded
    through the calls.  An exception leaves the dictionaries as they
    are. *)
Module Cached.

Record caches : Type := Caches {
  netmask_cache_v4 : gmap (string + Z) (IPAddress * Z);
  netmask_cache_v6 : gmap (string + Z) (IPAddress * Z)
}.

Definition netmask_cache (f : family) (c : caches)
  : gmap (string + Z) (IPAddress * Z) :=
  match f with
  | V4 => netmask_cache_v4 c
  | V6 => netmask_cache_v6 c
  end.

(** [cls._netmask_cache[arg] = made]. *)
Definition netmask_cache_set (f : family) (arg : string + Z) (made : IPAddress * Z)
  (c : caches) : caches :=
  match f with
  | V4 => Caches (<[arg := made]> (netmask_cache_v4 c)) (netmask_cache_v6 c)
  | V6 => Caches (netmask_cache_v4 c) (<[arg := made]> (netmask_cache_v6 c))
  end.

(** [_make_netmask] with its cache. *)
Definition make_netmask (f : family) (arg : string + Z) (c : caches)
  : result (IPAddress * Z) * caches :=
  match netmask_cache f c !! arg with
  | Some made => (ret made, c)
  | None =>
      match _make_netmask f arg with
      | inl e => (inl e, c)
      | inr made =>
          let c := netmask_cache_set f arg made c in
          match netmask_cache f c !! arg with
          | Some made => (ret made, c)
          | None => (ret made, c)
          end
      end
  end.

Definition IPNetwork_new (f : family) (address : string) (strict : bool) (c : caches)
  : result IPNetwork * caches :=
  match ('(addr, mask) <- _split_addr_prefix f address ;;
         network_address <- address_of_str f addr ;;
         ret (network_address, mask)) with
  | inl e => (inl e, c)
  | inr (network_address, mask) =>
      let '(made, c) := make_netmask f mask c in
      (made <- made ;; network_init f strict network_address made, c)
  end.

Definition ip_network (address : string) (strict : bool) (c : caches)
  : result IPNetwork * caches :=
  let '(r, c) := IPNetwork_new V4 address strict c in
  match r with
  | inr net => (ret net, c)
  | inl e =>
      if is_address_or_netmask_error e then
        let '(r, c) := IPNetwork_new V6 address strict c in
        match r with
        | inr net => (ret net, c)
        | inl e =>
            if is_address_or_netmask_error e then (raise (not_a_network address), c)
            else (inl e, c)
        end
      else (inl e, c)
  end.

Definition calculate_subnet_details (ip_with_cidr : string) (c : caches)
  : result details * caches :=
  let '(r, c) := ip_network ip_with_cidr false c in
  (on_ValueError (network <- r ;; subnet_details ip_with_cidr network), c).

(** Every entry of the caches is what [_make_netmask] computes for its
    key: the only writer is [_make_netmask] itself. *)
Definition consistent (c : caches) : Prop :=
  forall f arg made,
    netmask_cache f c !! arg = Some made -> _make_netmask f arg = inr made.

Definition empty : caches := Caches ∅ ∅.

End Cached.

(** ** The vocabulary of the specification *)

(** [raises P r]: if [r] is an exception, its class satisfies [P]. *)
Definition raises {A : Type} (P : exn_class -> Prop) (r : result A) : Prop :=
  match r with
  | inl e => P (exn_cls e)
  | inr _ => True
  end.

(** [returns Q r]: if [r] is a value, it satisfies [Q]. *)
Definition returns {A : Type} (Q : A -> Prop) (r : result A) : Prop :=
  match r with
  | inl _ => True
  | inr a => Q a
  end.

(** The two classes [ip_network] catches. *)
Definition address_or_netmask (cl : exn_class) : Prop :=
  cl = CAddressValueError \/ cl = CNetmaskValueError.

(** A character that [int] does not strip. *)
Definition not_space (c : ascii) : bool := negb (Py.is_int_space c).

(** A character that is a digit of the given base. *)
Definition is_base_digit (base : Z) (c : ascii) : bool :=
  match Py.digit_value c with
  | Some d => d <? base
  | None => false
  end.

(** What [int] needs of a character to read it as a plain digit. *)
Definition plain_digit (base : Z) (c : ascii) : bool :=
  is_base_digit base c && not_space c
  && negb (Ascii.eqb c "+") && negb (Ascii.eqb c "-") && negb (Ascii.eqb c "_")
  && negb (Ascii.eqb c "x") && negb (Ascii.eqb c "X").

(** The result of a rejected input. *)
Definition error_result (ip_with_cidr : string) : details :=
  [("Error", VStr ("Invalid input: " +:+ exn_msg (not_a_network ip_with_cidr)))].

(** The first octet of a 32-bit address. *)
Definition first_octet (address : Z) : Z := Z.shiftr address 24.

(** The class of a first octet, as the specification tabulates it. *)
Definition historical_class (octet : Z) : string :=
  if (1 <=? octet) && (octet <=? 126) then "Class A"
  else if (128 <=? octet) && (octet <=? 191) then "Class B"
  else if (192 <=? octet) && (octet <=? 223) then "Class C"
  else if (224 <=? octet) && (octet <=? 239) then "Class D (Multicast)"
  else if (240 <=? octet) && (octet <=? 255) then "Class E (Reserved)"
  else "Special/Reserved".

(** [mask(p, w)]: the [w]-bit value whose top [p] bits are set. *)
Definition mask (p w : Z) : Z := (2 ^ p - 1) * 2 ^ (w - p).

(** The address as supplied, before masking: what [IPv4Network.__init__]
    parses from the text in front of the slash. *)
Definition supplied_address (f : family) (ip_with_cidr : string) : result IPAddress :=
  '(addr, _) <- _split_addr_prefix f ip_with_cidr ;;
  address_of_str f addr.

(** Dotted-quad text of a 32-bit value. *)
Definition dotted_quad (n : Z) : string :=
  Py.join "."
    (map (fun i => Py.str_of_int (Z.land (Z.shiftr n (8 * Z.of_nat i)) 255))
         [3; 2; 1; 0]%nat).

(** The field names of a successful result, in the order the engine
    writes them. *)
Definition field_names (f : family) : list string :=
  match f with
  | V4 =>
      ["Input IP/CIDR"; "IP Version"; "Network ID"; "Historical Class";
       "CIDR Prefix"; "Subnet Mask"; "Host Bits (h)"; "Subnet Bits (s)";
       "Total IP Addresses"; "Usable Host Count"; "Broadcast Address";
       "Usable Host Range"]
  | V6 =>
      ["Input IP/CIDR"; "IP Version"; "Network ID"; "CIDR Prefix";
       "Subnet Mask Concept"; "Host Bits"; "Total IP Addresses";
       "Usable Host Count"; "Broadcast Address Concept"; "Host Range Concept"]
  end.

(** The field names and order the specification lists: the common
    fields, then the rows of the tables of its section 4.2. *)
Definition spec_field_names (f : family) : list string :=
  match f with
  | V4 =>
      ["Input IP/CIDR"; "IP Version"; "Network ID"; "Historical Class";
       "CIDR Prefix"; "Subnet Mask"; "Host Bits"; "Subnet Bits";
       "Total IP Addresses"; "Usable Host Count"; "Broadcast Address";
       "Usable Host Range"]
  | V6 =>
      ["Input IP/CIDR"; "IP Version"; "Network ID"; "CIDR Prefix";
       "Host Bits"; "Total IP Addresses"; "Usable Host Count";
       "Subnet Mask Concept"; "Broadcast Address Concept"; "Host Range Concept"]
  end.

(** The labels [get_ip_class] can return. *)
Definition class_labels : list string :=
  ["Class A"; "Class B"; "Class C"; "Class D (Multicast)"; "Class E (Reserved)";
   "Special/Reserved"; "N/A"].

(** The IPv4 result in closed form, for a network address [n] and a
    prefix length [p]. *)
Definition ipv4_report (ip_with_cidr : string) (n p : Z) : details :=
  let total := 2 ^ (32 - p) in
  [("Input IP/CIDR", VStr ip_with_cidr);
   ("IP Version", VStr "IPv4");
   ("Network ID", VStr (dotted_quad n));
   ("Historical Class", VStr (historical_class (first_octet n)));
   ("CIDR Prefix", VStr ("/" +:+ Py.str_of_int p));
   ("Subnet Mask", VStr (dotted_quad (_ip_int_from_prefix V4 p)));
   ("Host Bits (h)", VInt (32 - p));
   ("Subnet Bits (s)", VInt (if 24 <? p then p mod 8 else p));
   ("Total IP Addresses", VInt total);
   ("Usable Host Count",
     if p =? 31 then VStr "2 (RFC 3021 P2P)"
     else if p =? 32 then VStr "1 (Single Address)"
     else VInt (total - 2));
   ("Broadcast Address",
     VStr (if p =? 31 then dotted_quad (n + 1)
           else if p =? 32 then dotted_quad n
           else dotted_quad (n + total - 1)));
   ("Usable Host Range",
     VStr (if p =? 31 then
             dotted_quad n +:+ " - " +:+ dotted_quad (n + 1) +:+ " (RFC 3021 P2P)"
           else if p =? 32 then dotted_quad n
           else dotted_quad (n + 1) +:+ " - " +:+ dotted_quad (n + total - 2)))].

(** The IPv6 result in closed form, for the text [network_id] of the
    network address and a prefix length [p]. *)
Definition ipv6_report (ip_with_cidr network_id : string) (p : Z) : details :=
  let host_bits := 128 - p in
  [("Input IP/CIDR", VStr ip_with_cidr);
   ("IP Version", VStr "IPv6");
   ("Network ID", VStr network_id);
   ("CIDR Prefix", VStr ("/" +:+ Py.str_of_int p));
   ("Subnet Mask Concept", VStr "Not Applicable (N/A)");
   ("Host Bits", VInt host_bits);
   ("Total IP Addresses",
     VStr (if 64 <=? host_bits
           then "2^" +:+ Py.str_of_int host_bits +:+ " (Standard /64 Subnet)"
           else "2^" +:+ Py.str_of_int host_bits));
   ("Usable Host Count",
     VStr (if 64 <=? host_bits then "Effectively infinite"
           else "2^" +:+ Py.str_of_int host_bits));
   ("Broadcast Address Concept", VStr "Not Applicable (Uses Multicast)");
   ("Host Range Concept", VStr "The entire address space after the prefix.")].

(** The text of the network address, empty if it has none. *)
Definition network_id (net : IPNetwork) : string :=
  match str_address (network_address net) with
  | inr id => id
  | inl _ => EmptyString
  end.

(** The result for a network in closed form. *)
Definition report (ip_with_cidr : string) (net : IPNetwork) : details :=
  match net_family net with
  | V4 => ipv4_report ip_with_cidr (ip_int (network_address net)) (prefixlen net)
  | V6 => ipv6_report ip_with_cidr (network_id net) (prefixlen net)
  end.

(** What the constructors of [ipaddress] guarantee of a network: the
    families agree, the netmask is the one of the prefix length, and the
    network address has no bit outside the netmask. *)
Record wf_network (net : IPNetwork) : Prop := WfNetwork {
  wf_family : addr_family (network_address net) = net_family net;
  wf_prefixlen : 0 <= prefixlen net <= max_prefixlen (net_family net);
  wf_netmask :
    netmask net
    = Address (net_family net) (_ip_int_from_prefix (net_family net) (prefixlen net)) None;
  wf_masked :
    Z.land (ip_int (network_address net))
           (_ip_int_from_prefix (net_family net) (prefixlen net))
    = ip_int (network_address net)
}.

(** ** More [str] methods *)

Module Str.

(** [str.isspace] on a code point below 256. *)
Definition is_space (c : ascii) : bool :=
  let n := Py.ord c in
  ((9 <=? n) && (n <=? 13)) || ((28 <=? n) && (n <=? 32)) || (n =? 133) || (n =? 160).

Fixpoint lstrip (s : string) : string :=
  match s with
  | String c s' => if is_space c then lstrip s' else s
  | EmptyString => EmptyString
  end.

(** [s.strip()]. *)
Definition strip (s : string) : string :=
  Py.rev_string (lstrip (Py.rev_string (lstrip s))).

(** [s.startswith(p)]. *)
Fixpoint startswith (p s : string) : bool :=
  match p, s with
  | EmptyString, _ => true
  | String a p', String b s' => Ascii.eqb a b && startswith p' s'
  | String _ _, EmptyString => false
  end.

(** [sub in s] for strings. *)
Fixpoint contains (sub s : string) : bool :=
  startswith sub s
  || match s with
     | String _ s' => contains sub s'
     | EmptyString => false
     end.

(** [c * n] for a one-character [c]. *)
Fixpoint repeat (c : ascii) (n : nat) : string :=
  match n with
  | O => EmptyString
  | S n' => String c (repeat c n')
  end.

(** [s.ljust(width)]. *)
Definition ljust (width : nat) (s : string) : string :=
  s +:+ repeat " " (width - String.length s).

(** [s.replace(a, b)] for one-character [a] and [b]. *)
Fixpoint replace (a b : ascii) (s : string) : string :=
  match s with
  | EmptyString => EmptyString
  | String c s' => String (if Ascii.eqb c a then b else c) (replace a b s')
  end.

Definition newline : string := Py.str1 "010".

End Str.

(** ** The window: [SubnetCalculatorGUI] *)

(** [str(v)] and [f"{v}"] for a stored value. *)
Definition str_value (v : value) : string :=
  match v with
  | VStr s => s
  | VInt n => Py.str_of_int n
  end.

(** A font tuple: family, size, and whether ['bold'] is given. *)
Definition font : Type := (string * Z * bool)%type.

(** A [tk.Label] placed in [results_frame] with [grid]; [lbl_fg] is
    [None] when no [fg] is passed. *)
Record label : Type := Label {
  lbl_text : string;
  lbl_font : font;
  lbl_fg : option string;
  lbl_row : Z;
  lbl_column : Z
}.

(** What the window asks of the user: the message boxes and the
    save-file dialog, in the order they are opened. *)
Inductive dialog : Type :=
| ShowError (title message : string)
| ShowWarning (title message : string)
| ShowInfo (title message : string)
| AskSaveAsFilename (initialfile : string).

Inductive button_state : Type := NORMAL | DISABLED.

(** The state of the application object: the entry text, the stored
    result, the state of the save button, the children of the results
    frame and the dialogs opened so far. *)
Record gui : Type := Gui {
  ip_cidr_var : string;
  last_details : details;
  save_button : button_state;
  results_frame : list label;
  dialogs : list dialog
}.

Definition open_dialog (d : dialog) (g : gui) : gui :=
  Gui (ip_cidr_var g) (last_details g) (save_button g) (results_frame g)
      (dialogs g ++ [d])%list.

(** [clear_results]: every child of the results frame is destroyed. *)
Definition clear_results (g : gui) : gui :=
  Gui (ip_cidr_var g) (last_details g) (save_button g) [] (dialogs g).

(** The colour and font of a value label, chosen from its key. *)
Definition value_style (key : string) : string * font :=
  if String.eqb key "Historical Class" then ("grey50", ("Consolas", 10, false))
  else if Str.contains "ID" key || Str.contains "Prefix" key
          || Str.contains "Mask" key || Str.contains "Version" key
  then ("#0056b3", ("Consolas", 10, true))
  else if Str.contains "Broadcast" key || Str.contains "Range" key
  then ("#cc0000", ("Consolas", 10, true))
  else ("#333333", ("Consolas", 10, true)).

(** The body of the loop over [enumerate(details.items())]: the key
    label and the value label of row [i]. *)
Definition row_labels (i : Z) (key : string) (v : value) : list label :=
  let '(fg_color, font_style) := value_style key in
  [Label (key +:+ ":") ("Arial", 10, false) None i 0;
   Label (str_value v) font_style (Some fg_color) i 1].

Fixpoint rows_from (i : Z) (d : details) : list label :=
  match d with
  | [] => []
  | (key, v) :: d' => (row_labels i key v ++ rows_from (i + 1) d')%list
  end.

(** [perform_calculation]; [inl] is an exception that leaves it. *)
Definition perform_calculation (g : gui) : result gui :=
  let ip_cidr := Str.strip (ip_cidr_var g) in
  details <- calculate_subnet_details ip_cidr ;;
  let g := clear_results g in
  match od_get "Error" details with
  | Some err =>
      let g := open_dialog (ShowError "Calculation Error" (str_value err)) g in
      ret (Gui (ip_cidr_var g) [] DISABLED (results_frame g) (dialogs g))
  | None =>
      ret (Gui (ip_cidr_var g) details NORMAL (rows_from 0 details) (dialogs g))
  end.

(** [__init__]: the entry holds the default text, nothing is stored, the
    save button is disabled, and the first calculation runs. *)
Definition gui_init : result gui :=
  perform_calculation (Gui "192.168.50.1/8" [] DISABLED [] []).

(** The files the application can write are a map from path to
    content.  What [open(file_path, 'w')] and [f.write(content)] meet: success, an
    exception of [open] before the file is touched, or an exception of
    [write] that leaves some prefix of the content in the file; the
    string is [str(e)]. *)
Inductive write_outcome : Type :=
| WriteOk
| OpenFails (e : string)
| WriteFails (e written : string).

(** What the world answers during [save_results_to_file]: the formatted
    time of [datetime.now()], the path the dialog returns (empty when
    cancelled) and the outcome of the write. *)
Record save_env : Type := SaveEnv {
  now : string;
  chosen_path : string;
  outcome : write_outcome
}.

(** [max(len(key) for key in d.keys())] for a non-empty [d]. *)
Definition max_key_len (d : details) : nat :=
  fold_left Nat.max (map (fun kv => String.length (fst kv)) d) 0%nat.

(** The loop that appends one line per field. *)
Fixpoint field_lines (width : nat) (d : details) : string :=
  match d with
  | [] => EmptyString
  | (key, v) :: d' =>
      (Str.ljust width key +:+ " : " +:+ str_value v +:+ Str.newline)
      +:+ field_lines width d'
  end.

(** The text of the report. *)
Definition report_content (now : string) (d : details) : string :=
  ("--- IP Subnet & Protocol Calculation ---" +:+ Str.newline)
  +:+ ("Generated on: " +:+ now +:+ Str.newline)
  +:+ (Str.repeat "-" 40 +:+ Str.newline)
  +:+ field_lines (max_key_len d) d.

(** The file name the dialog proposes; [None] is the [AttributeError]
    of calling [replace] on an [int]. *)
Definition initial_file (d : details) : option string :=
  match od_get "Network ID" d with
  | Some (VStr id) => Some ("subnet_report_" +:+ Str.replace "/" "_" id +:+ ".txt")
  | Some (VInt _) => None
  | None => Some ("subnet_report_" +:+ Str.replace "/" "_" "default" +:+ ".txt")
  end.

(** [save_results_to_file]; [None] is an exception that leaves it. *)
Definition save_results_to_file (env : save_env) (g : gui) (fs : gmap string string)
  : option (gui * gmap string string) :=
  match last_details g with
  | [] =>
      Some (open_dialog
              (ShowWarning "Save Error" "No subnet calculation data available to save.")
              g, fs)
  | _ :: _ =>
      let content := report_content (now env) (last_details g) in
      match initial_file (last_details g) with
      | None => None
      | Some initialfile =>
          let g := open_dialog (AskSaveAsFilename initialfile) g in
          let file_path := chosen_path env in
          if String.eqb file_path EmptyString then Some (g, fs)
          else
            match outcome env with
            | WriteOk =>
                Some (open_dialog
                        (ShowInfo "Success"
                           ("Results successfully saved to:" +:+ Str.newline
                            +:+ file_path)) g,
                      <[file_path := content]> fs)
            | OpenFails e =>
                Some (open_dialog (ShowError "Save Error" ("Could not save file: " +:+ e)) g,
                      fs)
            | WriteFails e written =>
                Some (open_dialog (ShowError "Save Error" ("Could not save file: " +:+ e)) g,
                      <[file_path := written]> fs)
            end
      end
  end.

(** What can happen to a running window: the user edits the entry,
    presses the calculate button, or presses the save button, which
    reacts only while it is enabled. *)
Inductive gui_step : gui * gmap string string -> gui * gmap string string -> Prop :=
| step_edit (text : string) (g : gui) (fs : gmap string string) :
    gui_step (g, fs)
      (Gui text (last_details g) (save_button g) (results_frame g) (dialogs g), fs)
| step_calculate (g g' : gui) (fs : gmap string string) :
    perform_calculation g = inr g' -> gui_step (g, fs) (g', fs)
| step_save (env : save_env) (g g' : gui) (fs fs' : gmap string string) :
    save_button g = NORMAL ->
    save_results_to_file env g fs = Some (g', fs') ->
    gui_step (g, fs) (g', fs').

(** The states a window passes through, from the end of [__init__]. *)
Inductive gui_reachable : gui * gmap string string -> Prop :=
| reach_init (g : gui) (fs : gmap string string) :
    gui_init = inr g -> gui_reachable (g, fs)
| reach_step (st st' : gui * gmap string string) :
    gui_reachable st -> gui_step st st' -> gui_reachable st'.

(** What the window keeps true: the save button is enabled exactly when
    a result is stored, a stored result is the complete result of the
    trimmed text some calculation read, and the results frame shows
    it. *)
Definition gui_invariant (g : gui) : Prop :=
  (save_button g = NORMAL <-> last_details g <> [])
  /\ (last_details g = []
      \/ exists text net,
          ip_network (Str.strip text) false = inr net
          /\ last_details g = report (Str.strip text) net)
  /\ results_frame g = rows_from 0 (last_details g).

(** ** The parser of the specification, section 4.1

    These definitions follow the words of the specification, not the
    code: they say what the specification takes for a decimal integer,
    for a dotted quad and for the prefix length of an input. *)








(** * Properties *)

(** ** Characters and strings *)

Ltac each_char c :=
  destruct c as [[] [] [] [] [] [] [] []]; vm_compute; try reflexivity;
  try discriminate; auto.

Lemma ord_range (c : ascii) : 0 <= Py.ord c < 256.
Proof. unfold Py.ord. pose proof (N_ascii_bounded c). lia. Qed.

Lemma ord_ascii_of_byte (x : Z) :
  0 <= x < 256 -> Py.ord (ascii_of_N (Z.to_N x)) = x.
Proof.
  intros Hx. unfold Py.ord.
  rewrite N_ascii_embedding by lia. lia.
Qed.

Lemma append_cons (c : ascii) (a b : string) :
  String c a +:+ b = String c (a +:+ b).
Proof. reflexivity. Qed.

Lemma append_nil (b : string) : EmptyString +:+ b = b.
Proof. reflexivity. Qed.

Lemma append_empty_r (s : string) : s +:+ EmptyString = s.
Proof.
  induction s as [|c s IH]; [reflexivity |].
  now rewrite append_cons, IH.
Qed.

Lemma length_append (a b : string) :
  String.length (a +:+ b) = (String.length a + String.length b)%nat.
Proof.
  induction a as [|x a IH]; [reflexivity |].
  rewrite append_cons. simpl. now rewrite IH.
Qed.

Lemma all_chars_append (f : ascii -> bool) (a b : string) :
  Py.all_chars f (a +:+ b) = Py.all_chars f a && Py.all_chars f b.
Proof.
  induction a as [|x a IH]; [reflexivity |].
  rewrite append_cons. simpl. rewrite IH. now rewrite andb_assoc.
Qed.

Lemma all_chars_impl (f g : ascii -> bool) (s : string) :
  (forall c, f c = true -> g c = true) ->
  Py.all_chars f s = true -> Py.all_chars g s = true.
Proof.
  intros Hfg. induction s as [|c s IH]; simpl; [reflexivity |].
  intros [Hc Hs]%andb_true_iff. rewrite (Hfg _ Hc). now apply IH.
Qed.

(** *** [split] *)

Lemma split_nonempty (sep : ascii) (s : string) : Py.split sep s <> [].
Proof.
  destruct s as [|c s]; simpl; [discriminate |].
  destruct (Ascii.eqb c sep); [discriminate |].
  destruct (Py.split sep s); discriminate.
Qed.

Lemma split_no_sep (sep : ascii) (s : string) :
  Py.contains sep s = false -> Py.split sep s = [s].
Proof.
  induction s as [|c s IH]; simpl; [reflexivity |].
  destruct (Ascii.eqb c sep); [discriminate |].
  intros H. now rewrite (IH H).
Qed.

Lemma split_head (sep : ascii) (a b : string) :
  Py.contains sep a = false ->
  hd EmptyString (Py.split sep (a +:+ String sep b)) = a.
Proof.
  induction a as [|c a IH]; [rewrite append_nil | rewrite append_cons]; simpl.
  - intros _. now rewrite Ascii.eqb_refl.
  - destruct (Ascii.eqb c sep); [discriminate |].
    intros H. specialize (IH H).
    destruct (Py.split sep (a +:+ String sep b)) as [|p ps] eqn:E.
    + now apply split_nonempty in E.
    + simpl in *. now subst.
Qed.

(** *** Reversal and [strip] *)

Lemma rev_onto_twice (s a b : string) :
  Py.rev_onto (Py.rev_onto s a) b = Py.rev_onto a (s +:+ b).
Proof.
  revert a b. induction s as [|c s IH]; intros a b; [reflexivity |].
  rewrite append_cons. simpl. now rewrite IH.
Qed.

Lemma rev_string_involutive (s : string) : Py.rev_string (Py.rev_string s) = s.
Proof.
  unfold Py.rev_string. rewrite rev_onto_twice. simpl. now rewrite append_empty_r.
Qed.

Lemma all_chars_rev_onto (f : ascii -> bool) (s a : string) :
  Py.all_chars f (Py.rev_onto s a) = Py.all_chars f s && Py.all_chars f a.
Proof.
  revert a. induction s as [|c s IH]; intros a; simpl; [reflexivity |].
  rewrite IH. simpl. destruct (f c), (Py.all_chars f s); reflexivity.
Qed.

Lemma lstrip_no_space (s : string) :
  Py.all_chars not_space s = true -> Py.lstrip s = s.
Proof.
  destruct s as [|c s]; simpl; [reflexivity |].
  unfold not_space. destruct (Py.is_int_space c); [discriminate | reflexivity].
Qed.

Lemma strip_no_space (s : string) :
  Py.all_chars not_space s = true -> Py.strip s = s.
Proof.
  intros H. unfold Py.strip. rewrite (lstrip_no_space s H).
  rewrite lstrip_no_space.
  - apply rev_string_involutive.
  - unfold Py.rev_string. rewrite all_chars_rev_onto, H. reflexivity.
Qed.

(** ** [int] on plain digits *)

Lemma decimal_digit_plain (c : ascii) :
  Py.is_ascii_char c && Py.is_digit_char c = true -> plain_digit 10 c = true.
Proof. each_char c. Qed.

Lemma hex_digit_plain (c : ascii) :
  is_base_digit 16 c = true -> plain_digit 16 c = true.
Proof. each_char c. Qed.

Lemma plain_digit_value (base : Z) (c : ascii) :
  plain_digit base c = true ->
  exists d, Py.digit_value c = Some d /\ 0 <= d < base /\ Ascii.eqb c "_" = false.
Proof.
  unfold plain_digit, is_base_digit. intros H.
  repeat (apply andb_true_iff in H; destruct H as [H ?]).
  destruct (Py.digit_value c) as [d|] eqn:E; [|discriminate].
  exists d. repeat split.
  - unfold Py.digit_value in E.
    pose proof (ord_range c).
    repeat match type of E with
           | (if ?b then _ else _) = _ => destruct b eqn:?
           end; inversion E; lia.
  - lia.
  - now destruct (Ascii.eqb c "_").
Qed.

Lemma int_digits_plain (base : Z) (s : string) :
  0 < base -> Py.all_chars (plain_digit base) s = true ->
  forall acc count prev, 0 <= acc -> s <> EmptyString \/ prev = true ->
  exists v, Py.int_digits base s acc count prev
            = Some (v, count + Z.of_nat (String.length s)) /\ 0 <= v.
Proof.
  intros Hbase. induction s as [|c s IH]; intros Hall acc count prev Hacc Hne.
  - destruct Hne as [Hne | ->]; [congruence |].
    exists acc. simpl. split; [f_equal; f_equal; lia | assumption].
  - simpl in Hall. apply andb_true_iff in Hall as [Hc Hs].
    destruct (plain_digit_value base c Hc) as (d & Hd & Hrange & Hus).
    cbn [Py.int_digits]. rewrite Hus, Hd.
    destruct (Z.ltb_spec d base); [|lia].
    destruct (IH Hs (acc * base + d) (count + 1) true) as (v & Hv & Hpos);
      [nia | now right |].
    exists v. rewrite Hv. split; [|assumption].
    f_equal. f_equal. cbn [String.length]. lia.
Qed.

Lemma split_sign_plain (base : Z) (s : string) :
  Py.all_chars (plain_digit base) s = true -> Py.split_sign s = (false, s).
Proof.
  destruct s as [|c s]; [reflexivity |]. simpl.
  intros [Hc _]%andb_true_iff. unfold plain_digit in Hc.
  repeat (apply andb_true_iff in Hc; destruct Hc as [Hc ?]).
  destruct (Ascii.eqb c "+"); [discriminate |].
  destruct (Ascii.eqb c "-"); [discriminate | reflexivity].
Qed.

Lemma skip_hex_prefix_plain (base : Z) (s : string) :
  Py.all_chars (plain_digit base) s = true -> Py.skip_hex_prefix s = s.
Proof.
  destruct s as [|c1 [|c2 s]]; try reflexivity. simpl.
  intros [_ [Hc _]%andb_true_iff]%andb_true_iff. unfold plain_digit in Hc.
  repeat (apply andb_true_iff in Hc; destruct Hc as [Hc ?]).
  destruct (Ascii.eqb c2 "x"); [discriminate |].
  destruct (Ascii.eqb c2 "X"); [discriminate |].
  now rewrite andb_false_r.
Qed.

Lemma plain_digit_not_space (base : Z) (s : string) :
  Py.all_chars (plain_digit base) s = true -> Py.all_chars not_space s = true.
Proof.
  apply all_chars_impl. intros c Hc. unfold plain_digit in Hc.
  repeat (apply andb_true_iff in Hc; destruct Hc as [Hc ?]). assumption.
Qed.

(** [int(s, base)] reads a non-empty run of plain digits, and the value
    is not negative. *)
Lemma int_base_plain (base : Z) (s : string) :
  base = 10 \/ base = 16 ->
  s <> EmptyString ->
  Py.all_chars (plain_digit base) s = true ->
  Z.of_nat (String.length s) <= Py.max_str_digits ->
  exists v, Py.int_base base s = Some v /\ 0 <= v.
Proof.
  intros Hbase Hne Hall Hlen. unfold Py.int_base.
  rewrite (strip_no_space s (plain_digit_not_space base s Hall)).
  rewrite (split_sign_plain base s Hall).
  assert (Hskip : (if base =? 16 then Py.skip_hex_prefix s else s) = s).
  { destruct (base =? 16); [now apply (skip_hex_prefix_plain base) | reflexivity]. }
  rewrite Hskip.
  destruct (int_digits_plain base s ltac:(lia) Hall 0 0 false ltac:(lia) (or_introl Hne))
    as (v & Hv & Hpos).
  rewrite Hv. exists v.
  destruct (Z.ltb_spec Py.max_str_digits (0 + Z.of_nat (String.length s))); [lia |].
  rewrite andb_false_r. split; [reflexivity | assumption].
Qed.

(** ** Hexadecimal text *)

Lemma hex_char_digit (d : Z) :
  0 <= d < 16 -> is_base_digit 16 (Py.hex_char d) = true.
Proof.
  intros H.
  assert (d = 0 \/ d = 1 \/ d = 2 \/ d = 3 \/ d = 4 \/ d = 5 \/ d = 6 \/ d = 7 \/
          d = 8 \/ d = 9 \/ d = 10 \/ d = 11 \/ d = 12 \/ d = 13 \/ d = 14 \/ d = 15)
    as Hd by lia.
  repeat (destruct Hd as [-> | Hd]; [reflexivity |]). subst. reflexivity.
Qed.

Lemma hex_digits_chars (fuel : nat) :
  forall n acc,
    Py.all_chars (is_base_digit 16) acc = true ->
    Py.all_chars (is_base_digit 16) (Py.hex_digits fuel n acc) = true.
Proof.
  induction fuel as [|fuel IH]; intros n acc Hacc; simpl; [assumption |].
  assert (Py.all_chars (is_base_digit 16) (String (Py.hex_char (n mod 16)) acc) = true)
    as Hacc'.
  { simpl. rewrite Hacc, hex_char_digit; [reflexivity |].
    apply Z.mod_pos_bound. lia. }
  destruct (n / 16 =? 0); [assumption | now apply IH].
Qed.

Lemma hex_digits_length (fuel : nat) :
  forall (k : nat) n acc,
    (1 <= k)%nat -> 0 <= n < 16 ^ Z.of_nat k ->
    (String.length (Py.hex_digits fuel n acc) <= k + String.length acc)%nat.
Proof.
  induction fuel as [|fuel IH]; intros k n acc Hk Hn; simpl; [lia |].
  destruct (Z.eqb_spec (n / 16) 0) as [Hz | Hz]; [simpl; lia |].
  destruct k as [|[|k]]; [lia | |].
  - exfalso. apply Hz. apply Z.div_small. simpl in Hn. lia.
  - specialize (IH (S k) (n / 16) (String (Py.hex_char (n mod 16)) acc)).
    simpl String.length in IH.
    assert (0 <= n / 16 < 16 ^ Z.of_nat (S k)).
    { split; [apply Z.div_pos; lia |].
      apply Z.div_lt_upper_bound; [lia |].
      replace (Z.of_nat (S (S k))) with (Z.of_nat (S k) + 1) in Hn by lia.
      rewrite Z.pow_add_r in Hn by lia. lia. }
    specialize (IH ltac:(lia) H). lia.
Qed.

Lemma zeros_length (k : nat) : String.length (Py.zeros k) = k.
Proof. induction k as [|k IH]; simpl; [reflexivity | now rewrite IH]. Qed.

Lemma zeros_chars (k : nat) : Py.all_chars (is_base_digit 16) (Py.zeros k) = true.
Proof. induction k as [|k IH]; simpl; [reflexivity | exact IH]. Qed.

Lemma hex_padded_chars (width : nat) (n : Z) :
  Py.all_chars (is_base_digit 16) (Py.hex_padded width n) = true.
Proof.
  unfold Py.hex_padded, Py.hex_of_int.
  rewrite all_chars_append, zeros_chars.
  rewrite hex_digits_chars; reflexivity.
Qed.

Lemma hex_padded_length (width : nat) (n : Z) :
  (1 <= width)%nat -> 0 <= n < 16 ^ Z.of_nat width ->
  String.length (Py.hex_padded width n) = width.
Proof.
  intros Hw Hn. unfold Py.hex_padded, Py.hex_of_int.
  rewrite length_append, zeros_length.
  pose proof (hex_digits_length (S (Z.to_nat (Z.log2 n))) width n EmptyString Hw Hn)
    as Hlen.
  change (String.length EmptyString) with 0%nat in Hlen. lia.
Qed.

Lemma hex_char_value (d : Z) :
  0 <= d < 16 ->
  Py.digit_value (Py.hex_char d) = Some d /\ Ascii.eqb (Py.hex_char d) "_" = false.
Proof.
  intros H.
  assert (d = 0 \/ d = 1 \/ d = 2 \/ d = 3 \/ d = 4 \/ d = 5 \/ d = 6 \/ d = 7 \/
          d = 8 \/ d = 9 \/ d = 10 \/ d = 11 \/ d = 12 \/ d = 13 \/ d = 14 \/ d = 15)
    as Hd by lia.
  repeat (destruct Hd as [-> | Hd]; [split; reflexivity |]). subst. split; reflexivity.
Qed.

(** Reading the digits that [hex_digits] wrote gives the number back:
    the fuel is never exhausted before the last digit. *)
Lemma int_digits_hex_digits (fuel : nat) :
  forall n acc a count prev,
    (1 <= fuel)%nat -> 0 <= n < 16 ^ Z.of_nat fuel ->
    exists d,
      1 <= d
      /\ Py.int_digits 16 (Py.hex_digits fuel n acc) a count prev
         = Py.int_digits 16 acc (a * 16 ^ d + n) (count + d) true.
Proof.
  induction fuel as [|fuel IH]; intros n acc a count prev Hfuel Hn.
  - lia.
  - assert (0 <= n mod 16 < 16) as Hmod by (apply Z.mod_pos_bound; lia).
    destruct (hex_char_value (n mod 16) Hmod) as [Hval Hus].
    pose proof (Z.div_mod n 16 ltac:(lia)) as Hdm.
    cbn [Py.hex_digits].
    destruct (Z.eqb_spec (n / 16) 0) as [Hz | Hz].
    + exists 1. split; [lia |].
      cbn [Py.int_digits]. rewrite Hus, Hval.
      destruct (Z.ltb_spec (n mod 16) 16); [|lia].
      f_equal; lia.
    + assert (0 <= n / 16 < 16 ^ Z.of_nat fuel) as Hq.
      { split; [apply Z.div_pos; lia |].
        apply Z.div_lt_upper_bound; [lia |].
        replace (Z.of_nat (S fuel)) with (Z.of_nat fuel + 1) in Hn by lia.
        rewrite Z.pow_add_r in Hn by lia. lia. }
      assert (1 <= fuel)%nat as Hfuel'.
      { destruct fuel; [simpl in Hq; lia | lia]. }
      destruct (IH (n / 16) (String (Py.hex_char (n mod 16)) acc) a count prev Hfuel' Hq)
        as (d & Hd & Heq).
      exists (d + 1). split; [lia |]. rewrite Heq.
      cbn [Py.int_digits]. rewrite Hus, Hval.
      destruct (Z.ltb_spec (n mod 16) 16); [|lia].
      rewrite Z.pow_add_r by lia. f_equal; lia.
Qed.

(** [int(s, 16)] reads ["%x" % n] back as [n]. *)
Lemma hex_of_int_reads_back (n : Z) :
  0 <= n -> Py.int_base 16 (Py.hex_of_int n) = Some n.
Proof.
  intros Hn.
  assert (Py.all_chars (plain_digit 16) (Py.hex_of_int n) = true) as Hplain.
  { apply (all_chars_impl _ _ _ hex_digit_plain).
    unfold Py.hex_of_int. now apply hex_digits_chars. }
  unfold Py.int_base.
  rewrite (strip_no_space _ (plain_digit_not_space 16 _ Hplain)).
  rewrite (split_sign_plain 16 _ Hplain).
  change (16 =? 16) with true. cbv iota.
  rewrite (skip_hex_prefix_plain 16 _ Hplain).
  unfold Py.hex_of_int.
  destruct (int_digits_hex_digits (S (Z.to_nat (Z.log2 n))) n EmptyString 0 0 false)
    as (d & Hd & ->).
  - lia.
  - split; [exact Hn |].
    destruct (Z.eq_dec n 0) as [-> | Hz]; [reflexivity |].
    pose proof (Z.log2_spec n ltac:(lia)) as [_ Hlt].
    pose proof (Z.log2_nonneg n).
    replace (Z.of_nat (S (Z.to_nat (Z.log2 n)))) with (Z.succ (Z.log2 n)) by lia.
    pose proof (Z.pow_le_mono_l 2 16 (Z.succ (Z.log2 n)) ltac:(lia)). lia.
  - cbn [Py.int_digits]. change (16 =? 10) with false. cbn [andb].
    now rewrite Z.mul_0_l, Z.add_0_l.
Qed.

Lemma substring_chars (f : ascii -> bool) (s : string) :
  Py.all_chars f s = true ->
  forall start len, Py.all_chars f (String.substring start len s) = true.
Proof.
  induction s as [|c s IH]; intros Hall start len.
  - destruct start, len; reflexivity.
  - simpl in Hall. apply andb_true_iff in Hall as [Hc Hs].
    destruct start as [|start]; simpl.
    + destruct len as [|len]; [reflexivity |]. simpl. rewrite Hc. now apply IH.
    + now apply IH.
Qed.

Lemma substring_length (s : string) :
  forall start len,
    (start + len <= String.length s)%nat ->
    String.length (String.substring start len s) = len.
Proof.
  induction s as [|c s IH]; intros start len Hlen; simpl in Hlen.
  - destruct start, len; simpl; lia.
  - destruct start as [|start]; simpl.
    + destruct len as [|len]; [reflexivity |]. simpl. rewrite IH; lia.
    + apply IH. lia.
Qed.

Lemma mapM_ok {A B : Type} (f : A -> result B) (l : list A) :
  Forall (fun a => exists b, f a = inr b) l -> exists bs, mapM f l = inr bs.
Proof.
  induction 1 as [|a l [b Hb] _ [bs Hbs]]; simpl.
  - now exists [].
  - rewrite Hb. simpl. rewrite Hbs. simpl. now exists (b :: bs).
Qed.

(** The text of an IPv6 address exists for every 128-bit value. *)
Lemma string_from_ip_int_v6_ok (n : Z) :
  0 <= n <= ALL_ONES V6 -> exists str, _string_from_ip_int_v6 n = inr str.
Proof.
  intros Hn. unfold _string_from_ip_int_v6.
  destruct (Z.ltb_spec (ALL_ONES V6) n); [lia |].
  assert (Hlen : String.length (Py.hex_padded 32 n) = 32%nat).
  { apply hex_padded_length; [lia |]. unfold ALL_ONES in Hn. simpl in Hn.
    change (16 ^ Z.of_nat 32) with (2 ^ 128). lia. }
  match goal with
  | |- context [mapM ?f ?l] => destruct (mapM_ok f l) as [hextets Hh]
  end.
  - repeat constructor;
      match goal with
      | |- context [Py.slice ?x 4 _] =>
          destruct (int_base_plain 16 (Py.slice x 4 (Py.hex_padded 32 n)))
            as (v & Hv & _);
          [ now right
          | intros E; apply (f_equal String.length) in E;
            unfold Py.slice in E; rewrite substring_length in E by (rewrite Hlen; lia);
            discriminate
          | apply (all_chars_impl _ _ _ hex_digit_plain);
            apply substring_chars, hex_padded_chars
          | unfold Py.slice; rewrite substring_length by (rewrite Hlen; lia);
            vm_compute; discriminate
          | rewrite Hv; eauto ]
      end.
  - rewrite Hh. simpl. eauto.
Qed.

(** ** Netmasks as bit patterns *)

Lemma ALL_ONES_ones (f : family) : ALL_ONES f = Z.ones (max_prefixlen f).
Proof. unfold ALL_ONES. rewrite Z.ones_equiv. lia. Qed.

Lemma max_prefixlen_pos (f : family) : 0 < max_prefixlen f.
Proof. destruct f; simpl; lia. Qed.

(** A value without bits at or above position [w] is a [w]-bit value. *)
Lemma bits_range (w b : Z) :
  0 <= w -> (forall i, w <= i -> Z.testbit b i = false) -> 0 <= b < 2 ^ w.
Proof.
  intros Hw Hhigh.
  assert (b = b mod 2 ^ w) as ->.
  { apply Z.bits_inj'. intros i Hi.
    destruct (Z.lt_ge_cases i w).
    - now rewrite Z.mod_pow2_bits_low.
    - rewrite Z.mod_pow2_bits_high by lia. now apply Hhigh. }
  apply Z.mod_pos_bound. lia.
Qed.

Lemma netmask_testbit (f : family) (p i : Z) :
  0 <= p <= max_prefixlen f -> 0 <= i ->
  Z.testbit (_ip_int_from_prefix f p) i
  = (max_prefixlen f - p <=? i) && (i <? max_prefixlen f).
Proof.
  intros Hp Hi. unfold _ip_int_from_prefix.
  rewrite ALL_ONES_ones, Z.lxor_spec, Z.shiftr_spec by lia.
  rewrite !Z.testbit_ones by lia.
  destruct (Z.leb_spec 0 i), (Z.ltb_spec i (max_prefixlen f)),
    (Z.leb_spec 0 (i + p)), (Z.ltb_spec (i + p) (max_prefixlen f)),
    (Z.leb_spec (max_prefixlen f - p) i); simpl; try reflexivity; lia.
Qed.

Lemma netmask_range (f : family) (p : Z) :
  0 <= p <= max_prefixlen f -> 0 <= _ip_int_from_prefix f p <= ALL_ONES f.
Proof.
  intros Hp.
  pose proof (bits_range (max_prefixlen f) (_ip_int_from_prefix f p)) as H.
  unfold ALL_ONES. enough (0 <= _ip_int_from_prefix f p < 2 ^ max_prefixlen f) by lia.
  apply H; [lia |]. intros i Hi.
  rewrite netmask_testbit by lia.
  destruct (Z.ltb_spec i (max_prefixlen f)); [lia | apply andb_false_r].
Qed.

(** [_ip_int_from_prefix] computes [mask(p, w)]. *)
Lemma netmask_is_mask (f : family) (p : Z) :
  0 <= p <= max_prefixlen f -> _ip_int_from_prefix f p = mask p (max_prefixlen f).
Proof.
  intros Hp. unfold mask.
  replace (2 ^ p - 1) with (Z.ones p) by (rewrite Z.ones_equiv; lia).
  rewrite <- Z.shiftl_mul_pow2 by lia.
  apply Z.bits_inj'. intros i Hi.
  rewrite netmask_testbit, Z.shiftl_spec, Z.testbit_ones by lia.
  destruct (Z.leb_spec (max_prefixlen f - p) i), (Z.ltb_spec i (max_prefixlen f)),
    (Z.leb_spec 0 (i - (max_prefixlen f - p))), (Z.ltb_spec (i - (max_prefixlen f - p)) p);
    simpl; try reflexivity; lia.
Qed.

Lemma hostmask_ones (f : family) (p : Z) :
  0 <= p <= max_prefixlen f ->
  Z.lxor (_ip_int_from_prefix f p) (ALL_ONES f) = Z.ones (max_prefixlen f - p).
Proof.
  intros Hp. apply Z.bits_inj'. intros i Hi.
  rewrite Z.lxor_spec, netmask_testbit, ALL_ONES_ones, !Z.testbit_ones by lia.
  destruct (Z.leb_spec (max_prefixlen f - p) i), (Z.ltb_spec i (max_prefixlen f)),
    (Z.leb_spec 0 i), (Z.ltb_spec i (max_prefixlen f - p));
    simpl; try reflexivity; lia.
Qed.

Section Masked.
Variables (f : family) (p n : Z).
Hypothesis Hp : 0 <= p <= max_prefixlen f.
Hypothesis Hmasked : Z.land n (_ip_int_from_prefix f p) = n.

Lemma masked_testbit (i : Z) :
  0 <= i -> Z.testbit n i = true -> max_prefixlen f - p <= i < max_prefixlen f.
Proof.
  intros Hi Hb. rewrite <- Hmasked, Z.land_spec, netmask_testbit in Hb by lia.
  apply andb_true_iff in Hb as [_ Hb]. apply andb_true_iff in Hb as [H1 H2].
  apply Z.leb_le in H1. apply Z.ltb_lt in H2. lia.
Qed.

Lemma masked_range : 0 <= n <= ALL_ONES f.
Proof.
  unfold ALL_ONES. enough (0 <= n < 2 ^ max_prefixlen f) by lia.
  apply bits_range; [pose proof (max_prefixlen_pos f); lia |].
  intros i Hi. destruct (Z.testbit n i) eqn:E; [|reflexivity].
  apply masked_testbit in E; lia.
Qed.

Lemma masked_disjoint : Z.land n (Z.ones (max_prefixlen f - p)) = 0.
Proof.
  apply Z.bits_inj'. intros i Hi.
  rewrite Z.land_spec, Z.testbit_ones, Z.bits_0 by lia.
  destruct (Z.testbit n i) eqn:E; [|reflexivity].
  apply masked_testbit in E; [|assumption].
  destruct (Z.leb_spec 0 i), (Z.ltb_spec i (max_prefixlen f - p));
    simpl; try reflexivity; lia.
Qed.

(** Setting all host bits adds [2 ^ host_bits - 1]. *)
Lemma masked_broadcast :
  Z.lor n (Z.ones (max_prefixlen f - p)) = n + 2 ^ (max_prefixlen f - p) - 1.
Proof.
  rewrite <- Z.lxor_lor by apply masked_disjoint.
  rewrite <- Z.add_nocarry_lxor by apply masked_disjoint.
  rewrite Z.ones_equiv. lia.
Qed.

Lemma masked_broadcast_range :
  0 <= n + 2 ^ (max_prefixlen f - p) - 1 <= ALL_ONES f.
Proof.
  rewrite <- masked_broadcast. unfold ALL_ONES.
  enough (0 <= Z.lor n (Z.ones (max_prefixlen f - p)) < 2 ^ max_prefixlen f) by lia.
  apply bits_range; [pose proof (max_prefixlen_pos f); lia |].
  intros i Hi. rewrite Z.lor_spec, Z.testbit_ones by lia.
  destruct (Z.testbit n i) eqn:E.
  - apply masked_testbit in E; lia.
  - destruct (Z.leb_spec 0 i), (Z.ltb_spec i (max_prefixlen f - p));
      simpl; try reflexivity; lia.
Qed.

(** No bit of the network address lies beyond the prefix. *)
Lemma masked_host_bits_zero (i : Z) :
  0 <= i < max_prefixlen f - p -> Z.testbit n i = false.
Proof.
  intros Hi. destruct (Z.testbit n i) eqn:E; [|reflexivity].
  apply masked_testbit in E; lia.
Qed.
End Masked.

(** ** IPv4 text *)

Lemma to_bytes_ok (len : nat) (n : Z) :
  0 <= n < 2 ^ (8 * Z.of_nat len) ->
  to_bytes len n
  = inr (string_of_list_ascii
           (map (fun i => ascii_of_N (Z.to_N (Z.land (Z.shiftr n (8 * Z.of_nat i)) 255)))
                (rev (seq 0 len)))).
Proof.
  intros Hn. unfold to_bytes.
  destruct (Z.ltb_spec n 0); [lia |].
  destruct (Z.leb_spec (2 ^ (8 * Z.of_nat len)) n); [lia | reflexivity].
Qed.

Lemma byte_range (x : Z) : 0 <= Z.land x 255 < 256.
Proof.
  change 255 with (Z.ones 8). rewrite Z.land_ones by lia.
  apply Z.mod_pos_bound. lia.
Qed.

Lemma string_from_ip_int_v4_ok (n : Z) :
  0 <= n <= ALL_ONES V4 -> _string_from_ip_int_v4 n = inr (dotted_quad n).
Proof.
  intros Hn. unfold _string_from_ip_int_v4.
  rewrite to_bytes_ok by (unfold ALL_ONES in Hn; simpl in *; lia).
  cbn [bind]. rewrite list_ascii_of_string_of_list_ascii.
  unfold ret, dotted_quad. do 2 f_equal.
  rewrite map_map. apply map_ext. intros i.
  now rewrite ord_ascii_of_byte by apply byte_range.
Qed.

Lemma str_address_v4_ok (n : Z) (sc : option string) :
  0 <= n <= ALL_ONES V4 -> str_address (Address V4 n sc) = inr (dotted_quad n).
Proof. intros Hn. unfold str_address. simpl. now apply string_from_ip_int_v4_ok. Qed.

Lemma str_address_v6_ok (n : Z) (sc : option string) :
  0 <= n <= ALL_ONES V6 -> exists str, str_address (Address V6 n sc) = inr str.
Proof.
  intros Hn. unfold str_address. simpl.
  destruct (string_from_ip_int_v6_ok n Hn) as [str ->]. cbn [bind].
  destruct sc as [sc|]; [destruct (String.eqb sc EmptyString) |]; eauto.
Qed.

Lemma address_of_int_ok (f : family) (n : Z) :
  0 <= n <= ALL_ONES f -> address_of_int f n = inr (Address f n None).
Proof.
  intros Hn. unfold address_of_int, _check_int_address.
  destruct (Z.ltb_spec n 0); [lia |].
  destruct (Z.ltb_spec (ALL_ONES f) n); [lia | reflexivity].
Qed.

(** *** The class of a printed address *)

Lemma octet_text_facts :
  forallb (fun k =>
             let o := Z.of_nat k in
             negb (Py.contains "." (Py.str_of_int o))
             && match Py.int (Py.str_of_int o) with
                | Some v => v =? o
                | None => false
                end)
          (seq 0 256) = true.
Proof. vm_compute. reflexivity. Qed.

Lemma octet_text (o : Z) :
  0 <= o < 256 ->
  Py.contains "." (Py.str_of_int o) = false /\ Py.int (Py.str_of_int o) = Some o.
Proof.
  intros Ho. pose proof octet_text_facts as H.
  rewrite forallb_forall in H. specialize (H (Z.to_nat o)).
  rewrite Z2Nat.id in H by lia. simpl in H.
  assert (In (Z.to_nat o) (seq 0 256)) as Hin by (apply in_seq; lia).
  apply H in Hin. apply andb_true_iff in Hin as [H1 H2].
  split; [now apply negb_true_iff |].
  destruct (Py.int (Py.str_of_int o)) as [v|]; [|discriminate].
  apply Z.eqb_eq in H2. now subst.
Qed.

Lemma first_octet_range (n : Z) :
  0 <= n <= ALL_ONES V4 -> 0 <= first_octet n < 256.
Proof.
  intros Hn. unfold first_octet. rewrite Z.shiftr_div_pow2 by lia.
  unfold ALL_ONES in Hn. simpl in Hn.
  split; [apply Z.div_pos; lia | apply Z.div_lt_upper_bound; lia].
Qed.

(** [get_ip_class] reads the first octet back from the dotted quad. *)
Lemma get_ip_class_dotted_quad (n : Z) :
  0 <= n <= ALL_ONES V4 ->
  get_ip_class (dotted_quad n) = historical_class (first_octet n).
Proof.
  intros Hn. pose proof (first_octet_range n Hn) as Ho.
  destruct (octet_text (first_octet n) Ho) as [Hdot Hint].
  unfold get_ip_class, dotted_quad. cbn [map Py.join].
  replace (Z.land (Z.shiftr n (8 * Z.of_nat 3)) 255) with (first_octet n).
  - rewrite !(append_cons "." EmptyString), !append_nil.
    rewrite (split_head "." (Py.str_of_int (first_octet n)) _ Hdot).
    rewrite Hint. reflexivity.
  - change 255 with (Z.ones 8). rewrite Z.land_ones by lia.
    unfold first_octet in *. change (8 * Z.of_nat 3) with 24.
    rewrite Z.mod_small; [reflexivity | lia].
Qed.

(** ** Which exceptions the parsers raise, and what they return *)

Lemma raises_bind {A B : Type} (P : exn_class -> Prop) (c : result A)
  (k : A -> result B) :
  raises P c -> (forall a, c = inr a -> raises P (k a)) -> raises P (bind c k).
Proof. destruct c as [e|a]; simpl; auto. Qed.

Lemma raises_catch {A : Type} (P Q : exn_class -> Prop) (c : result A)
  (handler : exn_class) (h : exn -> result A) :
  raises Q c ->
  (forall e, Q (exn_cls e) -> subclass (exn_cls e) handler = true -> raises P (h e)) ->
  (forall cl, Q cl -> subclass cl handler = false -> P cl) ->
  raises P (catch c handler h).
Proof.
  destruct c as [e|a]; simpl; [|auto].
  intros HQ Hh Hpass. destruct (subclass (exn_cls e) handler) eqn:E; simpl; auto.
Qed.

Lemma raises_weaken {A : Type} (P Q : exn_class -> Prop) (c : result A) :
  raises Q c -> (forall cl, Q cl -> P cl) -> raises P c.
Proof. destruct c; simpl; auto. Qed.

Lemma returns_bind {A B : Type} (Q : B -> Prop) (c : result A) (k : A -> result B) :
  (forall a, c = inr a -> returns Q (k a)) -> returns Q (bind c k).
Proof. destruct c as [e|a]; simpl; auto. Qed.

Lemma returns_elim {A : Type} (Q : A -> Prop) (c : result A) (a : A) :
  returns Q c -> c = inr a -> Q a.
Proof. intros H ->. exact H. Qed.

Lemma parse_octet_raises (s : string) : raises (eq CValueError) (_parse_octet s).
Proof.
  unfold _parse_octet.
  repeat match goal with
         | |- raises _ (if ?b then _ else _) => destruct b
         | |- raises _ (match ?o with Some _ => _ | None => _ end) => destruct o
         end; reflexivity.
Qed.

Lemma parse_octet_range (s : string) :
  returns (fun v => 0 <= v <= 255) (_parse_octet s).
Proof.
  unfold _parse_octet.
  destruct (String.eqb s EmptyString) eqn:Hne; [exact I |].
  destruct (Py.isascii s && Py.isdigit s) eqn:Hdig; [|exact I]. simpl.
  destruct (Z.ltb_spec 3 (Z.of_nat (String.length s))); [exact I |].
  match goal with |- returns _ (if ?b then _ else _) => destruct b end; [exact I |].
  apply andb_true_iff in Hdig as [Hascii Hdigit].
  apply String.eqb_neq in Hne.
  assert (Py.all_chars (plain_digit 10) s = true) as Hplain.
  { destruct s as [|c s]; [congruence |].
    unfold Py.isascii in Hascii. unfold Py.isdigit in Hdigit.
    revert Hascii Hdigit. generalize (String c s). clear.
    induction s as [|c s IH]; simpl; [reflexivity |].
    intros [H1 H2]%andb_true_iff [H3 H4]%andb_true_iff.
    rewrite decimal_digit_plain by (now rewrite H1, H3). now apply IH. }
  destruct (int_base_plain 10 s) as (v & Hv & Hpos); auto.
  { unfold Py.max_str_digits. lia. }
  rewrite Hv. destruct (Z.ltb_spec 255 v); simpl; [exact I | lia].
Qed.

Lemma mapM_raises {A B : Type} (P : exn_class -> Prop) (f : A -> result B)
  (l : list A) :
  (forall a, raises P (f a)) -> raises P (mapM f l).
Proof.
  intros Hf. induction l as [|a l IH]; simpl; [exact I |].
  apply raises_bind; [apply Hf |]. intros b _.
  apply raises_bind; [apply IH |]. intros bs _. exact I.
Qed.

Lemma mapM_returns {A B : Type} (Q : B -> Prop) (f : A -> result B) (l : list A) :
  (forall a, returns Q (f a)) ->
  returns (fun bs => Forall Q bs /\ length bs = length l) (mapM f l).
Proof.
  intros Hf. induction l as [|a l IH]; simpl; [split; constructor |].
  apply returns_bind. intros b Hb. apply returns_bind. intros bs Hbs.
  simpl. pose proof (returns_elim _ _ _ (Hf a) Hb).
  destruct (returns_elim _ _ _ IH Hbs). split; [now constructor | simpl; lia].
Qed.

Lemma ip_int_from_string_v4_raises (s : string) :
  raises (eq CAddressValueError) (_ip_int_from_string_v4 s).
Proof.
  unfold _ip_int_from_string_v4.
  destruct (String.eqb s EmptyString); [reflexivity |].
  match goal with |- raises _ (if ?b then _ else _) => destruct b end; [reflexivity |].
  apply raises_catch with (Q := eq CValueError).
  - apply raises_bind; [apply mapM_raises, parse_octet_raises | intros; exact I].
  - intros; reflexivity.
  - intros cl <-. discriminate.
Qed.

Lemma ip_int_from_string_v4_range (s : string) :
  returns (fun n => 0 <= n <= ALL_ONES V4) (_ip_int_from_string_v4 s).
Proof.
  unfold _ip_int_from_string_v4.
  destruct (String.eqb s EmptyString); [exact I |].
  destruct (Z.eqb_spec (Z.of_nat (length (Py.split "." s))) 4) as [Hlen|]; [|exact I].
  simpl negb. cbv iota.
  pose proof (mapM_returns _ _ (Py.split "." s) parse_octet_range) as Hm.
  destruct (mapM _parse_octet (Py.split "." s)) as [e|bs]; simpl.
  - destruct e as [[] msg]; exact I.
  - destruct Hm as [Hall Hl].
    destruct bs as [|a [|b [|c [|d [|]]]]]; simpl in Hl; try lia.
    inversion Hall as [|? ? Ha Hall1]; subst.
    inversion Hall1 as [|? ? Hb Hall2]; subst.
    inversion Hall2 as [|? ? Hc Hall3]; subst.
    inversion Hall3 as [|? ? Hd _]; subst.
    unfold from_bytes, ALL_ONES. simpl. lia.
Qed.

Lemma IPv4Address_raises (s : string) : raises (eq CAddressValueError) (IPv4Address s).
Proof.
  unfold IPv4Address. destruct (Py.contains "/" s); [reflexivity |].
  apply raises_bind; [apply ip_int_from_string_v4_raises | intros; exact I].
Qed.

Lemma IPv4Address_returns (s : string) :
  returns (fun a => addr_family a = V4 /\ 0 <= ip_int a <= ALL_ONES V4
                    /\ scope_id a = None /\ Py.contains "/" s = false
                    /\ _ip_int_from_string_v4 s = inr (ip_int a))
          (IPv4Address s).
Proof.
  unfold IPv4Address. destruct (Py.contains "/" s); [exact I |].
  pose proof (ip_int_from_string_v4_range s) as H.
  destruct (_ip_int_from_string_v4 s) as [e|n]; simpl; [exact I |].
  repeat split; try reflexivity; apply H.
Qed.

Ltac raises_step :=
  match goal with
  | |- raises _ (raise _) => reflexivity
  | |- raises _ (ret _) => exact I
  | |- raises _ (inr _) => exact I
  | |- raises _ (if ?b then _ else _) => destruct b
  | |- raises _ (match ?o with Some _ => _ | None => _ end) => destruct o
  | |- raises _ (let '(_, _) := ?p in _) => destruct p
  | |- raises _ (bind _ _) => apply raises_bind; [| intros ? ?]
  end.

Lemma parse_hextet_raises (s : string) : raises (eq CValueError) (_parse_hextet s).
Proof. unfold _parse_hextet. repeat raises_step. Qed.

Lemma shift_in_hextets_raises (ps : list string) :
  forall n, raises (eq CValueError) (shift_in_hextets ps n).
Proof.
  induction ps as [|p ps IH]; intros n; simpl; [exact I |].
  apply raises_bind; [apply parse_hextet_raises | intros; apply IH].
Qed.

Lemma find_skip_index_raises (s : string) (interior : list string) :
  forall i skip, raises (eq CAddressValueError) (find_skip_index s interior i skip).
Proof.
  induction interior as [|p ps IH]; intros i skip; simpl; [exact I |].
  destruct (String.eqb p EmptyString); [|apply IH].
  destruct skip; [reflexivity | apply IH].
Qed.

Lemma reraise_as_address {A : Type} (c : result A) (s : string) :
  raises (fun cl => subclass cl CValueError = true) c ->
  raises (eq CAddressValueError)
    (catch c CValueError
       (fun exc => raise (AddressValueError (exn_msg exc +:+ " in " +:+ Py.repr s)))).
Proof.
  intros H. apply raises_catch with (Q := fun cl => subclass cl CValueError = true).
  - exact H.
  - intros; reflexivity.
  - intros cl H1 H2. congruence.
Qed.

Lemma ip_int_from_string_v6_raises (s : string) :
  raises (eq CAddressValueError) (_ip_int_from_string_v6 s).
Proof.
  unfold _ip_int_from_string_v6.
  destruct (String.eqb s EmptyString); [reflexivity |].
  cbv zeta.
  match goal with |- raises _ (if ?b then _ else _) => destruct b end; [reflexivity |].
  apply raises_bind.
  { destruct (Py.contains "." _); [|exact I].
    apply raises_bind; [|intros; exact I].
    apply raises_catch with (Q := eq CAddressValueError).
    - apply IPv4Address_raises.
    - intros; reflexivity.
    - intros cl <-. discriminate. }
  intros parts _.
  match goal with |- raises _ (if ?b then _ else _) => destruct b end; [reflexivity |].
  apply raises_bind; [apply find_skip_index_raises |].
  intros skip _.
  apply raises_bind.
  { destruct skip as [skip|]; repeat raises_step. }
  intros [[hi lo] skipped] _.
  apply reraise_as_address.
  apply raises_bind.
  - eapply raises_weaken; [apply shift_in_hextets_raises | now intros cl <-].
  - intros n _. eapply raises_weaken; [apply shift_in_hextets_raises | now intros cl <-].
Qed.

Lemma IPv6Address_raises (s : string) : raises (eq CAddressValueError) (IPv6Address s).
Proof.
  unfold IPv6Address. destruct (Py.contains "/" s); [reflexivity |].
  apply raises_bind.
  - unfold _split_scope_id. repeat raises_step.
  - intros [addr sc] _. apply raises_bind;
      [apply ip_int_from_string_v6_raises | intros; exact I].
Qed.

Lemma IPv6Address_returns (s : string) :
  returns (fun a => addr_family a = V6 /\ Py.contains "/" s = false) (IPv6Address s).
Proof.
  unfold IPv6Address. destruct (Py.contains "/" s); [exact I |].
  apply returns_bind. intros [addr sc] _.
  apply returns_bind. intros n _. simpl. auto.
Qed.

Lemma address_of_str_raises (f : family) (s : string) :
  raises (eq CAddressValueError) (address_of_str f s).
Proof. destruct f; [apply IPv4Address_raises | apply IPv6Address_raises]. Qed.

Lemma address_of_str_family (f : family) (s : string) :
  returns (fun a => addr_family a = f) (address_of_str f s).
Proof.
  destruct f; simpl.
  - pose proof (IPv4Address_returns s). destruct (IPv4Address s); simpl in *; tauto.
  - pose proof (IPv6Address_returns s). destruct (IPv6Address s); simpl in *; tauto.
Qed.

Lemma split_addr_prefix_raises (f : family) (s : string) :
  raises (eq CAddressValueError) (_split_addr_prefix f s).
Proof.
  unfold _split_addr_prefix, _split_optional_netmask.
  destruct (2 <? Z.of_nat (length (Py.split "/" s))); [reflexivity |].
  cbn [bind ret]. destruct (Py.split "/" s) as [|a [|b [|c l]]]; exact I.
Qed.

(** *** Prefix lengths *)

Lemma bit_length_nonneg (n : Z) : 0 <= Py.bit_length n.
Proof.
  unfold Py.bit_length. destruct (n =? 0); [lia |].
  pose proof (Z.log2_nonneg (Z.abs n)). lia.
Qed.

Lemma count_righthand_zero_bits_range (n bits : Z) :
  0 <= bits -> 0 <= _count_righthand_zero_bits n bits <= bits.
Proof.
  intros Hb. unfold _count_righthand_zero_bits.
  destruct (n =? 0); [lia |].
  pose proof (bit_length_nonneg (Z.land (Z.lnot n) (n - 1))). lia.
Qed.

Lemma prefix_from_ip_int_v4 (n : Z) :
  0 <= n <= ALL_ONES V4 ->
  raises (eq CValueError) (_prefix_from_ip_int V4 n)
  /\ returns (fun p => 0 <= p <= 32) (_prefix_from_ip_int V4 n).
Proof.
  intros Hn. unfold _prefix_from_ip_int. cbv zeta.
  pose proof (count_righthand_zero_bits_range n (max_prefixlen V4) ltac:(simpl; lia)) as Hc.
  simpl max_prefixlen in *.
  match goal with |- context [if ?b then _ else _] => destruct b end.
  - change (Z.to_nat (32 / 8)) with 4%nat.
    rewrite to_bytes_ok by (unfold ALL_ONES in Hn; simpl in *; lia).
    split; [reflexivity | exact I].
  - split; [exact I | simpl; lia].
Qed.

Lemma prefix_from_prefix_string_raises (f : family) (s : string) :
  raises (eq CNetmaskValueError) (_prefix_from_prefix_string f s).
Proof. unfold _prefix_from_prefix_string, _report_invalid_netmask. repeat raises_step. Qed.

Lemma prefix_from_prefix_string_range (f : family) (s : string) :
  returns (fun p => 0 <= p <= max_prefixlen f) (_prefix_from_prefix_string f s).
Proof.
  unfold _prefix_from_prefix_string.
  destruct (negb _); [exact I |].
  destruct (Py.int s) as [p|]; [|exact I].
  destruct (Z.leb_spec 0 p), (Z.leb_spec p (max_prefixlen f)); simpl; try exact I. lia.
Qed.

Lemma lxor_all_ones_range (n : Z) :
  0 <= n <= ALL_ONES V4 -> 0 <= Z.lxor n (ALL_ONES V4) <= ALL_ONES V4.
Proof.
  intros Hn. unfold ALL_ONES in *. simpl max_prefixlen in *.
  enough (0 <= Z.lxor n (2 ^ 32 - 1) < 2 ^ 32) by lia.
  apply bits_range; [lia |]. intros i Hi.
  rewrite Z.lxor_spec. change (2 ^ 32 - 1) with (Z.ones 32).
  rewrite Z.testbit_ones by lia.
  assert (Z.testbit n i = false) as ->.
  { destruct (Z.eq_dec n 0) as [-> | Hz]; [apply Z.bits_0 |].
    apply Z.bits_above_log2; [lia |].
    apply Z.log2_lt_pow2; [lia |].
    pose proof (Z.pow_le_mono_r 2 32 i ltac:(lia) Hi). lia. }
  destruct (Z.leb_spec 0 i), (Z.ltb_spec i 32); simpl; try reflexivity; lia.
Qed.

Lemma prefix_from_ip_string_spec (s : string) :
  raises (eq CNetmaskValueError) (_prefix_from_ip_string s)
  /\ returns (fun p => 0 <= p <= 32) (_prefix_from_ip_string s).
Proof.
  unfold _prefix_from_ip_string.
  pose proof (ip_int_from_string_v4_raises s) as Hr.
  pose proof (ip_int_from_string_v4_range s) as Hn.
  destruct (_ip_int_from_string_v4 s) as [e|n]; simpl in Hr, Hn.
  - destruct e as [cl msg]. simpl in Hr. subst cl. split; [reflexivity | exact I].
  - cbn [catch bind].
    destruct (prefix_from_ip_int_v4 n Hn) as [Hr1 Hp1].
    destruct (_prefix_from_ip_int V4 n) as [e1|p1]; simpl in Hr1, Hp1;
      [|split; [exact I | exact Hp1]].
    destruct e1 as [cl1 msg1]. simpl in Hr1. subst cl1.
    unfold catch at 1. simpl subclass. cbv iota.
    destruct (prefix_from_ip_int_v4 _ (lxor_all_ones_range n Hn)) as [Hr2 Hp2].
    destruct (_prefix_from_ip_int V4 (Z.lxor n (ALL_ONES V4))) as [e2|p2];
      simpl in Hr2, Hp2; [|split; [exact I | exact Hp2]].
    destruct e2 as [cl2 msg2]. simpl in Hr2. subst cl2.
    split; [reflexivity | exact I].
Qed.

(** [_make_netmask] fails with [NetmaskValueError] only, and returns a
    prefix length in range with the netmask that goes with it. *)
Lemma make_netmask_spec (f : family) (arg : string + Z) :
  raises (eq CNetmaskValueError) (_make_netmask f arg)
  /\ returns (fun made => 0 <= snd made <= max_prefixlen f
                          /\ fst made = Address f (_ip_int_from_prefix f (snd made)) None)
       (_make_netmask f arg).
Proof.
  unfold _make_netmask.
  match goal with |- context [bind ?c _] => set (pl := c) end.
  assert (raises (eq CNetmaskValueError) pl
          /\ returns (fun p => 0 <= p <= max_prefixlen f) pl) as [Hr Hp].
  { subst pl. destruct arg as [s|n].
    - destruct f.
      + pose proof (prefix_from_prefix_string_raises V4 s) as Hr.
        pose proof (prefix_from_prefix_string_range V4 s) as Hp.
        destruct (_prefix_from_prefix_string V4 s) as [e|p]; simpl in Hr, Hp.
        * destruct e as [cl msg]. simpl in Hr. subst cl.
          unfold catch. simpl subclass. cbv iota.
          apply prefix_from_ip_string_spec.
        * split; [exact I | exact Hp].
      + split; [apply prefix_from_prefix_string_raises
               | apply prefix_from_prefix_string_range].
    - destruct (Z.leb_spec 0 n), (Z.leb_spec n (max_prefixlen f)); simpl;
        try (split; [reflexivity | exact I]).
      split; [exact I | lia]. }
  destruct pl as [e|p]; simpl in *; [split; [exact Hr | exact I] |].
  rewrite address_of_int_ok by (now apply netmask_range).
  simpl. split; [exact I | split; [exact Hp | reflexivity]].
Qed.

(** ** Networks *)

(** With [strict=False] the constructor never rejects an address for its
    host bits: it masks them away. *)
Lemma network_init_ok (f : family) (a : IPAddress) (p : Z) :
  addr_family a = f -> 0 <= p <= max_prefixlen f ->
  exists na,
    network_init f false a (Address f (_ip_int_from_prefix f p) None, p)
    = inr (Network f na (Address f (_ip_int_from_prefix f p) None) p)
    /\ ip_int na = Z.land (ip_int a) (_ip_int_from_prefix f p)
    /\ addr_family na = f
    /\ (na = a \/ na = Address f (Z.land (ip_int a) (_ip_int_from_prefix f p)) None).
Proof.
  intros Hf Hp. unfold network_init. cbn [ip_int].
  destruct (Z.eqb_spec (Z.land (ip_int a) (_ip_int_from_prefix f p)) (ip_int a)) as [E|E];
    cbn [negb].
  - exists a. cbn [bind ret]. repeat split; auto.
  - rewrite address_of_int_ok.
    + eexists. cbn [bind ret]. repeat split; auto.
    + pose proof (netmask_range f p Hp) as Hm.
      split.
      * apply Z.land_nonneg. right. lia.
      * enough (Z.land (ip_int a) (_ip_int_from_prefix f p) <= _ip_int_from_prefix f p)
          by lia.
        rewrite Z.land_comm.
        assert (forall x y, 0 <= x -> Z.land x y <= x) as Hle.
        { intros x y Hx.
          assert (x = Z.land x y + Z.land x (Z.lnot y)) as Hsum.
          { rewrite Z.add_nocarry_lxor.
            - apply Z.bits_inj'. intros i Hi.
              rewrite Z.lxor_spec, !Z.land_spec, Z.lnot_spec by lia.
              destruct (Z.testbit x i), (Z.testbit y i); reflexivity.
            - apply Z.bits_inj'. intros i Hi.
              rewrite !Z.land_spec, Z.lnot_spec, Z.bits_0 by lia.
              destruct (Z.testbit x i), (Z.testbit y i); reflexivity. }
          assert (0 <= Z.land x (Z.lnot y)) by (apply Z.land_nonneg; now left).
          lia. }
        apply Hle. lia.
Qed.

Lemma land_idempotent_r (x y : Z) : Z.land (Z.land x y) y = Z.land x y.
Proof. now rewrite <- Z.land_assoc, Z.land_diag. Qed.

(** The constructor succeeds as soon as the address text and the
    netmask text are accepted, whatever the host bits. *)
Lemma IPNetwork_new_ok (f : family) (s addr : string) (m : string + Z)
  (a nm : IPAddress) (p : Z) :
  _split_addr_prefix f s = inr (addr, m) ->
  address_of_str f addr = inr a ->
  _make_netmask f m = inr (nm, p) ->
  exists net,
    IPNetwork_new f s false = inr net
    /\ wf_network net /\ net_family net = f /\ prefixlen net = p
    /\ ip_int (network_address net) = Z.land (ip_int a) (_ip_int_from_prefix f p)
    /\ (network_address net = a
        \/ network_address net
           = Address f (Z.land (ip_int a) (_ip_int_from_prefix f p)) None).
Proof.
  intros Hs Ha Hm. unfold IPNetwork_new. rewrite Hs. cbn [bind]. rewrite Ha. cbn [bind].
  rewrite Hm. cbn [bind].
  destruct (make_netmask_spec f m) as [_ Hret]. rewrite Hm in Hret.
  simpl in Hret. destruct Hret as [Hp ->].
  pose proof (address_of_str_family f addr) as Hfam. rewrite Ha in Hfam. simpl in Hfam.
  destruct (network_init_ok f a p Hfam Hp) as (na & Hinit & Hip & Hnf & Hna).
  eexists. split; [exact Hinit |]. simpl.
  repeat split; auto.
  - simpl. lia.
  - simpl. lia.
  - simpl. rewrite Hip. apply land_idempotent_r.
Qed.

Lemma IPNetwork_new_spec (f : family) (s : string) :
  raises address_or_netmask (IPNetwork_new f s false)
  /\ returns (fun net => wf_network net /\ net_family net = f) (IPNetwork_new f s false).
Proof.
  pose proof (split_addr_prefix_raises f s) as Hs.
  destruct (_split_addr_prefix f s) as [e|[addr m]] eqn:Es.
  { unfold IPNetwork_new. rewrite Es. simpl in *. split; [now left | exact I]. }
  pose proof (address_of_str_raises f addr) as Ha.
  destruct (address_of_str f addr) as [e|a] eqn:Ea.
  { unfold IPNetwork_new. rewrite Es. cbn [bind]. rewrite Ea. simpl in *.
    split; [now left | exact I]. }
  destruct (make_netmask_spec f m) as [Hm _].
  destruct (_make_netmask f m) as [e|[nm p]] eqn:Em.
  { unfold IPNetwork_new. rewrite Es. cbn [bind]. rewrite Ea. cbn [bind]. rewrite Em.
    simpl in *. split; [now right | exact I]. }
  destruct (IPNetwork_new_ok f s addr m a nm p Es Ea Em) as (net & -> & Hwf & Hf & _).
  simpl. auto.
Qed.

Lemma address_or_netmask_caught (e : exn) :
  address_or_netmask (exn_cls e) -> is_address_or_netmask_error e = true.
Proof.
  unfold is_address_or_netmask_error. intros [-> | ->]; reflexivity.
Qed.

(** [ip_network(s, strict=False)] either builds a well-formed network or
    raises the one [ValueError] that names the input. *)
Lemma ip_network_cases (s : string) :
  (exists net, ip_network s false = inr net /\ wf_network net
               /\ IPNetwork_new (net_family net) s false = inr net)
  \/ (ip_network s false = inl (not_a_network s)
      /\ (exists e, IPv4Network s false = inl e)
      /\ (exists e, IPv6Network s false = inl e)).
Proof.
  unfold ip_network, IPv4Network, IPv6Network.
  destruct (IPNetwork_new_spec V4 s) as [Hr4 Hw4].
  destruct (IPNetwork_new V4 s false) as [e4|net4] eqn:E4; simpl in Hr4, Hw4.
  - rewrite (address_or_netmask_caught e4 Hr4).
    destruct (IPNetwork_new_spec V6 s) as [Hr6 Hw6].
    destruct (IPNetwork_new V6 s false) as [e6|net6] eqn:E6; simpl in Hr6, Hw6.
    + rewrite (address_or_netmask_caught e6 Hr6). right. eauto.
    + left. exists net6. destruct Hw6 as [Hwf Hf]. rewrite Hf. auto.
  - left. exists net4. destruct Hw4 as [Hwf Hf]. rewrite Hf. auto.
Qed.

(** ** The result in closed form *)

Section IPv4Details.
Variables (n p : Z) (sc : option string).
Hypothesis Hp : 0 <= p <= 32.
Hypothesis Hmasked : Z.land n (_ip_int_from_prefix V4 p) = n.

Let net : IPNetwork :=
  Network V4 (Address V4 n sc) (Address V4 (_ip_int_from_prefix V4 p) None) p.

Lemma v4_network_range : 0 <= n <= ALL_ONES V4.
Proof. exact (masked_range V4 p n Hp Hmasked). Qed.

Lemma v4_total_pos : 1 <= 2 ^ (32 - p) <= 2 ^ 32.
Proof.
  split.
  - pose proof (Z.pow_pos_nonneg 2 (32 - p)). lia.
  - apply Z.pow_le_mono_r; lia.
Qed.

Lemma v4_broadcast_range : 0 <= n + 2 ^ (32 - p) - 1 <= ALL_ONES V4.
Proof. exact (masked_broadcast_range V4 p n Hp Hmasked). Qed.

Lemma v4_hostmask :
  net_hostmask net = inr (Address V4 (Z.ones (32 - p)) None).
Proof.
  unfold net_hostmask, net. cbn [net_family netmask ip_int].
  rewrite (hostmask_ones V4 p Hp). cbn [max_prefixlen].
  apply address_of_int_ok. rewrite Z.ones_equiv.
  pose proof v4_total_pos. unfold ALL_ONES. simpl max_prefixlen. lia.
Qed.

Lemma v4_broadcast :
  net_broadcast_address net = inr (Address V4 (n + 2 ^ (32 - p) - 1) None).
Proof.
  unfold net_broadcast_address. rewrite v4_hostmask. cbn [bind ip_int].
  unfold net. cbn [net_family network_address ip_int].
  pose proof (masked_broadcast V4 p n Hp Hmasked) as Hb.
  cbn [max_prefixlen] in Hb. rewrite Hb.
  apply address_of_int_ok, v4_broadcast_range.
Qed.

Lemma v4_num_addresses : net_num_addresses net = inr (2 ^ (32 - p)).
Proof.
  unfold net_num_addresses. rewrite v4_broadcast. cbn [bind ret ip_int].
  unfold net. cbn [network_address ip_int]. f_equal. lia.
Qed.

Lemma v4_str_network : str_address (Address V4 n sc) = inr (dotted_quad n).
Proof. apply str_address_v4_ok, v4_network_range. Qed.

Lemma v4_str_netmask :
  str_address (Address V4 (_ip_int_from_prefix V4 p) None)
  = inr (dotted_quad (_ip_int_from_prefix V4 p)).
Proof. apply str_address_v4_ok, (netmask_range V4 p Hp). Qed.

(** The second address of a /31. *)
Lemma v4_p2p_peer :
  p = 31 -> address_add (Address V4 n sc) 1 = inr (Address V4 (n + 1) None).
Proof.
  intros E. unfold address_add. cbn [addr_family ip_int].
  apply address_of_int_ok. pose proof v4_broadcast_range as H.
  rewrite E in H. change (2 ^ (32 - 31)) with 2 in H.
  pose proof v4_network_range. lia.
Qed.

Section Ordinary.
Hypothesis Hp30 : p <= 30.

Lemma v4_total_ge_4 : 4 <= 2 ^ (32 - p).
Proof. change 4 with (2 ^ 2). apply Z.pow_le_mono_r; lia. Qed.

(** The range of usable hosts is never empty below /31. *)
Lemma v4_next_hosts : next_hosts net = inr (Address V4 (n + 1) None).
Proof.
  unfold next_hosts. rewrite v4_broadcast. cbn [bind ip_int].
  unfold net. cbn [net_family network_address ip_int].
  pose proof v4_total_ge_4. pose proof v4_broadcast_range. pose proof v4_network_range.
  destruct (Z.ltb_spec (n + 1) (n + 2 ^ (32 - p) - 1)); [|lia].
  apply address_of_int_ok. lia.
Qed.

Lemma v4_last_host :
  address_sub (Address V4 (n + 2 ^ (32 - p) - 1) None) 1
  = inr (Address V4 (n + 2 ^ (32 - p) - 2) None).
Proof.
  unfold address_sub. cbn [addr_family ip_int].
  replace (n + 2 ^ (32 - p) - 1 - 1) with (n + 2 ^ (32 - p) - 2) by lia.
  pose proof v4_total_ge_4. pose proof v4_broadcast_range. pose proof v4_network_range.
  apply address_of_int_ok. lia.
Qed.
End Ordinary.

(** The IPv4 branch of [calculate_subnet_details] never raises and
    returns [ipv4_report]. *)
Lemma subnet_details_v4_closed (s : string) :
  subnet_details s net = inr (ipv4_report s n p).
Proof.
  pose proof v4_network_range as Hn. pose proof v4_broadcast_range as Hb.
  pose proof v4_total_pos as Ht.
  unfold subnet_details, ipv4_report. cbv zeta.
  change (net_family net) with V4. change (network_address net) with (Address V4 n sc).
  change (prefixlen net) with p.
  change (netmask net) with (Address V4 (_ip_int_from_prefix V4 p) None).
  change (version V4 =? 4) with true. cbv iota.
  rewrite v4_str_network, v4_num_addresses, v4_str_netmask. cbn [bind ret].
  rewrite (get_ip_class_dotted_quad n Hn).
  destruct (Z.eqb_spec p 31) as [E31 | E31].
  - rewrite (v4_p2p_peer E31). cbn [bind ret].
    rewrite (str_address_v4_ok (n + 1) None)
      by (rewrite E31 in Hb; change (2 ^ (32 - 31)) with 2 in Hb; lia).
    reflexivity.
  - destruct (Z.eqb_spec p 32) as [E32 | E32]; [reflexivity |].
    assert (p <= 30) as Hp30 by lia.
    rewrite v4_broadcast, (v4_next_hosts Hp30). cbn [bind ret ip_int].
    rewrite (v4_last_host Hp30). cbn [bind ret].
    pose proof (v4_total_ge_4 Hp30).
    rewrite (str_address_v4_ok (n + 2 ^ (32 - p) - 1) None) by lia.
    rewrite (str_address_v4_ok (n + 1) None) by lia.
    rewrite (str_address_v4_ok (n + 2 ^ (32 - p) - 2) None) by lia.
    reflexivity.
Qed.
End IPv4Details.

Lemma wf_network_range (net : IPNetwork) :
  wf_network net ->
  0 <= ip_int (network_address net) <= ALL_ONES (net_family net).
Proof.
  intros [Hf Hp Hm Hl].
  exact (masked_range (net_family net) (prefixlen net) _ Hp Hl).
Qed.

Lemma wf_network_str (net : IPNetwork) :
  wf_network net -> str_address (network_address net) = inr (network_id net).
Proof.
  intros Hwf. pose proof (wf_network_range net Hwf) as Hr.
  destruct Hwf as [Hf _ _ _]. unfold network_id.
  destruct (network_address net) as [fa n sc]. simpl in *. subst fa.
  destruct (net_family net).
  - now rewrite str_address_v4_ok.
  - destruct (str_address_v6_ok n sc Hr) as [id ->]. reflexivity.
Qed.

Lemma network_id_v4 (net : IPNetwork) :
  wf_network net -> net_family net = V4 ->
  network_id net = dotted_quad (ip_int (network_address net)).
Proof.
  intros Hwf Hf. pose proof (wf_network_range net Hwf) as Hr.
  destruct Hwf as [Hfa _ _ _]. unfold network_id.
  destruct (network_address net) as [fa n sc]. simpl in *.
  rewrite Hf in *. subst fa. now rewrite str_address_v4_ok.
Qed.

(** The [try] block never raises on a network that [ip_network] built. *)
Lemma subnet_details_closed (s : string) (net : IPNetwork) :
  wf_network net -> subnet_details s net = inr (report s net).
Proof.
  intros Hwf. pose proof (wf_network_str net Hwf) as Hstr.
  destruct Hwf as [Hf Hp Hm Hl]. unfold report.
  destruct net as [f [fa n sc] nm p]. simpl in *. subst fa nm.
  destruct f.
  - exact (subnet_details_v4_closed n p sc Hp Hl s).
  - unfold subnet_details, ipv6_report. cbv zeta.
    cbn [net_family network_address prefixlen].
    change (version V6 =? 4) with false. change (version V6 =? 6) with true. cbv iota.
    rewrite Hstr. cbn [bind ret].
    destruct (64 <=? 128 - p); reflexivity.
Qed.

Lemma report_keys (s : string) (net : IPNetwork) :
  od_keys (report s net) = field_names (net_family net).
Proof. unfold report. destruct (net_family net); reflexivity. Qed.

Lemma report_no_error (s : string) (net : IPNetwork) :
  od_get "Error" (report s net) = None.
Proof. unfold report. destruct (net_family net); reflexivity. Qed.

(** A successful call returns the closed form. *)
Lemma calculate_valid (s : string) (net : IPNetwork) :
  ip_network s false = inr net -> wf_network net ->
  calculate_subnet_details s = inr (report s net).
Proof.
  intros Hnet Hwf. unfold calculate_subnet_details. rewrite Hnet. cbn [bind].
  rewrite (subnet_details_closed s net Hwf). reflexivity.
Qed.

(** A rejected input returns the error dictionary. *)
Lemma calculate_invalid (s : string) :
  ip_network s false = inl (not_a_network s) ->
  calculate_subnet_details s = inr (error_result s).
Proof.
  intros Hnet. unfold calculate_subnet_details. rewrite Hnet. reflexivity.
Qed.

Lemma ip_network_wf (s : string) (net : IPNetwork) :
  ip_network s false = inr net -> wf_network net.
Proof.
  intros H. destruct (ip_network_cases s) as [(net' & H' & Hwf & _) | [H' _]];
    rewrite H in H'; [now inversion H' | discriminate].
Qed.

Lemma ip_network_built (s : string) (net : IPNetwork) :
  ip_network s false = inr net -> IPNetwork_new (net_family net) s false = inr net.
Proof.
  intros H. destruct (ip_network_cases s) as [(net' & H' & _ & Hnew) | [H' _]];
    rewrite H in H'; [now inversion H'; subst | discriminate].
Qed.

Lemma IPNetwork_new_inv (f : family) (s : string) (net : IPNetwork) :
  IPNetwork_new f s false = inr net ->
  exists addr m a nm,
    _split_addr_prefix f s = inr (addr, m)
    /\ address_of_str f addr = inr a
    /\ _make_netmask f m = inr (nm, prefixlen net)
    /\ ip_int (network_address net)
       = Z.land (ip_int a) (_ip_int_from_prefix f (prefixlen net))
    /\ (network_address net = a
        \/ network_address net
           = Address f (Z.land (ip_int a) (_ip_int_from_prefix f (prefixlen net))) None).
Proof.
  intros H. unfold IPNetwork_new in H.
  destruct (_split_addr_prefix f s) as [e|[addr m]] eqn:Es; [discriminate |].
  cbn [bind] in H.
  destruct (address_of_str f addr) as [e|a] eqn:Ea; [discriminate |].
  cbn [bind] in H.
  destruct (_make_netmask f m) as [e|[nm p]] eqn:Em; [discriminate |].
  destruct (IPNetwork_new_ok f s addr m a nm p Es Ea Em)
    as (net' & Hnew & _ & _ & Hp & Hip & Hna).
  unfold IPNetwork_new in Hnew. rewrite Es in Hnew. cbn [bind] in Hnew.
  rewrite Ea in Hnew. cbn [bind] in Hnew. rewrite Em in Hnew.
  rewrite H in Hnew. inversion Hnew; subst net'.
  exists addr, m, a, nm. rewrite Hp. auto.
Qed.

Lemma ip_network_of_v4 (s : string) (net : IPNetwork) :
  IPv4Network s false = inr net -> ip_network s false = inr net.
Proof. intros H. unfold ip_network. now rewrite H. Qed.

Lemma ip_network_of_v6 (s : string) (e : exn) (net : IPNetwork) :
  IPv4Network s false = inl e -> IPv6Network s false = inr net ->
  ip_network s false = inr net.
Proof.
  intros H4 H6. unfold ip_network. rewrite H4, H6.
  destruct (IPNetwork_new_spec V4 s) as [Hr _].
  unfold IPv4Network in H4. rewrite H4 in Hr. simpl in Hr.
  now rewrite (address_or_netmask_caught e Hr).
Qed.

(** The first octet survives masking when the prefix covers it. *)
Lemma first_octet_masked (a p : Z) :
  0 <= a <= ALL_ONES V4 -> 8 <= p <= 32 ->
  first_octet (Z.land a (_ip_int_from_prefix V4 p)) = first_octet a.
Proof.
  intros Ha Hp. unfold first_octet. apply Z.bits_inj'. intros i Hi.
  rewrite !Z.shiftr_spec, Z.land_spec, (netmask_testbit V4) by (simpl; lia).
  simpl max_prefixlen.
  destruct (Z.ltb_spec (i + 24) 32).
  - destruct (Z.leb_spec (32 - p) (i + 24)); [apply andb_true_r | lia].
  - rewrite andb_false_r, andb_false_r.
    destruct (Z.eq_dec a 0) as [-> | Hz]; [now rewrite Z.bits_0 |].
    symmetry. apply Z.bits_above_log2; [lia |].
    apply Z.log2_lt_pow2; [lia |].
    unfold ALL_ONES in Ha. simpl in Ha.
    pose proof (Z.pow_le_mono_r 2 32 (i + 24) ltac:(lia) ltac:(lia)). lia.
Qed.

(** * The claims *)

(** C1, as the specification states it, fails: for [200.1.1.1/1] the
    supplied address has first octet 200, a Class C octet, while the
    field reports the class of the network address [128.0.0.0]. *)
Lemma C1_class_not_from_supplied_address :
  exists a d,
    supplied_address V4 "200.1.1.1/1" = inr a
    /\ calculate_subnet_details "200.1.1.1/1" = inr d
    /\ historical_class (first_octet (ip_int a)) = "Class C"
    /\ od_get "Historical Class" d = Some (VStr "Class B")
    /\ od_get "Historical Class" d
       <> Some (VStr (historical_class (first_octet (ip_int a)))).
Proof.
  eexists. eexists.
  split; [vm_compute; reflexivity |].
  split; [vm_compute; reflexivity |].
  split; [vm_compute; reflexivity |].
  split; [vm_compute; reflexivity | vm_compute; discriminate].
Qed.

(** C1, amended: for every valid IPv4 input the Historical Class field is
    the class, by the mapping 1-126 A, 128-191 B, 192-223 C, 224-239 D,
    240-255 E, otherwise Special/Reserved, of the first octet of the
    masked network address; when the prefix length is at least 8 that
    octet is also the first octet of the supplied address. *)
Theorem C1_class_from_network_address (s : string) (net : IPNetwork) :
  ip_network s false = inr net -> net_family net = V4 ->
  exists d,
    calculate_subnet_details s = inr d
    /\ od_get "Historical Class" d
       = Some (VStr (historical_class (first_octet (ip_int (network_address net)))))
    /\ (forall a, supplied_address V4 s = inr a -> 8 <= prefixlen net ->
                  first_octet (ip_int (network_address net)) = first_octet (ip_int a)).
Proof.
  intros Hnet Hf. pose proof (ip_network_wf s net Hnet) as Hwf.
  exists (report s net). split; [now apply calculate_valid |].
  split; [unfold report; rewrite Hf; reflexivity |].
  intros a Ha Hp8.
  pose proof (ip_network_built s net Hnet) as Hnew. rewrite Hf in Hnew.
  destruct (IPNetwork_new_inv V4 s net Hnew) as (addr & m & a' & nm & Es & Ea & _ & Hip & _).
  unfold supplied_address in Ha. rewrite Es in Ha. cbn [bind] in Ha.
  rewrite Ea in Ha. inversion Ha; subst a'.
  rewrite Hip. apply first_octet_masked.
  - pose proof (IPv4Address_returns addr) as Hr. simpl in Ea. rewrite Ea in Hr.
    simpl in Hr. tauto.
  - destruct Hwf as [_ Hp _ _]. rewrite Hf in Hp. simpl in Hp. lia.
Qed.

Lemma C1_class_from_network_address_witness :
  ip_network "200.1.1.1/8" false
  = inr (Network V4 (Address V4 3355443200 None) (Address V4 4278190080 None) 8)
  /\ exists d,
      calculate_subnet_details "200.1.1.1/8" = inr d
      /\ od_get "Historical Class" d
         = Some (VStr (historical_class (first_octet 3355443200)))
      /\ (forall a, supplied_address V4 "200.1.1.1/8" = inr a -> 8 <= 8 ->
                    first_octet 3355443200 = first_octet (ip_int a)).
Proof.
  split; [vm_compute; reflexivity |].
  apply (C1_class_from_network_address "200.1.1.1/8"
           (Network V4 (Address V4 3355443200 None) (Address V4 4278190080 None) 8));
    [vm_compute; reflexivity | reflexivity].
Defined.

(** ** C2: an address without a prefix *)

Lemma split_addr_prefix_no_slash (f : family) (s : string) :
  Py.contains "/" s = false ->
  _split_addr_prefix f s = inr (s, inr (max_prefixlen f)).
Proof.
  intros H. unfold _split_addr_prefix, _split_optional_netmask.
  rewrite (split_no_sep "/" s H). reflexivity.
Qed.

Lemma make_netmask_full (f : family) :
  _make_netmask f (inr (max_prefixlen f))
  = inr (Address f (_ip_int_from_prefix f (max_prefixlen f)) None, max_prefixlen f).
Proof. destruct f; vm_compute; reflexivity. Qed.

Lemma network_of_bare_address (f : family) (s : string) (a : IPAddress) :
  address_of_str f s = inr a ->
  exists net,
    IPNetwork_new f s false = inr net /\ wf_network net
    /\ net_family net = f /\ prefixlen net = max_prefixlen f.
Proof.
  intros Ha.
  assert (Py.contains "/" s = false) as Hslash.
  { destruct f; simpl in Ha.
    - pose proof (IPv4Address_returns s) as H. rewrite Ha in H. simpl in H. tauto.
    - pose proof (IPv6Address_returns s) as H. rewrite Ha in H. simpl in H. tauto. }
  destruct (IPNetwork_new_ok f s s _ a _ _
              (split_addr_prefix_no_slash f s Hslash) Ha (make_netmask_full f))
    as (net & Hnew & Hwf & Hf & Hp & _).
  exists net. auto.
Qed.

(** C2, as the specification states it, fails: the bare address
    [10.0.0.1] has no slash and is accepted, with prefix length 32. *)
Lemma C2_missing_prefix_accepted :
  Py.contains "/" "10.0.0.1" = false
  /\ ip_address "10.0.0.1" = inr (Address V4 167772161 None)
  /\ exists d,
      calculate_subnet_details "10.0.0.1" = inr d
      /\ od_get "Error" d = None
      /\ od_get "CIDR Prefix" d = Some (VStr "/32").
Proof.
  split; [reflexivity |]. split; [vm_compute; reflexivity |].
  eexists. split; [vm_compute; reflexivity |]. split; reflexivity.
Qed.

(** C2, amended: for every input string that is a syntactically valid
    address without a slash, the calculation succeeds and uses the full
    prefix length of the address family, 32 for IPv4 and 128 for IPv6. *)
Theorem C2_missing_prefix_defaults_to_host (s : string) (a : IPAddress) :
  ip_address s = inr a ->
  Py.contains "/" s = false
  /\ exists net,
      ip_network s false = inr net
      /\ net_family net = addr_family a
      /\ prefixlen net = max_prefixlen (addr_family a)
      /\ calculate_subnet_details s = inr (report s net)
      /\ od_get "Error" (report s net) = None
      /\ od_get "CIDR Prefix" (report s net)
         = Some (VStr ("/" +:+ Py.str_of_int (max_prefixlen (addr_family a)))).
Proof.
  intros Ha. unfold ip_address in Ha.
  assert (exists f e4,
             address_of_str f s = inr a /\ addr_family a = f
             /\ (f = V4 \/ (f = V6 /\ IPv4Address s = inl e4))) as (f & e4 & Hstr & Hfam & Hcase).
  { destruct (IPv4Address s) as [e|a4] eqn:E4.
    - destruct (is_address_or_netmask_error e); [|discriminate].
      destruct (IPv6Address s) as [e6|a6] eqn:E6.
      + destruct (is_address_or_netmask_error e6); discriminate.
      + inversion Ha; subst a6. exists V6, e. simpl.
        pose proof (IPv6Address_returns s) as H. rewrite E6 in H. simpl in H.
        split; [assumption |]. split; [tauto |]. right. auto.
    - inversion Ha; subst a4. exists V4, (ValueError EmptyString). simpl.
      pose proof (IPv4Address_returns s) as H. rewrite E4 in H. simpl in H.
      split; [assumption |]. split; [tauto |]. now left. }
  destruct (network_of_bare_address f s a Hstr) as (net & Hnew & Hwf & Hf & Hp).
  assert (Py.contains "/" s = false) as Hslash.
  { destruct f; simpl in Hstr.
    - pose proof (IPv4Address_returns s) as H. rewrite Hstr in H. simpl in H. tauto.
    - pose proof (IPv6Address_returns s) as H. rewrite Hstr in H. simpl in H. tauto. }
  split; [exact Hslash |].
  assert (ip_network s false = inr net) as Hnet.
  { destruct Hcase as [-> | [-> E4]].
    - now apply ip_network_of_v4.
    - assert (exists e, IPv4Network s false = inl e) as [e He].
      { unfold IPv4Network, IPNetwork_new.
        rewrite (split_addr_prefix_no_slash V4 s Hslash). cbn [bind address_of_str].
        rewrite E4. eauto. }
      now apply (ip_network_of_v6 s e). }
  exists net. rewrite Hfam.
  split; [exact Hnet |]. split; [exact Hf |]. split; [exact Hp |].
  split; [now apply calculate_valid |].
  split; [apply report_no_error |].
  unfold report. rewrite Hf, Hp. destruct f; reflexivity.
Qed.

Lemma C2_missing_prefix_defaults_to_host_witness :
  ip_address "2001:db8::1" = inr (Address V6 42540766411282592856903984951653826561 None)
  /\ Py.contains "/" "2001:db8::1" = false
  /\ exists net,
      ip_network "2001:db8::1" false = inr net
      /\ net_family net = V6
      /\ prefixlen net = 128
      /\ calculate_subnet_details "2001:db8::1" = inr (report "2001:db8::1" net)
      /\ od_get "Error" (report "2001:db8::1" net) = None
      /\ od_get "CIDR Prefix" (report "2001:db8::1" net) = Some (VStr "/128").
Proof.
  split; [vm_compute; reflexivity |].
  apply (C2_missing_prefix_defaults_to_host "2001:db8::1"
           (Address V6 42540766411282592856903984951653826561 None)).
  vm_compute; reflexivity.
Defined.

(** ** C3: the IPv6 counts *)

(** C3, as the specification states it, fails: for [2001:db8::1/64] the
    host bits are 64 and the Total IP Addresses field is not the bare
    text [2^64]. *)
Lemma C3_total_not_bare_power :
  exists d,
    calculate_subnet_details "2001:db8::1/64" = inr d
    /\ od_get "Host Bits" d = Some (VInt 64)
    /\ od_get "Total IP Addresses" d = Some (VStr "2^64 (Standard /64 Subnet)")
    /\ od_get "Total IP Addresses" d <> Some (VStr ("2^" +:+ Py.str_of_int 64)).
Proof.
  eexists. split; [vm_compute; reflexivity |].
  split; [reflexivity |]. split; [reflexivity | vm_compute; discriminate].
Qed.

(** C3, amended: for every valid IPv6 input with host_bits = 128 -
    prefix_length, the Total IP Addresses field is the text
    ["2^<host_bits>"], followed by [" (Standard /64 Subnet)"] when
    host_bits >= 64, and the Usable Host Count field is
    ["Effectively infinite"] when host_bits >= 64 and the text
    ["2^<host_bits>"] otherwise. *)
Theorem C3_ipv6_counts (s : string) (net : IPNetwork) :
  ip_network s false = inr net -> net_family net = V6 ->
  let host_bits := 128 - prefixlen net in
  exists d,
    calculate_subnet_details s = inr d
    /\ od_get "Host Bits" d = Some (VInt host_bits)
    /\ od_get "Total IP Addresses" d
       = Some (VStr (if 64 <=? host_bits
                     then "2^" +:+ Py.str_of_int host_bits +:+ " (Standard /64 Subnet)"
                     else "2^" +:+ Py.str_of_int host_bits))
    /\ od_get "Usable Host Count" d
       = Some (VStr (if 64 <=? host_bits then "Effectively infinite"
                     else "2^" +:+ Py.str_of_int host_bits)).
Proof.
  intros Hnet Hf host_bits. pose proof (ip_network_wf s net Hnet) as Hwf.
  exists (report s net). split; [now apply calculate_valid |].
  unfold report. rewrite Hf. repeat split; reflexivity.
Qed.

Lemma C3_ipv6_counts_witness :
  ip_network "2001:db8::1/100" false
  = inr (Network V6 (Address V6 42540766411282592856903984951653826560 None)
           (Address V6 340282366920938463463374607431499776000 None) 100)
  /\ exists d,
      calculate_subnet_details "2001:db8::1/100" = inr d
      /\ od_get "Host Bits" d = Some (VInt 28)
      /\ od_get "Total IP Addresses" d = Some (VStr "2^28")
      /\ od_get "Usable Host Count" d = Some (VStr "2^28").
Proof.
  split; [vm_compute; reflexivity |].
  apply (C3_ipv6_counts "2001:db8::1/100"
           (Network V6 (Address V6 42540766411282592856903984951653826560 None)
              (Address V6 340282366920938463463374607431499776000 None) 100));
    [vm_compute; reflexivity | reflexivity].
Defined.

(** ** C4: the order and the names of the fields *)

(** C4, as the specification states it, fails: an IPv6 result starts its
    family block with Subnet Mask Concept, which the table of the
    specification lists after the counts, and an IPv4 result names two
    fields [Host Bits (h)] and [Subnet Bits (s)]. *)
Lemma C4_fields_differ_from_tables :
  (exists d, calculate_subnet_details "2001:db8::1/64" = inr d
             /\ od_keys d <> spec_field_names V6)
  /\ (exists d, calculate_subnet_details "192.168.50.1/24" = inr d
                /\ od_keys d <> spec_field_names V4).
Proof.
  split; eexists; (split; [vm_compute; reflexivity | vm_compute; discriminate]).
Qed.

(** C4, amended: for every successful calculation the fields appear in
    the fixed order Input IP/CIDR (the input as supplied), IP Version,
    Network ID, Historical Class (IPv4 only), CIDR Prefix, and then for
    IPv4 Subnet Mask, Host Bits (h), Subnet Bits (s), Total IP Addresses,
    Usable Host Count, Broadcast Address, Usable Host Range, and for IPv6
    Subnet Mask Concept, Host Bits, Total IP Addresses, Usable Host
    Count, Broadcast Address Concept, Host Range Concept. *)
Theorem C4_field_order (s : string) (net : IPNetwork) :
  ip_network s false = inr net ->
  exists d,
    calculate_subnet_details s = inr d
    /\ od_keys d = field_names (net_family net)
    /\ od_get "Input IP/CIDR" d = Some (VStr s)
    /\ od_get "Network ID" d = Some (VStr (network_id net))
    /\ od_get "IP Version" d
       = Some (VStr ("IPv" +:+ Py.str_of_int (version (net_family net))))
    /\ od_get "CIDR Prefix" d = Some (VStr ("/" +:+ Py.str_of_int (prefixlen net))).
Proof.
  intros Hnet. pose proof (ip_network_wf s net Hnet) as Hwf.
  exists (report s net). split; [now apply calculate_valid |].
  split; [apply report_keys |].
  unfold report. destruct (net_family net) eqn:Hf.
  - rewrite (network_id_v4 net Hwf Hf). repeat split; reflexivity.
  - repeat split; reflexivity.
Qed.

Lemma C4_field_order_witness :
  ip_network "2001:db8::1/64" false
  = inr (Network V6 (Address V6 42540766411282592856903984951653826560 None)
           (Address V6 340282366920938463444927863358058659840 None) 64)
  /\ exists d,
      calculate_subnet_details "2001:db8::1/64" = inr d
      /\ od_keys d = field_names V6
      /\ od_get "Input IP/CIDR" d = Some (VStr "2001:db8::1/64")
      /\ od_get "Network ID" d = Some (VStr "2001:db8::")
      /\ od_get "IP Version" d = Some (VStr "IPv6")
      /\ od_get "CIDR Prefix" d = Some (VStr "/64").
Proof.
  split; [vm_compute; reflexivity |].
  apply (C4_field_order "2001:db8::1/64"
           (Network V6 (Address V6 42540766411282592856903984951653826560 None)
              (Address V6 340282366920938463444927863358058659840 None) 64)).
  vm_compute; reflexivity.
Defined.

(** ** C5 and C6: the degenerate prefixes *)

(** C5: for every valid IPv4 input with prefix length 31 the Usable Host
    Count is ["2 (RFC 3021 P2P)"], the Broadcast Address is the network
    address plus one, and the Usable Host Range is
    ["<network> - <network+1> (RFC 3021 P2P)"]; [10.0.0.0/31] yields
    Broadcast [10.0.0.1] and Host Range
    ["10.0.0.0 - 10.0.0.1 (RFC 3021 P2P)"]. *)
Theorem C5_prefix_31 :
  (forall s net,
      ip_network s false = inr net -> net_family net = V4 -> prefixlen net = 31 ->
      let n := ip_int (network_address net) in
      exists d,
        calculate_subnet_details s = inr d
        /\ od_get "Usable Host Count" d = Some (VStr "2 (RFC 3021 P2P)")
        /\ od_get "Network ID" d = Some (VStr (dotted_quad n))
        /\ od_get "Broadcast Address" d = Some (VStr (dotted_quad (n + 1)))
        /\ od_get "Usable Host Range" d
           = Some (VStr (dotted_quad n +:+ " - " +:+ dotted_quad (n + 1)
                         +:+ " (RFC 3021 P2P)")))
  /\ exists d,
      calculate_subnet_details "10.0.0.0/31" = inr d
      /\ od_get "Usable Host Count" d = Some (VStr "2 (RFC 3021 P2P)")
      /\ od_get "Broadcast Address" d = Some (VStr "10.0.0.1")
      /\ od_get "Usable Host Range" d = Some (VStr "10.0.0.0 - 10.0.0.1 (RFC 3021 P2P)").
Proof.
  split.
  - intros s net Hnet Hf Hp n. pose proof (ip_network_wf s net Hnet) as Hwf.
    exists (report s net). split; [now apply calculate_valid |].
    unfold report, ipv4_report. rewrite Hf, Hp. repeat split; reflexivity.
  - eexists. split; [vm_compute; reflexivity |]. repeat split; reflexivity.
Qed.

Lemma C5_prefix_31_witness :
  ip_network "172.16.9.7/31" false
  = inr (Network V4 (Address V4 2886732038 None) (Address V4 4294967294 None) 31)
  /\ exists d,
      calculate_subnet_details "172.16.9.7/31" = inr d
      /\ od_get "Usable Host Count" d = Some (VStr "2 (RFC 3021 P2P)")
      /\ od_get "Network ID" d = Some (VStr (dotted_quad 2886732038))
      /\ od_get "Broadcast Address" d = Some (VStr (dotted_quad (2886732038 + 1)))
      /\ od_get "Usable Host Range" d
         = Some (VStr (dotted_quad 2886732038 +:+ " - " +:+ dotted_quad (2886732038 + 1)
                       +:+ " (RFC 3021 P2P)")).
Proof.
  split; [vm_compute; reflexivity |].
  apply (proj1 C5_prefix_31 "172.16.9.7/31"
           (Network V4 (Address V4 2886732038 None) (Address V4 4294967294 None) 31));
    [vm_compute; reflexivity | reflexivity | reflexivity].
Defined.

(** C6: for every valid IPv4 input with prefix length 32 the Usable Host
    Count is ["1 (Single Address)"], and the Broadcast Address and the
    Usable Host Range are the network address itself; [10.0.0.5/32]
    yields Broadcast [10.0.0.5] and Host Range [10.0.0.5]. *)
Theorem C6_prefix_32 :
  (forall s net,
      ip_network s false = inr net -> net_family net = V4 -> prefixlen net = 32 ->
      let n := ip_int (network_address net) in
      exists d,
        calculate_subnet_details s = inr d
        /\ od_get "Usable Host Count" d = Some (VStr "1 (Single Address)")
        /\ od_get "Network ID" d = Some (VStr (dotted_quad n))
        /\ od_get "Broadcast Address" d = Some (VStr (dotted_quad n))
        /\ od_get "Usable Host Range" d = Some (VStr (dotted_quad n)))
  /\ exists d,
      calculate_subnet_details "10.0.0.5/32" = inr d
      /\ od_get "Usable Host Count" d = Some (VStr "1 (Single Address)")
      /\ od_get "Broadcast Address" d = Some (VStr "10.0.0.5")
      /\ od_get "Usable Host Range" d = Some (VStr "10.0.0.5").
Proof.
  split.
  - intros s net Hnet Hf Hp n. pose proof (ip_network_wf s net Hnet) as Hwf.
    exists (report s net). split; [now apply calculate_valid |].
    unfold report, ipv4_report. rewrite Hf, Hp. repeat split; reflexivity.
  - eexists. split; [vm_compute; reflexivity |]. repeat split; reflexivity.
Qed.

Lemma C6_prefix_32_witness :
  ip_network "192.0.2.77/32" false
  = inr (Network V4 (Address V4 3221226061 None) (Address V4 4294967295 None) 32)
  /\ exists d,
      calculate_subnet_details "192.0.2.77/32" = inr d
      /\ od_get "Usable Host Count" d = Some (VStr "1 (Single Address)")
      /\ od_get "Network ID" d = Some (VStr (dotted_quad 3221226061))
      /\ od_get "Broadcast Address" d = Some (VStr (dotted_quad 3221226061))
      /\ od_get "Usable Host Range" d = Some (VStr (dotted_quad 3221226061)).
Proof.
  split; [vm_compute; reflexivity |].
  apply (proj1 C6_prefix_32 "192.0.2.77/32"
           (Network V4 (Address V4 3221226061 None) (Address V4 4294967295 None) 32));
    [vm_compute; reflexivity | reflexivity | reflexivity].
Defined.

(** ** C7: non-strict parsing *)

(** C7: for every IPv4 input whose address text and netmask text are
    accepted, whatever the host bits of the address, the network is not
    rejected; its address is the supplied address ANDed with
    [mask(prefix, 32)], and all its bits beyond the prefix are zero. *)
Theorem C7_network_address_is_masked (s addr : string) (m : string + Z)
  (a nm : IPAddress) (p : Z) :
  _split_addr_prefix V4 s = inr (addr, m) ->
  IPv4Address addr = inr a ->
  _make_netmask V4 m = inr (nm, p) ->
  exists net,
    ip_network s false = inr net
    /\ net_family net = V4 /\ prefixlen net = p /\ 0 <= p <= 32
    /\ ip_int (network_address net) = Z.land (ip_int a) (mask p 32)
    /\ (forall i, 0 <= i < 32 - p -> Z.testbit (ip_int (network_address net)) i = false)
    /\ exists d,
        calculate_subnet_details s = inr d
        /\ od_get "Network ID" d
           = Some (VStr (dotted_quad (Z.land (ip_int a) (mask p 32)))).
Proof.
  intros Hs Ha Hm.
  destruct (IPNetwork_new_ok V4 s addr m a nm p Hs Ha Hm)
    as (net & Hnew & Hwf & Hf & Hp & Hip & _).
  pose proof (ip_network_of_v4 s net Hnew) as Hnet.
  pose proof Hwf as [_ Hrange _ Hmasked]. rewrite Hf, Hp in Hrange, Hmasked.
  simpl max_prefixlen in Hrange.
  exists net. split; [exact Hnet |]. split; [exact Hf |]. split; [exact Hp |].
  split; [exact Hrange |].
  rewrite (netmask_is_mask V4 p Hrange) in Hip. simpl max_prefixlen in Hip.
  split; [exact Hip |].
  split.
  - intros i Hi. apply (masked_host_bits_zero V4 p _ Hrange Hmasked). simpl. lia.
  - exists (report s net). split; [now apply calculate_valid |].
    unfold report. rewrite Hf, Hip. reflexivity.
Qed.

Lemma C7_network_address_is_masked_witness :
  _split_addr_prefix V4 "192.168.50.1/24" = inr ("192.168.50.1", inl "24")
  /\ IPv4Address "192.168.50.1" = inr (Address V4 3232248321 None)
  /\ _make_netmask V4 (inl "24") = inr (Address V4 4294967040 None, 24)
  /\ exists net,
      ip_network "192.168.50.1/24" false = inr net
      /\ net_family net = V4 /\ prefixlen net = 24 /\ 0 <= 24 <= 32
      /\ ip_int (network_address net) = Z.land 3232248321 (mask 24 32)
      /\ (forall i, 0 <= i < 32 - 24 -> Z.testbit (ip_int (network_address net)) i = false)
      /\ exists d,
          calculate_subnet_details "192.168.50.1/24" = inr d
          /\ od_get "Network ID" d
             = Some (VStr (dotted_quad (Z.land 3232248321 (mask 24 32)))).
Proof.
  split; [vm_compute; reflexivity |].
  split; [vm_compute; reflexivity |].
  split; [vm_compute; reflexivity |].
  apply (C7_network_address_is_masked "192.168.50.1/24" "192.168.50.1" (inl "24")
           (Address V4 3232248321 None) (Address V4 4294967040 None) 24);
    vm_compute; reflexivity.
Defined.

(** With [strict=True] the same input would be refused for its host
    bits; the engine passes [strict=False]. *)
Example strict_rejects_host_bits :
  IPv4Network "192.168.50.1/24" true
  = inl (ValueError "192.168.50.1/24 has host bits set").
Proof. vm_compute. reflexivity. Qed.

(** ** Rejected inputs *)

(** The engine lets no exception escape. *)
Lemma calculate_total (s : string) :
  calculate_subnet_details s = inr (error_result s)
  \/ exists net,
      ip_network s false = inr net
      /\ calculate_subnet_details s = inr (report s net).
Proof.
  destruct (ip_network_cases s) as [(net & Hnet & Hwf & _) | [Hnet _]].
  - right. exists net. split; [exact Hnet | now apply calculate_valid].
  - left. now apply calculate_invalid.
Qed.

(** ** C10: [get_ip_class] *)

Lemma get_ip_class_label (s : string) : In (get_ip_class s) class_labels.
Proof.
  unfold get_ip_class, class_labels.
  destruct (Py.int _) as [o|]; simpl; [|tauto].
  repeat match goal with
         | |- context [if ?b then _ else _] => destruct b
         end; tauto.
Qed.

Lemma get_ip_class_na (s : string) :
  get_ip_class s = "N/A" <-> Py.int (hd EmptyString (Py.split "." s)) = None.
Proof.
  unfold get_ip_class.
  destruct (Py.int _) as [o|]; [|tauto].
  split; [|discriminate].
  repeat match goal with
         | |- context [if ?b then _ else _] => destruct b
         end; discriminate.
Qed.

Lemma mapM_head {A B : Type} (f : A -> result B) (a : A) (l : list A) (bs : list B) :
  mapM f (a :: l) = inr bs -> exists b, f a = inr b.
Proof.
  simpl. destruct (f a) as [e|b]; [discriminate | eauto].
Qed.

(** The first octet of an accepted dotted quad is read by [int]. *)
Lemma IPv4Address_first_octet (s : string) (a : IPAddress) :
  IPv4Address s = inr a ->
  exists o, Py.int (hd EmptyString (Py.split "." s)) = Some o.
Proof.
  intros H. unfold IPv4Address in H.
  destruct (Py.contains "/" s); [discriminate |].
  unfold _ip_int_from_string_v4 in H.
  destruct (String.eqb s EmptyString); [discriminate |].
  destruct (negb _); [discriminate |].
  destruct (Py.split "." s) as [|p ps] eqn:Es; [now apply split_nonempty in Es |].
  destruct (mapM _parse_octet (p :: ps)) as [e|bs] eqn:Em.
  - simpl in H. destruct e as [[] msg]; discriminate.
  - destruct (mapM_head _ _ _ _ Em) as [o Ho]. simpl hd.
    unfold _parse_octet in Ho.
    repeat match type of Ho with
           | (if ?b then _ else _) = _ => destruct b; [discriminate |]
           end.
    unfold Py.int. destruct (Py.int_base 10 p) as [v|]; [eauto | discriminate].
Qed.

(** C10: [get_ip_class] returns one of its seven labels for every
    string; it returns ["N/A"] exactly when [int] rejects the text before
    the first dot, which does not happen for a string that [IPv4Address]
    accepts. *)
Theorem C10_get_ip_class_total (s : string) :
  In (get_ip_class s) class_labels
  /\ (get_ip_class s = "N/A" <-> Py.int (hd EmptyString (Py.split "." s)) = None)
  /\ (forall a, IPv4Address s = inr a -> get_ip_class s <> "N/A").
Proof.
  split; [apply get_ip_class_label |]. split; [apply get_ip_class_na |].
  intros a Ha Hna. apply get_ip_class_na in Hna.
  destruct (IPv4Address_first_octet s a Ha) as [o Ho]. congruence.
Qed.

Lemma C10_get_ip_class_total_witness :
  IPv4Address "127.0.0.1" = inr (Address V4 2130706433 None)
  /\ get_ip_class "127.0.0.1" <> "N/A".
Proof.
  assert (IPv4Address "127.0.0.1" = inr (Address V4 2130706433 None)) as H
    by (vm_compute; reflexivity).
  split; [exact H |].
  exact (proj2 (proj2 (C10_get_ip_class_total "127.0.0.1")) _ H).
Defined.

Example get_ip_class_examples :
  get_ip_class "10.1.2.3" = "Class A" /\ get_ip_class "0.0.0.0" = "Special/Reserved"
  /\ get_ip_class "127.0.0.1" = "Special/Reserved" /\ get_ip_class "x.1" = "N/A"
  /\ get_ip_class " 10 " = "Class A" /\ get_ip_class "300.1.1.1" = "Special/Reserved".
Proof. vm_compute. repeat split; reflexivity. Qed.

(** ** C9: repeated calls *)

Lemma consistent_empty : Cached.consistent Cached.empty.
Proof. intros f arg made H. destruct f; simpl in H; now rewrite lookup_empty in H. Qed.

Lemma netmask_cache_set_same (f : family) (arg : string + Z)
  (made : IPAddress * Z) (c : Cached.caches) :
  Cached.netmask_cache f (Cached.netmask_cache_set f arg made c) !! arg = Some made.
Proof. destruct f; simpl; apply lookup_insert_eq. Qed.

Lemma netmask_cache_set_other (f f' : family) (arg arg' : string + Z)
  (made made' : IPAddress * Z) (c : Cached.caches) :
  Cached.netmask_cache f' (Cached.netmask_cache_set f arg made c) !! arg' = Some made' ->
  (f' = f /\ arg' = arg /\ made' = made) \/ Cached.netmask_cache f' c !! arg' = Some made'.
Proof.
  destruct f, f'; simpl; intros H; try (now right);
    (destruct (decide (arg = arg')) as [<- | Hne];
     [rewrite lookup_insert_eq in H; inversion H; now left
     |rewrite lookup_insert_ne in H by exact Hne; now right]).
Qed.

(** The cache is invisible: a call of [_make_netmask] returns what the
    body computes, and keeps the caches consistent. *)
Lemma make_netmask_cached (f : family) (arg : string + Z) (c : Cached.caches) :
  Cached.consistent c ->
  fst (Cached.make_netmask f arg c) = _make_netmask f arg
  /\ Cached.consistent (snd (Cached.make_netmask f arg c)).
Proof.
  intros Hc. unfold Cached.make_netmask.
  destruct (Cached.netmask_cache f c !! arg) as [made|] eqn:Hhit.
  - simpl. split; [symmetry; now apply Hc | exact Hc].
  - destruct (_make_netmask f arg) as [e|made] eqn:Hbody.
    + simpl. split; [reflexivity | exact Hc].
    + rewrite netmask_cache_set_same.
      simpl. split; [reflexivity |].
      intros f' arg' made' Hl.
      apply netmask_cache_set_other in Hl as [(-> & -> & ->) | Hl];
        [exact Hbody | now apply Hc].
Qed.

Lemma IPNetwork_new_cached (f : family) (s : string) (strict : bool)
  (c : Cached.caches) :
  Cached.consistent c ->
  fst (Cached.IPNetwork_new f s strict c) = IPNetwork_new f s strict
  /\ Cached.consistent (snd (Cached.IPNetwork_new f s strict c)).
Proof.
  intros Hc. unfold Cached.IPNetwork_new, IPNetwork_new.
  destruct (_split_addr_prefix f s) as [e|[addr m]]; [simpl; auto |].
  cbn [bind]. destruct (address_of_str f addr) as [e|a]; [simpl; auto |].
  cbn [bind ret].
  destruct (make_netmask_cached f m c Hc) as [Hfst Hsnd].
  destruct (Cached.make_netmask f m c) as [r c']. simpl in *. subst r. auto.
Qed.

Lemma ip_network_cached (s : string) (strict : bool) (c : Cached.caches) :
  Cached.consistent c ->
  fst (Cached.ip_network s strict c) = ip_network s strict
  /\ Cached.consistent (snd (Cached.ip_network s strict c)).
Proof.
  intros Hc. unfold Cached.ip_network, ip_network, IPv4Network, IPv6Network.
  destruct (IPNetwork_new_cached V4 s strict c Hc) as [H4 Hc4].
  destruct (Cached.IPNetwork_new V4 s strict c) as [r4 c4]. simpl in H4, Hc4. subst r4.
  destruct (IPNetwork_new V4 s strict) as [e4|net4]; [|simpl; auto].
  destruct (is_address_or_netmask_error e4); [|simpl; auto].
  destruct (IPNetwork_new_cached V6 s strict c4 Hc4) as [H6 Hc6].
  destruct (Cached.IPNetwork_new V6 s strict c4) as [r6 c6]. simpl in H6, Hc6. subst r6.
  destruct (IPNetwork_new V6 s strict) as [e6|net6]; [|simpl; auto].
  destruct (is_address_or_netmask_error e6); simpl; auto.
Qed.

Lemma calculate_cached (s : string) (c : Cached.caches) :
  Cached.consistent c ->
  fst (Cached.calculate_subnet_details s c) = calculate_subnet_details s
  /\ Cached.consistent (snd (Cached.calculate_subnet_details s c)).
Proof.
  intros Hc. unfold Cached.calculate_subnet_details, calculate_subnet_details.
  destruct (ip_network_cached s false c Hc) as [Hr Hc'].
  destruct (Cached.ip_network s false c) as [r c']. simpl in *. subst r. auto.
Qed.

(** C9: from any state of the netmask caches that earlier calls can
    have left, two calls with the same input, also with other calls in
    between, return the same result, field for field. *)
Theorem C9_calculate_deterministic (s : string) (c : Cached.caches) :
  Cached.consistent c ->
  let first := Cached.calculate_subnet_details s c in
  let second := Cached.calculate_subnet_details s (snd first) in
  fst second = fst first
  /\ Cached.consistent (snd second)
  /\ forall c', Cached.consistent c' ->
                fst (Cached.calculate_subnet_details s c') = fst first.
Proof.
  intros Hc first second.
  destruct (calculate_cached s c Hc) as [H1 Hc1].
  destruct (calculate_cached s (snd first) Hc1) as [H2 Hc2].
  split; [subst first second; congruence |]. split; [exact Hc2 |].
  intros c' Hc'. destruct (calculate_cached s c' Hc') as [H3 _].
  subst first. congruence.
Qed.

Lemma C9_calculate_deterministic_witness :
  Cached.consistent Cached.empty
  /\ fst (Cached.calculate_subnet_details "10.1.2.3/20"
            (snd (Cached.calculate_subnet_details "10.1.2.3/20" Cached.empty)))
     = fst (Cached.calculate_subnet_details "10.1.2.3/20" Cached.empty).
Proof.
  split; [exact consistent_empty |].
  exact (proj1 (C9_calculate_deterministic "10.1.2.3/20" Cached.empty consistent_empty)).
Defined.

(** The second call finds the netmask in the cache. *)
Example second_call_hits_cache :
  Cached.netmask_cache_v4
    (snd (Cached.calculate_subnet_details "10.1.2.3/20" Cached.empty)) !! inl "20"
  = Some (Address V4 4294963200 None, 20).
Proof. vm_compute. reflexivity. Qed.


(** ** Reference runs *)

(** The two cases the specification works out in full. *)
Example standard_ipv4_case :
  calculate_subnet_details "192.168.50.1/24"
  = inr [("Input IP/CIDR", VStr "192.168.50.1/24");
         ("IP Version", VStr "IPv4");
         ("Network ID", VStr "192.168.50.0");
         ("Historical Class", VStr "Class C");
         ("CIDR Prefix", VStr "/24");
         ("Subnet Mask", VStr "255.255.255.0");
         ("Host Bits (h)", VInt 8);
         ("Subnet Bits (s)", VInt 24);
         ("Total IP Addresses", VInt 256);
         ("Usable Host Count", VInt 254);
         ("Broadcast Address", VStr "192.168.50.255");
         ("Usable Host Range", VStr "192.168.50.1 - 192.168.50.254")].
Proof. vm_compute. reflexivity. Qed.

Example standard_ipv6_case :
  calculate_subnet_details "2001:db8::1/64"
  = inr [("Input IP/CIDR", VStr "2001:db8::1/64");
         ("IP Version", VStr "IPv6");
         ("Network ID", VStr "2001:db8::");
         ("CIDR Prefix", VStr "/64");
         ("Subnet Mask Concept", VStr "Not Applicable (N/A)");
         ("Host Bits", VInt 64);
         ("Total IP Addresses", VStr "2^64 (Standard /64 Subnet)");
         ("Usable Host Count", VStr "Effectively infinite");
         ("Broadcast Address Concept", VStr "Not Applicable (Uses Multicast)");
         ("Host Range Concept", VStr "The entire address space after the prefix.")].
Proof. vm_compute. reflexivity. Qed.

(** Netmasks and hostmasks in dotted-quad form, scope identifiers,
    embedded IPv4 tails and the choice of the run that [::] replaces. *)
Example network_id_runs :
  map (fun s => option_map network_id (match ip_network s false with
                                       | inr net => Some net
                                       | inl _ => None
                                       end))
      ["10.0.0.1/255.255.255.0"; "10.0.0.1/0.0.0.255"; "10.0.0.1/0.0.255.0";
       "10.0.0.1/031"; "010.0.0.1/8"; "10.0.0.1/+24"; "1.2.3.4/ 24";
       "fe80::1%eth0/64"; "fe80::%eth0/64"; "::ffff:1.2.3.4/128";
       "0:0:1:0:0:0:1:0"; "1::2:0:0:3/128"; "::/0"; EmptyString]
  = [Some "10.0.0.0"; Some "10.0.0.0"; None;
     Some "10.0.0.0"; None; None; None;
     Some "fe80::"; Some "fe80::%eth0"; Some "::ffff:102:304";
     Some "0:0:1::1:0"; Some "1::2:0:0:3"; Some "::"; None].
Proof. vm_compute. reflexivity. Qed.

Example repr_runs :
  Py.repr "it's" = String Py.dquote "it's" +:+ Py.str1 Py.dquote
  /\ Py.repr "a\b" = "'a\\b'"
  /\ Py.repr (String "010" "x") = "'\nx'"
  /\ Py.repr (String "127" (String "161" (String "173" EmptyString)))
     = "'\x7f" +:+ String "161" "\xad'".
Proof. vm_compute. repeat split; reflexivity. Qed.

Example int_runs :
  map Py.int ["5 "; "1_0"; "_1"; "1_"; "-3"; "+5"; EmptyString; "1__0"]
  = [Some 5; Some 10; None; None; Some (-3); Some 5; None; None]
  /\ map (Py.int_base 16) ["0x1f"; "0x_1f"; "1F"; "_1"; "0X1"]
     = [Some 31; Some 31; Some 31; None; Some 1].
Proof. vm_compute. split; reflexivity. Qed.


(** * Further properties of the engine *)

(** ** The IPv4 block *)

(** X1: for every valid IPv4 input the Host Bits field is 32 minus the
    prefix length and Total IP Addresses is two to that power; below /31
    the Usable Host Count is the total minus two, which is at least
    two. *)
Theorem X1_ipv4_counts (s : string) (net : IPNetwork) :
  ip_network s false = inr net -> net_family net = V4 ->
  let p := prefixlen net in
  exists d,
    calculate_subnet_details s = inr d
    /\ 0 <= 32 - p <= 32
    /\ od_get "Host Bits (h)" d = Some (VInt (32 - p))
    /\ od_get "Total IP Addresses" d = Some (VInt (2 ^ (32 - p)))
    /\ (p <= 30 ->
        od_get "Usable Host Count" d = Some (VInt (2 ^ (32 - p) - 2))
        /\ 2 <= 2 ^ (32 - p) - 2).
Proof.
  intros Hnet Hf p. pose proof (ip_network_wf s net Hnet) as Hwf.
  pose proof Hwf as [_ Hp _ _]. rewrite Hf in Hp. simpl in Hp. fold p in Hp.
  exists (report s net). split; [now apply calculate_valid |].
  split; [lia |]. unfold report, ipv4_report. rewrite Hf. fold p.
  split; [reflexivity |]. split; [reflexivity |].
  intros Hp30.
  destruct (Z.eqb_spec p 31); [lia |]. destruct (Z.eqb_spec p 32); [lia |].
  split; [reflexivity |].
  assert (2 ^ 2 <= 2 ^ (32 - p)) by (apply Z.pow_le_mono_r; lia). lia.
Qed.

Lemma X1_ipv4_counts_witness :
  ip_network "172.16.5.9/20" false
  = inr (Network V4 (Address V4 2886729728 None) (Address V4 4294963200 None) 20)
  /\ exists d,
      calculate_subnet_details "172.16.5.9/20" = inr d
      /\ 0 <= 32 - 20 <= 32
      /\ od_get "Host Bits (h)" d = Some (VInt (32 - 20))
      /\ od_get "Total IP Addresses" d = Some (VInt (2 ^ (32 - 20)))
      /\ (20 <= 30 ->
          od_get "Usable Host Count" d = Some (VInt (2 ^ (32 - 20) - 2))
          /\ 2 <= 2 ^ (32 - 20) - 2).
Proof.
  split; [vm_compute; reflexivity |].
  apply (X1_ipv4_counts "172.16.5.9/20"
           (Network V4 (Address V4 2886729728 None) (Address V4 4294963200 None) 20));
    [vm_compute; reflexivity | reflexivity].
Defined.

(** X2: for every valid IPv4 input with a prefix length of at most 30
    the Broadcast Address is the network address with all host bits set,
    and the Usable Host Range runs from the address after the network
    address to the address before the broadcast address; the range is
    never ["None"], it lies inside the 32-bit space, and it holds as
    many addresses as the Usable Host Count says. *)
Theorem X2_ipv4_host_range (s : string) (net : IPNetwork) :
  ip_network s false = inr net -> net_family net = V4 -> prefixlen net <= 30 ->
  let n := ip_int (network_address net) in
  let b := Z.lor n (Z.ones (32 - prefixlen net)) in
  exists d,
    calculate_subnet_details s = inr d
    /\ b = n + 2 ^ (32 - prefixlen net) - 1
    /\ 0 <= n /\ n + 1 <= b - 1 /\ b <= 4294967295
    /\ od_get "Broadcast Address" d = Some (VStr (dotted_quad b))
    /\ od_get "Usable Host Range" d
       = Some (VStr (dotted_quad (n + 1) +:+ " - " +:+ dotted_quad (b - 1)))
    /\ od_get "Usable Host Count" d = Some (VInt ((b - 1) - (n + 1) + 1)).
Proof.
  intros Hnet Hf Hp30 n b. pose proof (ip_network_wf s net Hnet) as Hwf.
  pose proof Hwf as [_ Hp _ Hm]. rewrite Hf in Hp, Hm. simpl in Hp.
  pose proof (masked_broadcast V4 _ _ Hp Hm) as Hb. simpl max_prefixlen in Hb.
  fold n b in Hb.
  pose proof (masked_broadcast_range V4 _ _ Hp Hm) as Hbr.
  simpl max_prefixlen in Hbr. fold n in Hbr. rewrite <- Hb in Hbr.
  pose proof (masked_range V4 _ _ Hp Hm) as Hn. fold n in Hn.
  assert (2 ^ 2 <= 2 ^ (32 - prefixlen net)) by (apply Z.pow_le_mono_r; lia).
  exists (report s net). split; [now apply calculate_valid |].
  split; [exact Hb |]. split; [lia |]. split; [lia |].
  split; [unfold ALL_ONES in Hbr; simpl in Hbr; lia |].
  unfold report, ipv4_report. rewrite Hf. fold n.
  destruct (Z.eqb_spec (prefixlen net) 31); [lia |].
  destruct (Z.eqb_spec (prefixlen net) 32); [lia |].
  rewrite Hb.
  replace (n + 2 ^ (32 - prefixlen net) - 1 - 1) with (n + 2 ^ (32 - prefixlen net) - 2)
    by lia.
  split; [reflexivity |]. split; [reflexivity |].
  cbn [od_get String.eqb Ascii.eqb Bool.eqb].
  do 2 f_equal. lia.
Qed.

Lemma X2_ipv4_host_range_witness :
  ip_network "172.16.5.9/20" false
  = inr (Network V4 (Address V4 2886729728 None) (Address V4 4294963200 None) 20)
  /\ exists d,
      calculate_subnet_details "172.16.5.9/20" = inr d
      /\ Z.lor 2886729728 (Z.ones (32 - 20)) = 2886729728 + 2 ^ (32 - 20) - 1
      /\ 0 <= 2886729728
      /\ 2886729728 + 1 <= Z.lor 2886729728 (Z.ones (32 - 20)) - 1
      /\ Z.lor 2886729728 (Z.ones (32 - 20)) <= 4294967295
      /\ od_get "Broadcast Address" d
         = Some (VStr (dotted_quad (Z.lor 2886729728 (Z.ones (32 - 20)))))
      /\ od_get "Usable Host Range" d
         = Some (VStr (dotted_quad (2886729728 + 1) +:+ " - "
                       +:+ dotted_quad (Z.lor 2886729728 (Z.ones (32 - 20)) - 1)))
      /\ od_get "Usable Host Count" d
         = Some (VInt ((Z.lor 2886729728 (Z.ones (32 - 20)) - 1) - (2886729728 + 1) + 1)).
Proof.
  split; [vm_compute; reflexivity |].
  apply (X2_ipv4_host_range "172.16.5.9/20"
           (Network V4 (Address V4 2886729728 None) (Address V4 4294963200 None) 20));
    [vm_compute; reflexivity | reflexivity | vm_compute; discriminate].
Defined.

(** X3: for every valid IPv4 input the Subnet Mask field is the dotted
    quad of [mask(p, 32)], and the Subnet Bits field is the prefix
    length up to /24, the prefix length minus 24 from /25 to /31, and 0
    for /32. *)
Theorem X3_subnet_mask_and_bits (s : string) (net : IPNetwork) :
  ip_network s false = inr net -> net_family net = V4 ->
  let p := prefixlen net in
  exists d bits,
    calculate_subnet_details s = inr d
    /\ od_get "Subnet Mask" d = Some (VStr (dotted_quad (mask p 32)))
    /\ od_get "Subnet Bits (s)" d = Some (VInt bits)
    /\ (p <= 24 -> bits = p)
    /\ (25 <= p <= 31 -> bits = p - 24)
    /\ (p = 32 -> bits = 0).
Proof.
  intros Hnet Hf p. pose proof (ip_network_wf s net Hnet) as Hwf.
  pose proof Hwf as [_ Hp _ _]. rewrite Hf in Hp. simpl in Hp. fold p in Hp.
  exists (report s net), (if 24 <? p then p mod 8 else p).
  split; [now apply calculate_valid |].
  unfold report, ipv4_report. rewrite Hf. fold p.
  rewrite (netmask_is_mask V4 p Hp). simpl max_prefixlen.
  split; [reflexivity |]. split; [reflexivity |].
  destruct (Z.ltb_spec 24 p); repeat split; intros; try lia.
  - symmetry. apply (Z.mod_unique_pos p 8 3 (p - 24)); lia.
  - symmetry. apply (Z.mod_unique_pos p 8 4 0); lia.
Qed.

Lemma X3_subnet_mask_and_bits_witness :
  ip_network "10.9.8.7/32" false
  = inr (Network V4 (Address V4 168364039 None) (Address V4 4294967295 None) 32)
  /\ exists d bits,
      calculate_subnet_details "10.9.8.7/32" = inr d
      /\ od_get "Subnet Mask" d = Some (VStr (dotted_quad (mask 32 32)))
      /\ od_get "Subnet Bits (s)" d = Some (VInt bits)
      /\ (32 <= 24 -> bits = 32)
      /\ (25 <= 32 <= 31 -> bits = 32 - 24)
      /\ (32 = 32 -> bits = 0).
Proof.
  split; [vm_compute; reflexivity |].
  apply (X3_subnet_mask_and_bits "10.9.8.7/32"
           (Network V4 (Address V4 168364039 None) (Address V4 4294967295 None) 32));
    [vm_compute; reflexivity | reflexivity].
Defined.

(** ** Text put together and taken apart *)

Lemma contains_append (c : ascii) (a b : string) :
  Py.contains c (a +:+ b) = Py.contains c a || Py.contains c b.
Proof.
  induction a as [|x a IH]; [reflexivity |].
  rewrite append_cons. simpl. destruct (Ascii.eqb x c); [reflexivity | exact IH].
Qed.

Lemma split_cons_sep (sep : ascii) (a b : string) :
  Py.contains sep a = false ->
  Py.split sep (a +:+ String sep b) = a :: Py.split sep b.
Proof.
  induction a as [|c a IH]; [rewrite append_nil | rewrite append_cons]; simpl.
  - intros _. now rewrite Ascii.eqb_refl.
  - destruct (Ascii.eqb c sep); [discriminate |].
    intros H. now rewrite (IH H).
Qed.

Lemma split_length_append (sep : ascii) (a b : string) :
  length (Py.split sep (a +:+ String sep b))
  = (length (Py.split sep a) + length (Py.split sep b))%nat.
Proof.
  induction a as [|c a IH]; [rewrite append_nil | rewrite append_cons]; simpl.
  - now rewrite Ascii.eqb_refl.
  - destruct (Ascii.eqb c sep); [simpl; now rewrite IH |].
    destruct (Py.split sep (a +:+ String sep b)) as [|p ps] eqn:E1;
      [now apply split_nonempty in E1 |].
    destruct (Py.split sep a) as [|q qs] eqn:E2; [now apply split_nonempty in E2 |].
    simpl in *. exact IH.
Qed.

Lemma split_addr_prefix_slash (f : family) (addr m : string) :
  Py.contains "/" addr = false -> Py.contains "/" m = false ->
  _split_addr_prefix f (addr +:+ "/" +:+ m) = inr (addr, inl m).
Proof.
  intros Ha Hm. unfold _split_addr_prefix, _split_optional_netmask.
  rewrite (append_cons "/" EmptyString), append_nil.
  rewrite (split_cons_sep "/" addr m Ha), (split_no_sep "/" m Hm). reflexivity.
Qed.

(** *** Dotted quads read back *)

Lemma octet_parse_facts :
  forallb (fun k =>
             let o := Z.of_nat k in
             negb (Py.contains "/" (Py.str_of_int o))
             && negb (String.eqb (Py.str_of_int o) EmptyString)
             && match _parse_octet (Py.str_of_int o) with
                | inr v => v =? o
                | inl _ => false
                end)
          (seq 0 256) = true.
Proof. vm_compute. reflexivity. Qed.

Lemma octet_parse (o : Z) :
  0 <= o < 256 ->
  Py.contains "/" (Py.str_of_int o) = false
  /\ Py.str_of_int o <> EmptyString
  /\ _parse_octet (Py.str_of_int o) = inr o.
Proof.
  intros Ho. pose proof octet_parse_facts as H.
  rewrite forallb_forall in H. specialize (H (Z.to_nat o)).
  rewrite Z2Nat.id in H by lia. simpl in H.
  assert (In (Z.to_nat o) (seq 0 256)) as Hin by (apply in_seq; lia).
  apply H in Hin. apply andb_true_iff in Hin as [H12 H3].
  apply andb_true_iff in H12 as [H1 H2].
  split; [now apply negb_true_iff |].
  split; [apply negb_true_iff in H2; now apply String.eqb_neq |].
  destruct (_parse_octet (Py.str_of_int o)) as [e|v]; [discriminate |].
  apply Z.eqb_eq in H3. now subst.
Qed.

Lemma bytes_recompose (n : Z) :
  0 <= n <= ALL_ONES V4 ->
  from_bytes (map (fun i => Z.land (Z.shiftr n (8 * Z.of_nat i)) 255) [3; 2; 1; 0]%nat) = n.
Proof.
  intros Hn. unfold ALL_ONES in Hn. simpl in Hn.
  unfold from_bytes. cbn [map fold_left].
  change 255 with (Z.ones 8). rewrite !Z.land_ones by lia.
  rewrite !Z.shiftr_div_pow2 by lia.
  change (2 ^ (8 * Z.of_nat 3)) with 16777216.
  change (2 ^ (8 * Z.of_nat 2)) with 65536.
  change (2 ^ (8 * Z.of_nat 1)) with 256.
  change (2 ^ (8 * Z.of_nat 0)) with 1.
  change (2 ^ 8) with 256.
  Z.div_mod_to_equations. lia.
Qed.

Lemma dotted_quad_split (n : Z) :
  Py.split "." (dotted_quad n)
  = map (fun i => Py.str_of_int (Z.land (Z.shiftr n (8 * Z.of_nat i)) 255))
        [3; 2; 1; 0]%nat.
Proof.
  unfold dotted_quad. cbn [map Py.join].
  rewrite !(append_cons "." EmptyString), !append_nil.
  rewrite !split_cons_sep by (apply octet_text, byte_range).
  rewrite split_no_sep by (apply octet_text, byte_range). reflexivity.
Qed.

Lemma dotted_quad_no_slash (n : Z) : Py.contains "/" (dotted_quad n) = false.
Proof.
  unfold dotted_quad. cbn [map Py.join].
  rewrite !contains_append.
  rewrite !(proj1 (octet_parse _ (byte_range _))). reflexivity.
Qed.

Lemma dotted_quad_not_empty (n : Z) : String.eqb (dotted_quad n) EmptyString = false.
Proof.
  apply String.eqb_neq. unfold dotted_quad. cbn [map Py.join].
  destruct (octet_parse _ (byte_range (Z.shiftr n (8 * Z.of_nat 3)))) as (_ & Hne & _).
  destruct (Py.str_of_int _) as [|c r]; [congruence |].
  rewrite append_cons. discriminate.
Qed.

(** [IPv4Address] reads the text of an address back as the address. *)
Lemma IPv4Address_dotted_quad (n : Z) :
  0 <= n <= ALL_ONES V4 -> IPv4Address (dotted_quad n) = inr (Address V4 n None).
Proof.
  intros Hn. unfold IPv4Address, _ip_int_from_string_v4.
  rewrite dotted_quad_no_slash, dotted_quad_not_empty, dotted_quad_split.
  cbn [map length Z.of_nat Z.eqb negb Pos.of_succ_nat Pos.succ Pos.eqb mapM bind ret].
  rewrite !(proj2 (proj2 (octet_parse _ (byte_range _)))).
  cbn [bind ret catch].
  pose proof (bytes_recompose n Hn) as Hb. cbn [map] in Hb. rewrite Hb. reflexivity.
Qed.

(** *** The three ways to write a prefix *)

Lemma prefix_texts (p : Z) :
  0 <= p <= 32 ->
  let made := inr (Address V4 (_ip_int_from_prefix V4 p) None, p) in
  Py.contains "/" (Py.str_of_int p) = false
  /\ _make_netmask V4 (inl (Py.str_of_int p)) = made
  /\ _make_netmask V4 (inl (dotted_quad (mask p 32))) = made
  /\ (1 <= p <= 31 -> _make_netmask V4 (inl (dotted_quad (2 ^ (32 - p) - 1))) = made).
Proof.
  intros Hp.
  assert (forall k : nat, (k <= 32)%nat ->
            let p := Z.of_nat k in
            let made := inr (Address V4 (_ip_int_from_prefix V4 p) None, p) in
            Py.contains "/" (Py.str_of_int p) = false
            /\ _make_netmask V4 (inl (Py.str_of_int p)) = made
            /\ _make_netmask V4 (inl (dotted_quad (mask p 32))) = made
            /\ (1 <= p <= 31 ->
                _make_netmask V4 (inl (dotted_quad (2 ^ (32 - p) - 1))) = made)) as H.
  { intros k Hk.
    do 33 (destruct k as [|k];
           [vm_compute; repeat split; try reflexivity;
            intros [H1 H2]; try reflexivity;
            try (exfalso; apply H1; reflexivity); exfalso; apply H2; reflexivity |]).
    lia. }
  specialize (H (Z.to_nat p) ltac:(lia)). rewrite Z2Nat.id in H by lia. exact H.
Qed.

Lemma report_tail (s1 s2 : string) (net : IPNetwork) :
  tl (report s1 net) = tl (report s2 net)
  /\ hd_error (report s1 net) = Some ("Input IP/CIDR", VStr s1).
Proof. unfold report. destruct (net_family net); split; reflexivity. Qed.

(** Two inputs with the same address text and netmask texts of the same
    meaning build the same network. *)
Lemma IPNetwork_new_same_mask (f : family) (s1 s2 addr : string) (m1 m2 : string + Z) :
  _split_addr_prefix f s1 = inr (addr, m1) ->
  _split_addr_prefix f s2 = inr (addr, m2) ->
  _make_netmask f m1 = _make_netmask f m2 ->
  IPNetwork_new f s1 false = IPNetwork_new f s2 false.
Proof.
  intros H1 H2 Hm. unfold IPNetwork_new. rewrite H1, H2. cbn [bind].
  destruct (address_of_str f addr); [reflexivity |]. cbn [bind]. now rewrite Hm.
Qed.

Lemma v4_network_of_texts (addr m : string) (a : IPAddress) (p : Z) :
  IPv4Address addr = inr a -> Py.contains "/" m = false ->
  _make_netmask V4 (inl m) = inr (Address V4 (_ip_int_from_prefix V4 p) None, p) ->
  exists net,
    ip_network (addr +:+ "/" +:+ m) false = inr net
    /\ wf_network net /\ net_family net = V4 /\ prefixlen net = p
    /\ ip_int (network_address net) = Z.land (ip_int a) (_ip_int_from_prefix V4 p)
    /\ IPNetwork_new V4 (addr +:+ "/" +:+ m) false = inr net.
Proof.
  intros Ha Hm Hmade.
  pose proof (IPv4Address_returns addr) as Hr. rewrite Ha in Hr. simpl in Hr.
  destruct Hr as (_ & _ & _ & Hslash & _).
  destruct (IPNetwork_new_ok V4 _ addr (inl m) a _ p
              (split_addr_prefix_slash V4 addr m Hslash Hm) Ha Hmade)
    as (net & Hnew & Hwf & Hf & Hp & Hip & _).
  exists net. split; [now apply ip_network_of_v4 |].
  split; [exact Hwf |]. split; [exact Hf |]. split; [exact Hp |].
  split; [exact Hip | exact Hnew].
Qed.

(** X4: an IPv4 prefix can be written as a length, as a netmask or, from
    /1 to /31, as a hostmask; the three inputs give the same fields
    apart from the echoed input. *)
Theorem X4_netmask_forms (addr : string) (a : IPAddress) (p : Z) :
  IPv4Address addr = inr a -> 0 <= p <= 32 ->
  let by_length := addr +:+ "/" +:+ Py.str_of_int p in
  let by_netmask := addr +:+ "/" +:+ dotted_quad (mask p 32) in
  let by_hostmask := addr +:+ "/" +:+ dotted_quad (2 ^ (32 - p) - 1) in
  exists d1 d2,
    calculate_subnet_details by_length = inr d1
    /\ calculate_subnet_details by_netmask = inr d2
    /\ od_get "CIDR Prefix" d1 = Some (VStr ("/" +:+ Py.str_of_int p))
    /\ tl d2 = tl d1
    /\ (1 <= p <= 31 ->
        exists d3, calculate_subnet_details by_hostmask = inr d3 /\ tl d3 = tl d1).
Proof.
  intros Ha Hp by_length by_netmask by_hostmask.
  destruct (prefix_texts p Hp) as (Hs1 & Hm1 & Hm2 & Hm3).
  destruct (v4_network_of_texts addr _ a p Ha Hs1 Hm1)
    as (net & Hnet & Hwf & Hf & Hpl & _ & Hnew).
  pose proof (IPv4Address_returns addr) as Hr. rewrite Ha in Hr. simpl in Hr.
  destruct Hr as (_ & _ & _ & Hslash & _).
  assert (forall m, Py.contains "/" m = false ->
                    _make_netmask V4 (inl m)
                    = inr (Address V4 (_ip_int_from_prefix V4 p) None, p) ->
                    ip_network (addr +:+ "/" +:+ m) false = inr net) as Hsame.
  { intros m Hm Hmade. apply ip_network_of_v4. unfold IPv4Network.
    rewrite <- Hnew. apply (IPNetwork_new_same_mask V4 _ _ addr (inl m) (inl (Py.str_of_int p))).
    - now apply split_addr_prefix_slash.
    - now apply split_addr_prefix_slash.
    - now rewrite Hmade, Hm1. }
  exists (report by_length net), (report by_netmask net).
  split; [now apply calculate_valid |].
  split; [apply calculate_valid; [apply Hsame; [apply dotted_quad_no_slash | exact Hm2]
                                 | exact Hwf] |].
  split; [unfold report; rewrite Hf, Hpl; reflexivity |].
  split; [apply report_tail |].
  intros Hp31. exists (report by_hostmask net).
  split; [|apply report_tail].
  apply calculate_valid; [|exact Hwf].
  apply Hsame; [apply dotted_quad_no_slash | now apply Hm3].
Qed.

Lemma X4_netmask_forms_witness :
  IPv4Address "10.20.30.40" = inr (Address V4 169090600 None)
  /\ 0 <= 20 <= 32
  /\ exists d1 d2,
      calculate_subnet_details ("10.20.30.40" +:+ "/" +:+ Py.str_of_int 20) = inr d1
      /\ calculate_subnet_details ("10.20.30.40" +:+ "/" +:+ dotted_quad (mask 20 32))
         = inr d2
      /\ od_get "CIDR Prefix" d1 = Some (VStr ("/" +:+ Py.str_of_int 20))
      /\ tl d2 = tl d1
      /\ (1 <= 20 <= 31 ->
          exists d3,
            calculate_subnet_details
              ("10.20.30.40" +:+ "/" +:+ dotted_quad (2 ^ (32 - 20) - 1)) = inr d3
            /\ tl d3 = tl d1).
Proof.
  split; [vm_compute; reflexivity |]. split; [lia |].
  apply (X4_netmask_forms "10.20.30.40" (Address V4 169090600 None) 20);
    [vm_compute; reflexivity | lia].
Defined.

(** X5: the Network ID and the CIDR Prefix of an IPv4 result, joined by
    a slash, are themselves a valid input, and calculating from them
    gives the same fields again apart from the echoed input. *)
Theorem X5_ipv4_result_is_fixed_point (s : string) (net : IPNetwork) :
  ip_network s false = inr net -> net_family net = V4 ->
  exists d id prefix d',
    calculate_subnet_details s = inr d
    /\ od_get "Network ID" d = Some (VStr id)
    /\ od_get "CIDR Prefix" d = Some (VStr (String "/" prefix))
    /\ calculate_subnet_details (id +:+ "/" +:+ prefix) = inr d'
    /\ tl d' = tl d.
Proof.
  intros Hnet Hf. pose proof (ip_network_wf s net Hnet) as Hwf.
  pose proof Hwf as [_ Hp _ Hm]. rewrite Hf in Hp, Hm. simpl in Hp.
  pose proof (masked_range V4 _ _ Hp Hm) as Hn.
  set (n := ip_int (network_address net)) in *.
  set (p := prefixlen net) in *.
  destruct (prefix_texts p Hp) as (Hs1 & Hm1 & _).
  destruct (v4_network_of_texts (dotted_quad n) (Py.str_of_int p) (Address V4 n None) p
              (IPv4Address_dotted_quad n Hn) Hs1 Hm1)
    as (net' & Hnet' & Hwf' & Hf' & Hp' & Hip' & _).
  cbn [ip_int] in Hip'. rewrite Hm in Hip'.
  exists (report s net), (dotted_quad n), (Py.str_of_int p),
    (report (dotted_quad n +:+ "/" +:+ Py.str_of_int p) net').
  split; [now apply calculate_valid |].
  split; [unfold report; rewrite Hf; reflexivity |].
  split; [unfold report; rewrite Hf; reflexivity |].
  split; [now apply calculate_valid |].
  unfold report. rewrite Hf, Hf', Hp', Hip'. reflexivity.
Qed.

Lemma X5_ipv4_result_is_fixed_point_witness :
  ip_network "172.16.5.9/20" false
  = inr (Network V4 (Address V4 2886729728 None) (Address V4 4294963200 None) 20)
  /\ exists d id prefix d',
      calculate_subnet_details "172.16.5.9/20" = inr d
      /\ od_get "Network ID" d = Some (VStr id)
      /\ od_get "CIDR Prefix" d = Some (VStr (String "/" prefix))
      /\ calculate_subnet_details (id +:+ "/" +:+ prefix) = inr d'
      /\ tl d' = tl d.
Proof.
  split; [vm_compute; reflexivity |].
  apply (X5_ipv4_result_is_fixed_point "172.16.5.9/20"
           (Network V4 (Address V4 2886729728 None) (Address V4 4294963200 None) 20));
    [vm_compute; reflexivity | reflexivity].
Defined.

(** X6: an input with two or more slashes is rejected, whatever stands
    between them. *)
Theorem X6_two_slashes_rejected (a b c : string) :
  let s := a +:+ "/" +:+ b +:+ "/" +:+ c in
  calculate_subnet_details s = inr (error_result s)
  /\ od_keys (error_result s) = ["Error"].
Proof.
  intros s. split; [|reflexivity].
  apply calculate_invalid.
  assert (forall f, exists e,
             IPNetwork_new f s false = inl e
             /\ is_address_or_netmask_error e = true) as Hfail.
  { intros f. unfold IPNetwork_new, _split_addr_prefix, _split_optional_netmask.
    assert (2 < Z.of_nat (length (Py.split "/" s))) as Hlen.
    { subst s. rewrite !(append_cons "/" EmptyString), !append_nil.
      rewrite !split_length_append.
      pose proof (split_nonempty "/" a). pose proof (split_nonempty "/" b).
      pose proof (split_nonempty "/" c).
      destruct (Py.split "/" a), (Py.split "/" b), (Py.split "/" c);
        try congruence; simpl; lia. }
    destruct (Z.ltb_spec 2 (Z.of_nat (length (Py.split "/" s)))); [|lia].
    eexists. split; reflexivity. }
  unfold ip_network, IPv4Network, IPv6Network.
  destruct (Hfail V4) as (e4 & -> & ->). destruct (Hfail V6) as (e6 & -> & ->).
  reflexivity.
Qed.

(** ** The address family *)

Lemma contains_of_parts (c sep : ascii) (s : string) :
  Ascii.eqb sep c = false ->
  Forall (fun p => Py.contains c p = false) (Py.split sep s) ->
  Py.contains c s = false.
Proof.
  intros Hsep. induction s as [|x s IH]; simpl; [reflexivity |].
  destruct (Ascii.eqb x sep) eqn:Ex.
  - apply Ascii.eqb_eq in Ex. subst x. rewrite Hsep.
    intros H. inversion H; subst. now apply IH.
  - destruct (Py.split sep s) as [|p ps] eqn:Es; [now apply split_nonempty in Es |].
    intros H. inversion H as [|? ? Hp Hps]; subst. simpl in Hp.
    destruct (Ascii.eqb x c); [discriminate |].
    apply IH. now constructor.
Qed.

Lemma contains_hd_split (c sep : ascii) (s : string) :
  Py.contains c (hd EmptyString (Py.split sep s)) = true -> Py.contains c s = true.
Proof.
  induction s as [|x s IH]; simpl; [discriminate |].
  destruct (Ascii.eqb x sep); simpl; [discriminate |].
  destruct (Py.split sep s) as [|p ps] eqn:Es; [now apply split_nonempty in Es |].
  simpl in *. destruct (Ascii.eqb x c); [reflexivity | exact IH].
Qed.

Lemma contains_partition (c sep : ascii) (s : string) :
  Py.contains c (fst (fst (Py.partition sep s))) = true -> Py.contains c s = true.
Proof.
  induction s as [|x s IH]; simpl; [discriminate |].
  destruct (Ascii.eqb x sep); simpl; [discriminate |].
  destruct (Py.partition sep s) as [[a found] b]. simpl in *.
  destruct (Ascii.eqb x c); [reflexivity | exact IH].
Qed.

Lemma plain_digit_no_colon (base : Z) (s : string) :
  Py.all_chars (fun c => Py.is_ascii_char c && Py.is_digit_char c) s = true ->
  Py.contains ":" s = false.
Proof.
  induction s as [|c s IH]; simpl; [reflexivity |].
  intros [Hc Hs]%andb_true_iff.
  assert (Ascii.eqb c ":" = false) as -> by (revert Hc; each_char c).
  now apply IH.
Qed.

Lemma ascii_digits_chars (s : string) :
  Py.isascii s && Py.isdigit s = true ->
  Py.all_chars (fun c => Py.is_ascii_char c && Py.is_digit_char c) s = true.
Proof.
  intros [Ha Hd]%andb_true_iff. unfold Py.isascii in Ha. unfold Py.isdigit in Hd.
  destruct s as [|c0 s0]; [discriminate |].
  revert Ha Hd. generalize (String c0 s0). clear.
  induction s as [|c s IH]; simpl; [reflexivity |].
  intros [H1 H2]%andb_true_iff [H3 H4]%andb_true_iff.
  rewrite H1, H3. now apply IH.
Qed.

Lemma parse_octet_no_colon (s : string) (v : Z) :
  _parse_octet s = inr v -> Py.contains ":" s = false.
Proof.
  unfold _parse_octet. intros H.
  destruct (String.eqb s EmptyString); [discriminate |].
  destruct (Py.isascii s && Py.isdigit s) eqn:Hd; [|discriminate].
  apply (plain_digit_no_colon 10), ascii_digits_chars, Hd.
Qed.

Lemma mapM_inv {A B : Type} (f : A -> result B) (l : list A) (bs : list B) :
  mapM f l = inr bs -> Forall (fun a => exists b, f a = inr b) l.
Proof.
  revert bs. induction l as [|a l IH]; intros bs H; [constructor |].
  simpl in H. destruct (f a) as [e|b] eqn:Ea; [discriminate |]. cbn [bind] in H.
  destruct (mapM f l) as [e|bs'] eqn:El; [discriminate |].
  constructor; [eauto | now apply (IH bs')].
Qed.

Lemma ip_int_from_string_v4_no_colon (s : string) (n : Z) :
  _ip_int_from_string_v4 s = inr n -> Py.contains ":" s = false.
Proof.
  unfold _ip_int_from_string_v4. intros H.
  destruct (String.eqb s EmptyString); [discriminate |].
  destruct (negb _); [discriminate |].
  destruct (mapM _parse_octet (Py.split "." s)) as [e|bs] eqn:Em.
  - simpl in H. destruct e as [[] msg]; discriminate.
  - apply (contains_of_parts ":" "." s); [reflexivity |].
    apply mapM_inv in Em. eapply Forall_impl; [exact Em |].
    intros p [v Hv]. now apply (parse_octet_no_colon p v).
Qed.

Lemma make_netmask_v4_no_colon (m : string) (made : IPAddress * Z) :
  _make_netmask V4 (inl m) = inr made -> Py.contains ":" m = false.
Proof.
  unfold _make_netmask. intros H.
  destruct (_prefix_from_prefix_string V4 m) as [e|p] eqn:E1.
  - pose proof (prefix_from_prefix_string_raises V4 m) as Hr. rewrite E1 in Hr.
    destruct e as [cl msg]. simpl in Hr. subst cl. cbn [catch exn_cls subclass] in H.
    unfold _prefix_from_ip_string in H.
    destruct (_ip_int_from_string_v4 m) as [e|n] eqn:E2.
    + pose proof (ip_int_from_string_v4_raises m) as Hr. rewrite E2 in Hr.
      destruct e as [cl msg2]. simpl in Hr. subst cl. discriminate.
    + now apply (ip_int_from_string_v4_no_colon m n).
  - unfold _prefix_from_prefix_string in E1.
    destruct (Py.isascii m && Py.isdigit m) eqn:Hd; [|discriminate].
    apply (plain_digit_no_colon 10), ascii_digits_chars, Hd.
Qed.

Lemma v4_network_no_colon (s : string) (net : IPNetwork) :
  IPNetwork_new V4 s false = inr net -> Py.contains ":" s = false.
Proof.
  intros H. destruct (IPNetwork_new_inv V4 s net H) as (addr & m & a & nm & Hs & Ha & Hm & _).
  pose proof (IPv4Address_returns addr) as Hr. simpl in Ha. rewrite Ha in Hr.
  simpl in Hr. destruct Hr as (_ & _ & _ & _ & Hip).
  apply ip_int_from_string_v4_no_colon in Hip.
  apply (contains_of_parts ":" "/" s); [reflexivity |].
  unfold _split_addr_prefix, _split_optional_netmask in Hs.
  destruct (Z.ltb_spec 2 (Z.of_nat (length (Py.split "/" s)))) as [Hl | Hl];
    [discriminate |].
  cbn [bind ret] in Hs.
  destruct (Py.split "/" s) as [|x [|y [|z l]]]; [constructor | | |simpl in Hl; lia];
    inversion Hs; subst.
  - constructor; [exact Hip | constructor].
  - constructor; [exact Hip |]. constructor; [|constructor].
    now apply (make_netmask_v4_no_colon y _ Hm).
Qed.

Lemma ip_int_from_string_v6_colon (s : string) (n : Z) :
  _ip_int_from_string_v6 s = inr n -> Py.contains ":" s = true.
Proof.
  unfold _ip_int_from_string_v6. intros H.
  destruct (String.eqb s EmptyString); [discriminate |].
  cbv zeta in H.
  destruct (Z.ltb_spec (Z.of_nat (length (Py.split ":" s))) 3) as [Hl | Hl];
    [discriminate |].
  destruct (Py.contains ":" s) eqn:E; [reflexivity |].
  rewrite (split_no_sep ":" s E) in Hl. simpl in Hl. lia.
Qed.

Lemma v6_network_colon (s : string) (net : IPNetwork) :
  IPNetwork_new V6 s false = inr net -> Py.contains ":" s = true.
Proof.
  intros H. destruct (IPNetwork_new_inv V6 s net H) as (addr & m & a & nm & Hs & Ha & _).
  assert (Py.contains ":" addr = true) as Haddr.
  { simpl in Ha. unfold IPv6Address in Ha.
    destruct (Py.contains "/" addr); [discriminate |].
    unfold _split_scope_id in Ha.
    pose proof (contains_partition ":" "%" addr) as Hpart.
    destruct (Py.partition "%" addr) as [[addr_str sep] sc]. simpl in Hpart.
    apply Hpart.
    destruct (negb sep); cbn [bind ret] in Ha.
    - destruct (_ip_int_from_string_v6 addr_str) as [e|n] eqn:E; [discriminate |].
      now apply (ip_int_from_string_v6_colon addr_str n).
    - destruct (_ || _); [discriminate |]. cbn [bind ret] in Ha.
      destruct (_ip_int_from_string_v6 addr_str) as [e|n] eqn:E; [discriminate |].
      now apply (ip_int_from_string_v6_colon addr_str n). }
  apply (contains_hd_split ":" "/" s).
  unfold _split_addr_prefix, _split_optional_netmask in Hs.
  destruct (2 <? Z.of_nat (length (Py.split "/" s))); [discriminate |].
  cbn [bind ret] in Hs.
  destruct (Py.split "/" s) as [|x [|y [|z l]]]; inversion Hs; subst; exact Haddr.
Qed.

(** X7: an accepted input is reported as IPv6 exactly when it contains a
    colon, and as IPv4 exactly when it does not. *)
Theorem X7_family_from_colon (s : string) (net : IPNetwork) :
  ip_network s false = inr net ->
  (net_family net = V6 <-> Py.contains ":" s = true)
  /\ (net_family net = V4 <-> Py.contains ":" s = false)
  /\ exists d,
      calculate_subnet_details s = inr d
      /\ od_get "IP Version" d
         = Some (VStr (if Py.contains ":" s then "IPv6" else "IPv4")).
Proof.
  intros Hnet. pose proof (ip_network_built s net Hnet) as Hnew.
  pose proof (ip_network_wf s net Hnet) as Hwf.
  assert (Py.contains ":" s = match net_family net with V4 => false | V6 => true end)
    as Hc.
  { destruct (net_family net).
    - now apply (v4_network_no_colon s net).
    - now apply (v6_network_colon s net). }
  rewrite Hc.
  split; [destruct (net_family net); split; congruence |].
  split; [destruct (net_family net); split; congruence |].
  exists (report s net). split; [now apply calculate_valid |].
  unfold report. destruct (net_family net); reflexivity.
Qed.

Lemma X7_family_from_colon_witness :
  ip_network "::ffff:1.2.3.4/100" false
  = inr (Network V6 (Address V6 281470681743360 None)
           (Address V6 340282366920938463463374607431499776000 None) 100)
  /\ (V6 = V6 <-> Py.contains ":" "::ffff:1.2.3.4/100" = true)
  /\ (V6 = V4 <-> Py.contains ":" "::ffff:1.2.3.4/100" = false)
  /\ exists d,
      calculate_subnet_details "::ffff:1.2.3.4/100" = inr d
      /\ od_get "IP Version" d = Some (VStr "IPv6").
Proof.
  split; [vm_compute; reflexivity |].
  apply (X7_family_from_colon "::ffff:1.2.3.4/100"
           (Network V6 (Address V6 281470681743360 None)
              (Address V6 340282366920938463463374607431499776000 None) 100)).
  vm_compute; reflexivity.
Defined.

(** ** IPv6 networks *)

Lemma IPNetwork_new_address (f : family) (s : string) (net : IPNetwork) :
  IPNetwork_new f s false = inr net ->
  exists addr m a,
    _split_addr_prefix f s = inr (addr, m)
    /\ address_of_str f addr = inr a
    /\ network_address net
       = if Z.land (ip_int a) (_ip_int_from_prefix f (prefixlen net)) =? ip_int a
         then a
         else Address f (Z.land (ip_int a) (_ip_int_from_prefix f (prefixlen net))) None.
Proof.
  intros H. unfold IPNetwork_new in H.
  destruct (_split_addr_prefix f s) as [e|[addr m]] eqn:Es; [discriminate |].
  cbn [bind] in H.
  destruct (address_of_str f addr) as [e|a] eqn:Ea; [discriminate |].
  cbn [bind] in H.
  pose proof (make_netmask_spec f m) as [_ Hret].
  destruct (_make_netmask f m) as [e|[nm p]] eqn:Em; [discriminate |].
  simpl in Hret. destruct Hret as [Hp ->].
  cbn [bind] in H. unfold network_init in H. cbn [ip_int] in H.
  exists addr, m, a. split; [reflexivity |]. split; [exact Ea |].
  destruct (Z.land (ip_int a) (_ip_int_from_prefix f p) =? ip_int a) eqn:E;
    cbn [negb bind ret] in H.
  - inversion H; subst net. cbn [network_address prefixlen]. now rewrite E.
  - destruct (address_of_int f (Z.land (ip_int a) (_ip_int_from_prefix f p)))
      as [e|na] eqn:Ei; [discriminate |].
    cbn [bind ret] in H. inversion H; subst net. cbn [network_address prefixlen].
    rewrite E. unfold address_of_int in Ei.
    destruct (_check_int_address f _); [discriminate |]. now inversion Ei.
Qed.

(** X8: for every valid IPv6 input the network address is the supplied
    address ANDed with [mask(p, 128)] and has no bit beyond the prefix;
    a scope identifier is kept when the supplied address has no host
    bits set, and dropped when masking changes the address. *)
Theorem X8_ipv6_network_address (s : string) (net : IPNetwork) :
  ip_network s false = inr net -> net_family net = V6 ->
  let p := prefixlen net in
  exists a,
    supplied_address V6 s = inr a
    /\ 0 <= p <= 128
    /\ ip_int (network_address net) = Z.land (ip_int a) (mask p 128)
    /\ (forall i, 0 <= i < 128 - p -> Z.testbit (ip_int (network_address net)) i = false)
    /\ scope_id (network_address net)
       = (if Z.land (ip_int a) (mask p 128) =? ip_int a then scope_id a else None)
    /\ exists d,
        calculate_subnet_details s = inr d
        /\ od_get "Host Bits" d = Some (VInt (128 - p))
        /\ od_get "Network ID" d = Some (VStr (network_id net)).
Proof.
  intros Hnet Hf p. pose proof (ip_network_wf s net Hnet) as Hwf.
  pose proof (ip_network_built s net Hnet) as Hnew. rewrite Hf in Hnew.
  pose proof Hwf as [_ Hp _ Hm]. rewrite Hf in Hp, Hm. simpl max_prefixlen in Hp.
  fold p in Hp, Hm.
  destruct (IPNetwork_new_address V6 s net Hnew) as (addr & m & a & Hs & Ha & Hna).
  fold p in Hna. rewrite (netmask_is_mask V6 p Hp) in Hna. simpl max_prefixlen in Hna.
  exists a. split; [unfold supplied_address; rewrite Hs; exact Ha |].
  split; [exact Hp |].
  split; [rewrite Hna; destruct (Z.eqb_spec (Z.land (ip_int a) (mask p 128)) (ip_int a));
          [congruence | reflexivity] |].
  split; [intros i Hi; apply (masked_host_bits_zero V6 p _ Hp Hm); simpl; lia |].
  split; [rewrite Hna; destruct (_ =? _); reflexivity |].
  exists (report s net). split; [now apply calculate_valid |].
  unfold report. rewrite Hf. split; reflexivity.
Qed.

Lemma X8_ipv6_network_address_witness :
  ip_network "fe80::1%eth0/64" false
  = inr (Network V6 (Address V6 338288524927261089654018896841347694592 None)
           (Address V6 340282366920938463444927863358058659840 None) 64)
  /\ exists a,
      supplied_address V6 "fe80::1%eth0/64" = inr a
      /\ 0 <= 64 <= 128
      /\ 338288524927261089654018896841347694592 = Z.land (ip_int a) (mask 64 128)
      /\ (forall i, 0 <= i < 128 - 64 ->
                    Z.testbit 338288524927261089654018896841347694592 i = false)
      /\ None = (if Z.land (ip_int a) (mask 64 128) =? ip_int a then scope_id a else None)
      /\ exists d,
          calculate_subnet_details "fe80::1%eth0/64" = inr d
          /\ od_get "Host Bits" d = Some (VInt (128 - 64))
          /\ od_get "Network ID" d = Some (VStr "fe80::").
Proof.
  split; [vm_compute; reflexivity |].
  apply (X8_ipv6_network_address "fe80::1%eth0/64"
           (Network V6 (Address V6 338288524927261089654018896841347694592 None)
              (Address V6 340282366920938463444927863358058659840 None) 64));
    [vm_compute; reflexivity | reflexivity].
Defined.

Example scope_kept_without_host_bits :
  option_map network_id
    (match ip_network "fe80::%eth0/64" false with inr net => Some net | inl _ => None end)
  = Some "fe80::%eth0".
Proof. vm_compute. reflexivity. Qed.

(** ** [get_ip_class] on arbitrary text *)

(** X9: [get_ip_class] looks at nothing but the text before the first
    dot: what follows is neither counted nor checked. *)
Theorem X9_class_ignores_rest (first rest : string) :
  Py.contains "." first = false ->
  get_ip_class (first +:+ "." +:+ rest) = get_ip_class first.
Proof.
  intros H. unfold get_ip_class.
  rewrite (append_cons "." EmptyString), append_nil.
  rewrite (split_head "." first rest H), (split_no_sep "." first H). reflexivity.
Qed.

Lemma X9_class_ignores_rest_witness :
  Py.contains "." "192" = false
  /\ get_ip_class ("192" +:+ "." +:+ "999.not-an-octet") = get_ip_class "192".
Proof.
  split; [reflexivity |].
  apply (X9_class_ignores_rest "192" "999.not-an-octet"). reflexivity.
Defined.

(** X10: when the text before the first dot is an integer for [int],
    the label is Special/Reserved exactly for 127 and for the integers
    outside 1..255, negative ones and ones above 255 included; otherwise
    it is one of the five class labels, never N/A. *)
Theorem X10_special_reserved (s : string) (o : Z) :
  Py.int (hd EmptyString (Py.split "." s)) = Some o ->
  (get_ip_class s = "Special/Reserved" <-> o <= 0 \/ o = 127 \/ 256 <= o)
  /\ get_ip_class s = historical_class o
  /\ get_ip_class s <> "N/A".
Proof.
  intros H. unfold get_ip_class, historical_class. rewrite H.
  repeat match goal with
         | |- context [if (?a <=? ?b) && (?c <=? ?d) then _ else _] =>
             destruct (Z.leb_spec a b), (Z.leb_spec c d); cbn [andb];
             [split; [split; [discriminate | lia] | split; [reflexivity | discriminate]]
             | | | ]
         end;
    (split; [split; [intros; lia | reflexivity] | split; [reflexivity | discriminate]]).
Qed.

Lemma X10_special_reserved_witness :
  Py.int (hd EmptyString (Py.split "." " -5 .1.1.1")) = Some (-5)
  /\ (get_ip_class " -5 .1.1.1" = "Special/Reserved" <-> -5 <= 0 \/ -5 = 127 \/ 256 <= -5)
  /\ get_ip_class " -5 .1.1.1" = historical_class (-5)
  /\ get_ip_class " -5 .1.1.1" <> "N/A".
Proof.
  split; [vm_compute; reflexivity |].
  apply (X10_special_reserved " -5 .1.1.1" (-5)). vm_compute; reflexivity.
Defined.

(** * The window *)

(** ** [perform_calculation] *)

Lemma perform_calculation_valid (g : gui) (net : IPNetwork) :
  ip_network (Str.strip (ip_cidr_var g)) false = inr net ->
  perform_calculation g
  = inr (Gui (ip_cidr_var g) (report (Str.strip (ip_cidr_var g)) net) NORMAL
           (rows_from 0 (report (Str.strip (ip_cidr_var g)) net)) (dialogs g)).
Proof.
  intros Hnet. unfold perform_calculation.
  rewrite (calculate_valid _ net Hnet (ip_network_wf _ net Hnet)). cbn [bind].
  rewrite report_no_error. reflexivity.
Qed.

Lemma perform_calculation_invalid (g : gui) :
  (forall net, ip_network (Str.strip (ip_cidr_var g)) false <> inr net) ->
  perform_calculation g
  = inr (Gui (ip_cidr_var g) [] DISABLED []
           (dialogs g
              ++ [ShowError "Calculation Error"
                    ("Invalid input: " +:+ Py.repr (Str.strip (ip_cidr_var g))
                     +:+ " does not appear to be an IPv4 or IPv6 network")])%list).
Proof.
  intros Hbad. unfold perform_calculation.
  destruct (ip_network_cases (Str.strip (ip_cidr_var g))) as [(net & Hnet & _) | [Hnet _]];
    [now destruct (Hbad net) |].
  rewrite (calculate_invalid _ Hnet). reflexivity.
Qed.

Lemma perform_calculation_cases (g : gui) :
  (exists net, ip_network (Str.strip (ip_cidr_var g)) false = inr net)
  \/ (forall net, ip_network (Str.strip (ip_cidr_var g)) false <> inr net).
Proof.
  destruct (ip_network (Str.strip (ip_cidr_var g)) false) as [e|net];
    [right; discriminate | left; eauto].
Qed.

(** *** White space around the input *)

Lemma str_lstrip_spaces (w s : string) :
  Py.all_chars Str.is_space w = true -> Str.lstrip (w +:+ s) = Str.lstrip s.
Proof.
  induction w as [|c w IH]; [reflexivity |]. rewrite append_cons. simpl.
  intros [Hc Hw]%andb_true_iff. rewrite Hc. now apply IH.
Qed.

Lemma rev_onto_append (a b acc : string) :
  Py.rev_onto (a +:+ b) acc = Py.rev_onto b (Py.rev_onto a acc).
Proof.
  revert acc. induction a as [|c a IH]; intros acc; [reflexivity |].
  rewrite append_cons. simpl. apply IH.
Qed.

Lemma rev_onto_acc (s acc : string) :
  Py.rev_onto s acc = Py.rev_string s +:+ acc.
Proof.
  unfold Py.rev_string. revert acc.
  induction s as [|c s IH]; intros acc; [reflexivity |].
  simpl. rewrite (IH (String c acc)), (IH (String c EmptyString)).
  clear IH. generalize (Py.rev_onto s EmptyString). intros r.
  induction r as [|x r IHr]; [reflexivity |].
  rewrite !append_cons. now rewrite IHr.
Qed.

Lemma rev_string_append (a b : string) :
  Py.rev_string (a +:+ b) = Py.rev_string b +:+ Py.rev_string a.
Proof.
  unfold Py.rev_string at 1. rewrite rev_onto_append.
  rewrite rev_onto_acc. reflexivity.
Qed.

Lemma all_chars_rev_string (f : ascii -> bool) (s : string) :
  Py.all_chars f (Py.rev_string s) = Py.all_chars f s.
Proof.
  unfold Py.rev_string. rewrite all_chars_rev_onto. simpl. apply andb_true_r.
Qed.

(** [strip] removes the white space put around a text. *)
Lemma str_strip_spaces (w1 s w2 : string) :
  Py.all_chars Str.is_space w1 = true -> Py.all_chars Str.is_space w2 = true ->
  Str.strip (w1 +:+ s +:+ w2) = Str.strip s.
Proof.
  intros H1 H2. unfold Str.strip. rewrite (str_lstrip_spaces w1 _ H1).
  destruct (Py.all_chars Str.is_space s) eqn:Hs.
  - assert (forall x, Py.all_chars Str.is_space x = true -> Str.lstrip x = EmptyString)
      as Hall.
    { intros x. induction x as [|c x IH]; [reflexivity |]. simpl.
      intros [Hc Hx]%andb_true_iff. rewrite Hc. now apply IH. }
    rewrite (Hall (s +:+ w2)) by (now rewrite all_chars_append, Hs, H2).
    now rewrite (Hall s Hs).
  - assert (forall x y, Py.all_chars Str.is_space x = false ->
                        Str.lstrip (x +:+ y) = Str.lstrip x +:+ y) as Hkeep.
    { intros x y. induction x as [|c x IH]; [discriminate |].
      rewrite append_cons. simpl. destruct (Str.is_space c); [exact IH | reflexivity]. }
    rewrite (Hkeep s w2 Hs). rewrite rev_string_append.
    rewrite str_lstrip_spaces by (now rewrite all_chars_rev_string).
    reflexivity.
Qed.

Lemma str_strip_all_spaces (w : string) :
  Py.all_chars Str.is_space w = true -> Str.strip w = EmptyString.
Proof.
  intros H. rewrite <- (append_empty_r w).
  replace (w +:+ EmptyString) with (w +:+ EmptyString +:+ EmptyString) by reflexivity.
  now rewrite str_strip_spaces.
Qed.

(** X11: white space around the text of the entry changes nothing: the
    calculation reads the trimmed text, and the result, the rows, the
    save button and the dialogs are those of the bare text. *)
Theorem X11_input_is_trimmed (g : gui) (w1 s w2 : string) :
  Py.all_chars Str.is_space w1 = true -> Py.all_chars Str.is_space w2 = true ->
  ip_cidr_var g = w1 +:+ s +:+ w2 ->
  let bare := Gui s (last_details g) (save_button g) (results_frame g) (dialogs g) in
  exists g1 g2,
    perform_calculation g = inr g1
    /\ perform_calculation bare = inr g2
    /\ ip_cidr_var g1 = ip_cidr_var g
    /\ last_details g1 = last_details g2
    /\ save_button g1 = save_button g2
    /\ results_frame g1 = results_frame g2
    /\ dialogs g1 = dialogs g2.
Proof.
  intros H1 H2 Htext bare.
  assert (Str.strip (ip_cidr_var g) = Str.strip (ip_cidr_var bare)) as Hs.
  { rewrite Htext. simpl. now apply str_strip_spaces. }
  destruct (perform_calculation_cases g) as [[net Hnet] | Hbad].
  - rewrite (perform_calculation_valid g net Hnet).
    rewrite Hs in Hnet. rewrite (perform_calculation_valid bare net Hnet).
    eexists. eexists. split; [reflexivity |]. split; [reflexivity |].
    simpl. rewrite Htext. simpl in Hs. rewrite <- Hs, Htext. repeat split.
  - rewrite (perform_calculation_invalid g Hbad).
    rewrite Hs in Hbad. rewrite (perform_calculation_invalid bare Hbad).
    eexists. eexists. split; [reflexivity |]. split; [reflexivity |].
    simpl. rewrite Htext. simpl in Hs. rewrite <- Hs, Htext. repeat split.
Qed.

Lemma X11_input_is_trimmed_witness :
  exists g1 g2,
    perform_calculation (Gui "  10.0.0.1/8 " [] DISABLED [] []) = inr g1
    /\ perform_calculation (Gui "10.0.0.1/8" [] DISABLED [] []) = inr g2
    /\ ip_cidr_var g1 = "  10.0.0.1/8 "
    /\ last_details g1 = last_details g2
    /\ save_button g1 = save_button g2
    /\ results_frame g1 = results_frame g2
    /\ dialogs g1 = dialogs g2.
Proof.
  apply (X11_input_is_trimmed (Gui "  10.0.0.1/8 " [] DISABLED [] []) "  " "10.0.0.1/8" " ");
    reflexivity.
Defined.

(** X12: when the trimmed text is rejected, and so whenever the entry
    holds nothing but white space, the calculation opens one error box
    that carries the complaint, empties the results frame, forgets the
    result stored before and disables the save button. *)
Theorem X12_failed_calculation (g : gui) :
  let text := Str.strip (ip_cidr_var g) in
  ((forall net, ip_network text false <> inr net)
   \/ Py.all_chars Str.is_space (ip_cidr_var g) = true) ->
  perform_calculation g
  = inr (Gui (ip_cidr_var g) [] DISABLED []
           (dialogs g
              ++ [ShowError "Calculation Error"
                    ("Invalid input: " +:+ Py.repr text
                     +:+ " does not appear to be an IPv4 or IPv6 network")])%list).
Proof.
  intros text [Hbad | Hspace]; [now apply perform_calculation_invalid |].
  apply perform_calculation_invalid.
  rewrite (str_strip_all_spaces _ Hspace). intros net. vm_compute. discriminate.
Qed.

Lemma X12_failed_calculation_witness :
  perform_calculation
    (Gui "   " [("Input IP/CIDR", VStr "stale")] NORMAL [] [])
  = inr (Gui "   " [] DISABLED []
           [ShowError "Calculation Error"
              ("Invalid input: " +:+ Py.repr (Str.strip "   ")
               +:+ " does not appear to be an IPv4 or IPv6 network")]).
Proof.
  apply (X12_failed_calculation (Gui "   " [("Input IP/CIDR", VStr "stale")] NORMAL [] [])).
  right. reflexivity.
Defined.

(** *** The rows of a result *)

Lemma rows_from_lookup (d : details) :
  forall (j : Z) (i : nat) (key : string) (v : value),
    d !! i = Some (key, v) ->
    rows_from j d !! (2 * i)%nat
    = Some (Label (key +:+ ":") ("Arial", 10, false) None (j + Z.of_nat i) 0)
    /\ rows_from j d !! (2 * i + 1)%nat
       = Some (Label (str_value v) (snd (value_style key)) (Some (fst (value_style key)))
                 (j + Z.of_nat i) 1).
Proof.
  induction d as [|[k w] d IH]; intros j i key v Hi; [discriminate |].
  destruct i as [|i].
  - simpl in Hi. inversion Hi; subst. cbn [rows_from]. unfold row_labels.
    destruct (value_style key) as [fg ft]. simpl.
    rewrite Z.add_0_r. split; reflexivity.
  - simpl in Hi. cbn [rows_from]. unfold row_labels.
    destruct (value_style k) as [fg ft].
    replace (2 * S i)%nat with (S (S (2 * i))) by lia.
    replace (S (S (2 * i)) + 1)%nat with (S (S (2 * i + 1))) by lia.
    cbn [app lookup list_lookup].
    destruct (IH (j + 1) i key v Hi) as [H1 H2].
    replace (j + Z.of_nat (S i)) with (j + 1 + Z.of_nat i) by lia.
    split; assumption.
Qed.

Lemma rows_from_length (d : details) :
  forall j, length (rows_from j d) = (2 * length d)%nat.
Proof.
  induction d as [|[k w] d IH]; intros j; [reflexivity |].
  cbn [rows_from]. unfold row_labels. destruct (value_style k).
  rewrite length_app, IH. simpl. lia.
Qed.

(** X13: after a successful calculation the result is stored, the save
    button is enabled, no dialog is opened, and the results frame
    holds two labels for each field, in the order of the fields: in
    row [i], the key followed by a colon in column 0 and the text of the
    value in column 1. *)
Theorem X13_successful_calculation (g : gui) (net : IPNetwork) :
  ip_network (Str.strip (ip_cidr_var g)) false = inr net ->
  exists g',
    perform_calculation g = inr g'
    /\ ip_cidr_var g' = ip_cidr_var g
    /\ calculate_subnet_details (Str.strip (ip_cidr_var g)) = inr (last_details g')
    /\ save_button g' = NORMAL
    /\ dialogs g' = dialogs g
    /\ length (results_frame g') = (2 * length (last_details g'))%nat
    /\ forall i key v,
        last_details g' !! i = Some (key, v) ->
        exists key_label value_label,
          results_frame g' !! (2 * i)%nat = Some key_label
          /\ results_frame g' !! (2 * i + 1)%nat = Some value_label
          /\ lbl_text key_label = key +:+ ":"
          /\ lbl_text value_label = str_value v
          /\ lbl_row key_label = Z.of_nat i /\ lbl_column key_label = 0
          /\ lbl_row value_label = Z.of_nat i /\ lbl_column value_label = 1.
Proof.
  intros Hnet. eexists. split; [exact (perform_calculation_valid g net Hnet) |].
  cbn [ip_cidr_var last_details save_button dialogs results_frame].
  split; [reflexivity |].
  split; [exact (calculate_valid _ net Hnet (ip_network_wf _ net Hnet)) |].
  split; [reflexivity |]. split; [reflexivity |].
  split; [apply rows_from_length |].
  intros i key v Hi. destruct (rows_from_lookup _ 0 i key v Hi) as [H1 H2].
  eexists. eexists. split; [exact H1 |]. split; [exact H2 |].
  cbn [lbl_text lbl_row lbl_column]. repeat split; lia.
Qed.

Lemma X13_successful_calculation_witness :
  ip_network (Str.strip " 10.0.0.0/31 ") false
  = inr (Network V4 (Address V4 167772160 None) (Address V4 4294967294 None) 31)
  /\ exists g',
      perform_calculation (Gui " 10.0.0.0/31 " [] DISABLED [] []) = inr g'
      /\ ip_cidr_var g' = " 10.0.0.0/31 "
      /\ calculate_subnet_details (Str.strip " 10.0.0.0/31 ") = inr (last_details g')
      /\ save_button g' = NORMAL
      /\ dialogs g' = []
      /\ length (results_frame g') = (2 * length (last_details g'))%nat
      /\ forall i key v,
          last_details g' !! i = Some (key, v) ->
          exists key_label value_label,
            results_frame g' !! (2 * i)%nat = Some key_label
            /\ results_frame g' !! (2 * i + 1)%nat = Some value_label
            /\ lbl_text key_label = key +:+ ":"
            /\ lbl_text value_label = str_value v
            /\ lbl_row key_label = Z.of_nat i /\ lbl_column key_label = 0
            /\ lbl_row value_label = Z.of_nat i /\ lbl_column value_label = 1.
Proof.
  split; [vm_compute; reflexivity |].
  apply (X13_successful_calculation (Gui " 10.0.0.0/31 " [] DISABLED [] [])
           (Network V4 (Address V4 167772160 None) (Address V4 4294967294 None) 31)).
  vm_compute; reflexivity.
Defined.

(** X14: the colours of the value labels depend on the family alone.
    For IPv4 the input, version, network, prefix and mask are blue, the
    historical class grey and not bold, the counts dark grey and the
    broadcast address and host range red; for IPv6 the input, version,
    network, prefix and mask concept are blue, the counts dark grey and
    the broadcast and range concepts red.  The input is blue because its
    key [Input IP/CIDR] contains [ID]. *)
Theorem X14_value_colours (g : gui) (net : IPNetwork) :
  ip_network (Str.strip (ip_cidr_var g)) false = inr net ->
  exists g',
    perform_calculation g = inr g'
    /\ map (fun l => (lbl_fg l, snd (lbl_font l)))
         (List.filter (fun l => lbl_column l =? 1) (results_frame g'))
       = match net_family net with
         | V4 =>
             [(Some "#0056b3", true); (Some "#0056b3", true); (Some "#0056b3", true);
              (Some "grey50", false); (Some "#0056b3", true); (Some "#0056b3", true);
              (Some "#333333", true); (Some "#333333", true); (Some "#333333", true);
              (Some "#333333", true); (Some "#cc0000", true); (Some "#cc0000", true)]
         | V6 =>
             [(Some "#0056b3", true); (Some "#0056b3", true); (Some "#0056b3", true);
              (Some "#0056b3", true); (Some "#0056b3", true);
              (Some "#333333", true); (Some "#333333", true); (Some "#333333", true);
              (Some "#cc0000", true); (Some "#cc0000", true)]
         end.
Proof.
  intros Hnet. eexists. split; [exact (perform_calculation_valid g net Hnet) |].
  cbn [results_frame]. unfold report.
  destruct (net_family net); reflexivity.
Qed.

Lemma X14_value_colours_witness :
  ip_network (Str.strip "2001:db8::1/64") false
  = inr (Network V6 (Address V6 42540766411282592856903984951653826560 None)
           (Address V6 340282366920938463444927863358058659840 None) 64)
  /\ exists g',
      perform_calculation (Gui "2001:db8::1/64" [] DISABLED [] []) = inr g'
      /\ map (fun l => (lbl_fg l, snd (lbl_font l)))
           (List.filter (fun l => lbl_column l =? 1) (results_frame g'))
         = [(Some "#0056b3", true); (Some "#0056b3", true); (Some "#0056b3", true);
            (Some "#0056b3", true); (Some "#0056b3", true);
            (Some "#333333", true); (Some "#333333", true); (Some "#333333", true);
            (Some "#cc0000", true); (Some "#cc0000", true)].
Proof.
  split; [vm_compute; reflexivity |].
  apply (X14_value_colours (Gui "2001:db8::1/64" [] DISABLED [] [])
           (Network V6 (Address V6 42540766411282592856903984951653826560 None)
              (Address V6 340282366920938463444927863358058659840 None) 64)).
  vm_compute; reflexivity.
Defined.

(** ** [save_results_to_file] *)



Lemma initial_file_report (s : string) (net : IPNetwork) :
  wf_network net ->
  initial_file (report s net)
  = Some ("subnet_report_" +:+ Str.replace "/" "_" (network_id net) +:+ ".txt").
Proof.
  intros Hwf. unfold report. destruct (net_family net) eqn:Hf.
  - rewrite (network_id_v4 net Hwf Hf). reflexivity.
  - reflexivity.
Qed.



(** X16: saving changes nothing of the window but the list of dialogs,
    which only grows, and no file but the one at the chosen path; it
    writes no file at all when nothing is stored, in which case it only
    warns, when the dialog is cancelled, or when [open] fails. *)
Theorem X16_save_frame (env : save_env) (g g' : gui) (fs fs' : gmap string string) :
  save_results_to_file env g fs = Some (g', fs') ->
  ip_cidr_var g' = ip_cidr_var g
  /\ last_details g' = last_details g
  /\ save_button g' = save_button g
  /\ results_frame g' = results_frame g
  /\ (exists opened, dialogs g' = (dialogs g ++ opened)%list)
  /\ (forall path, path <> chosen_path env -> fs' !! path = fs !! path)
  /\ (last_details g = [] ->
      fs' = fs
      /\ dialogs g'
         = (dialogs g
              ++ [ShowWarning "Save Error"
                    "No subnet calculation data available to save."])%list)
  /\ (chosen_path env = EmptyString -> fs' = fs)
  /\ (forall e, outcome env = OpenFails e -> fs' = fs).
Proof.
  unfold save_results_to_file. intros H.
  destruct (last_details g) as [|kv d] eqn:Hd.
  - inversion H; subst. cbn. rewrite Hd.
    repeat split; eauto.
  - destruct (initial_file (kv :: d)) as [name|]; [|discriminate].
    cbv zeta in H.
    destruct (String.eqb_spec (chosen_path env) EmptyString) as [Hc | Hc].
    + inversion H; subst. cbn. rewrite Hd.
      repeat split; eauto; discriminate.
    + destruct (outcome env) as [|e|e written] eqn:Ho; inversion H; subst; cbn;
        rewrite Hd, <- ?app_assoc;
        (split; [reflexivity |]); (split; [reflexivity |]); (split; [reflexivity |]);
        (split; [reflexivity |]); (split; [eauto |]);
        (split; [intros path Hp; try reflexivity;
                 now rewrite lookup_insert_ne by congruence |]);
        (split; [discriminate |]); (split; [congruence |]);
        intros e' He'; try discriminate; reflexivity.
Qed.

Lemma X16_save_frame_witness :
  let g := Gui "10.0.0.0/8" [("Network ID", VStr "10.0.0.0")] NORMAL [] [] in
  let fs : gmap string string := {["/tmp/other.txt" := "kept"]} in
  exists g' fs',
    save_results_to_file (SaveEnv "2025-01-01 00:00:00" "/tmp/r.txt" WriteOk) g fs
    = Some (g', fs')
    /\ last_details g' = last_details g
    /\ fs' !! "/tmp/other.txt" = fs !! "/tmp/other.txt".
Proof.
  intros g fs. eexists. eexists. split; [reflexivity |].
  destruct (X16_save_frame (SaveEnv "2025-01-01 00:00:00" "/tmp/r.txt" WriteOk) g _ fs _
              eq_refl) as (_ & H2 & _ & _ & _ & H6 & _).
  split; [exact H2 | apply H6; discriminate].
Defined.

(** ** What the window keeps true *)

Lemma report_not_empty (s : string) (net : IPNetwork) : report s net <> [].
Proof. unfold report. destruct (net_family net); discriminate. Qed.

Lemma perform_calculation_invariant (g g' : gui) :
  perform_calculation g = inr g' -> gui_invariant g'.
Proof.
  intros H. destruct (perform_calculation_cases g) as [[net Hnet] | Hbad].
  - rewrite (perform_calculation_valid g net Hnet) in H. inversion H; subst g'.
    unfold gui_invariant. cbn [save_button last_details results_frame].
    split; [split; [intros _; apply report_not_empty | reflexivity] |].
    split; [right; eauto | reflexivity].
  - rewrite (perform_calculation_invalid g Hbad) in H. inversion H; subst g'.
    unfold gui_invariant. cbn [save_button last_details results_frame].
    split; [split; [discriminate | congruence] |].
    split; [now left | reflexivity].
Qed.

Lemma perform_calculation_total (g : gui) : exists g', perform_calculation g = inr g'.
Proof.
  destruct (perform_calculation_cases g) as [[net Hnet] | Hbad].
  - rewrite (perform_calculation_valid g net Hnet). eauto.
  - rewrite (perform_calculation_invalid g Hbad). eauto.
Qed.

Lemma save_total (env : save_env) (g : gui) (fs : gmap string string) :
  gui_invariant g -> exists st, save_results_to_file env g fs = Some st.
Proof.
  intros (_ & Hd & _). unfold save_results_to_file.
  destruct Hd as [Hd | (text & net & Hnet & Hd)]; rewrite Hd; [eauto |].
  pose proof (report_not_empty (Str.strip text) net) as Hne.
  destruct (report (Str.strip text) net) as [|kv d] eqn:Hr; [congruence |].
  rewrite <- Hr, (initial_file_report _ net (ip_network_wf _ net Hnet)). cbv zeta.
  destruct (String.eqb _ _); [eauto |]. destruct (outcome env); eauto.
Qed.

Lemma save_keeps_window (env : save_env) (g g' : gui) (fs fs' : gmap string string) :
  save_results_to_file env g fs = Some (g', fs') ->
  last_details g' = last_details g
  /\ save_button g' = save_button g
  /\ results_frame g' = results_frame g.
Proof.
  unfold save_results_to_file. intros H.
  destruct (last_details g) as [|kv d] eqn:Hd.
  - inversion H; subst. cbn. now rewrite Hd.
  - destruct (initial_file (kv :: d)) as [name|]; [|discriminate].
    cbv zeta in H.
    destruct (String.eqb (chosen_path env) EmptyString).
    + inversion H; subst. cbn. now rewrite Hd.
    + destruct (outcome env); inversion H; subst; cbn; now rewrite Hd.
Qed.

Lemma reachable_invariant (st : gui * gmap string string) :
  gui_reachable st -> gui_invariant (fst st).
Proof.
  induction 1 as [g fs Hinit | st st' Hreach IH Hstep].
  - exact (perform_calculation_invariant _ g Hinit).
  - destruct Hstep as [text g fs | g g' fs Hcalc | env g g' fs fs' Hbtn Hsave];
      cbn [fst] in *.
    + exact IH.
    + exact (perform_calculation_invariant g g' Hcalc).
    + destruct (save_keeps_window env g g' fs fs' Hsave) as (H2 & H3 & H4).
      unfold gui_invariant in *. now rewrite H2, H3, H4.
Qed.

Lemma gui_init_value :
  exists g, gui_init = inr g /\ save_button g = NORMAL
            /\ od_get "Network ID" (last_details g) = Some (VStr "192.0.0.0").
Proof. eexists. split; [vm_compute; reflexivity |]. split; reflexivity. Qed.

(** X17: the window starts with the result of its default text on
    display, and in every state it can reach by edits of the entry,
    calculations and saves the save button is enabled exactly when a
    result is stored, the stored result is a complete result of the
    engine, and the results frame shows it; there neither the
    calculation nor the save raises. *)
Theorem X17_window_invariant :
  (exists g, gui_init = inr g /\ save_button g = NORMAL
             /\ od_get "Network ID" (last_details g) = Some (VStr "192.0.0.0"))
  /\ forall st,
      gui_reachable st ->
      gui_invariant (fst st)
      /\ (exists g', perform_calculation (fst st) = inr g')
      /\ (forall env, exists st', save_results_to_file env (fst st) (snd st) = Some st').
Proof.
  split; [exact gui_init_value |].
  intros st Hst. pose proof (reachable_invariant st Hst) as Hinv.
  split; [exact Hinv |].
  split; [apply perform_calculation_total |].
  intros env. now apply save_total.
Qed.

Lemma X17_window_invariant_witness :
  exists g,
    gui_init = inr g
    /\ gui_invariant
         (Gui " 10.0.0.0/31 " (last_details g) (save_button g) (results_frame g)
            (dialogs g)).
Proof.
  eexists. split; [vm_compute; reflexivity |].
  refine (proj1 (proj2 X17_window_invariant (_, ∅)
                  (reach_step _ _ (reach_init _ ∅ _) (step_edit " 10.0.0.0/31 " _ ∅)))).
  vm_compute; reflexivity.
Defined.

(** X18: pressing the enabled save button never meets the warning of an
    empty result.  When a path is chosen and the write succeeds, the
    file at that path holds exactly the report of the stored result,
    every other file is as before, and the window has opened the file
    dialog, with a proposed name built from the network identifier, and
    then the success box naming the path. *)
Theorem X18_save_writes_report (env : save_env) (g : gui) (fs : gmap string string) :
  gui_reachable (g, fs) -> save_button g = NORMAL ->
  chosen_path env <> EmptyString -> outcome env = WriteOk ->
  exists g' fs' id,
    save_results_to_file env g fs = Some (g', fs')
    /\ od_get "Network ID" (last_details g) = Some (VStr id)
    /\ fs' !! chosen_path env = Some (report_content (now env) (last_details g))
    /\ (forall path, path <> chosen_path env -> fs' !! path = fs !! path)
    /\ dialogs g'
       = (dialogs g
            ++ [AskSaveAsFilename
                  ("subnet_report_" +:+ Str.replace "/" "_" id +:+ ".txt");
                ShowInfo "Success"
                  ("Results successfully saved to:" +:+ Str.newline
                   +:+ chosen_path env)])%list.
Proof.
  intros Hreach Hbtn Hpath Hok.
  destruct (reachable_invariant _ Hreach) as (Hb & Hd & _).
  cbn [fst] in Hb, Hd.
  destruct Hd as [Hd | (text & net & Hnet & Hd)]; [now apply Hb in Hbtn |].
  pose proof (ip_network_wf _ net Hnet) as Hwf.
  unfold save_results_to_file. rewrite Hd.
  pose proof (report_not_empty (Str.strip text) net) as Hne.
  destruct (report (Str.strip text) net) as [|kv d] eqn:Hr; [congruence |].
  rewrite <- Hr, (initial_file_report _ net Hwf). cbv zeta.
  destruct (String.eqb_spec (chosen_path env) EmptyString) as [|_]; [congruence |].
  rewrite Hok. eexists. eexists. exists (network_id net).
  split; [reflexivity |].
  split; [unfold report; destruct (net_family net) eqn:Hf;
          [rewrite (network_id_v4 net Hwf Hf) |]; reflexivity |].
  split; [apply lookup_insert_eq |].
  split; [intros path Hp; now rewrite lookup_insert_ne by congruence |].
  cbn. now rewrite <- app_assoc.
Qed.

Lemma X18_save_writes_report_witness :
  exists g g' fs' id,
    gui_init = inr g
    /\ save_results_to_file (SaveEnv "2025-01-01 00:00:00" "/tmp/r.txt" WriteOk) g ∅
       = Some (g', fs')
    /\ od_get "Network ID" (last_details g) = Some (VStr id)
    /\ fs' !! "/tmp/r.txt" = Some (report_content "2025-01-01 00:00:00" (last_details g)).
Proof.
  destruct gui_init_value as (g & Hg & Hbtn & _).
  destruct (X18_save_writes_report (SaveEnv "2025-01-01 00:00:00" "/tmp/r.txt" WriteOk)
              g ∅ (reach_init g ∅ Hg) Hbtn ltac:(discriminate) eq_refl)
    as (g' & fs' & id & H1 & H2 & H3 & _).
  exists g, g', fs', id. repeat split; assumption.
Defined.

(** ** The layout of the saved report *)

Lemma fold_max_le_acc (l : list nat) (a : nat) : (a <= fold_left Nat.max l a)%nat.
Proof.
  revert a. induction l as [|x l IH]; intros a; simpl; [lia |].
  specialize (IH (Nat.max a x)). lia.
Qed.

Lemma fold_max_In (l : list nat) (a x : nat) :
  In x l -> (x <= fold_left Nat.max l a)%nat.
Proof.
  revert a. induction l as [|y l IH]; intros a; simpl; [tauto |].
  intros [-> | Hin]; [|now apply IH].
  pose proof (fold_max_le_acc l (Nat.max a x)). lia.
Qed.

Lemma fold_max_attained (l : list nat) (a : nat) :
  fold_left Nat.max l a = a \/ In (fold_left Nat.max l a) l.
Proof.
  revert a. induction l as [|y l IH]; intros a; simpl; [now left |].
  destruct (IH (Nat.max a y)) as [H | H]; [|now right; right].
  rewrite H. destruct (Nat.max_spec a y) as [[_ ->] | [_ ->]]; auto.
Qed.

Lemma repeat_length (c : ascii) (n : nat) : String.length (Str.repeat c n) = n.
Proof. induction n as [|n IH]; simpl; congruence. Qed.

Lemma string_length_append (a b : string) :
  String.length (a +:+ b) = (String.length a + String.length b)%nat.
Proof.
  induction a as [|c a IH]; [reflexivity |].
  rewrite append_cons. simpl. now rewrite IH.
Qed.

Lemma startswith_append (a b : string) : Str.startswith a (a +:+ b) = true.
Proof.
  induction a as [|c a IH]; [reflexivity |].
  rewrite append_cons. simpl. now rewrite Ascii.eqb_refl.
Qed.

(** X19: in the saved report the separators stand in one column: no key
    of the stored result is longer than the width the keys are padded
    to, every padded key has exactly that width and starts with the
    key, and the width is the length of one of the keys, so no column is
    wasted.  A line is then that width, three characters of separator,
    the text of the value and the line end. *)
Theorem X19_report_alignment (d : details) (key : string) (v : value) :
  In (key, v) d ->
  let width := max_key_len d in
  let line := Str.ljust width key +:+ " : " +:+ str_value v +:+ Str.newline in
  (String.length key <= width)%nat
  /\ String.length (Str.ljust width key) = width
  /\ Str.startswith key (Str.ljust width key) = true
  /\ String.length line = (width + 3 + String.length (str_value v) + 1)%nat
  /\ exists key' v', In (key', v') d /\ String.length key' = width.
Proof.
  intros Hin width line.
  assert (String.length key <= width)%nat as Hle.
  { apply fold_max_In. now apply (in_map (fun kv => String.length (fst kv)) d (key, v)). }
  assert (String.length (Str.ljust width key) = width) as Hw.
  { unfold Str.ljust. rewrite string_length_append, repeat_length. lia. }
  split; [exact Hle |]. split; [exact Hw |].
  split; [apply startswith_append |].
  split.
  - unfold line. rewrite !string_length_append, Hw. simpl. lia.
  - destruct (fold_max_attained (map (fun kv => String.length (fst kv)) d) 0)
      as [H0 | Hat].
    + exists key, v. split; [exact Hin |]. unfold width, max_key_len in *. lia.
    + apply in_map_iff in Hat. destruct Hat as ([key' v'] & Hlen & Hin').
      exists key', v'. split; [exact Hin' | exact Hlen].
Qed.

Lemma X19_report_alignment_witness :
  In ("Host Bits", VInt 24) [("Network ID", VStr "10.0.0.0"); ("Host Bits", VInt 24)]
  /\ String.length
       (Str.ljust
          (max_key_len [("Network ID", VStr "10.0.0.0"); ("Host Bits", VInt 24)])
          "Host Bits")
     = 10%nat.
Proof.
  split; [simpl; tauto |].
  exact (proj1 (proj2 (X19_report_alignment
                         [("Network ID", VStr "10.0.0.0"); ("Host Bits", VInt 24)]
                         "Host Bits" (VInt 24) ltac:(simpl; tauto)))).
Defined.

(** X20: a calculation forgets what the window held before: its
    outcome depends on the text of the entry and on the dialogs opened
    so far, and on nothing of the result, the button or the rows it
    replaces.  Calculating again straight after a successful calculation
    changes nothing. *)
Theorem X20_calculation_forgets (g1 g2 g1' : gui) :
  ip_cidr_var g1 = ip_cidr_var g2 -> dialogs g1 = dialogs g2 ->
  perform_calculation g1 = inr g1' ->
  perform_calculation g2 = inr g1'
  /\ (save_button g1' = NORMAL -> perform_calculation g1' = inr g1').
Proof.
  intros Ht Hd H.
  destruct (perform_calculation_cases g1) as [[net Hnet] | Hbad].
  - rewrite (perform_calculation_valid g1 net Hnet) in H. inversion H; subst g1'.
    split.
    + rewrite Ht in Hnet. rewrite (perform_calculation_valid g2 net Hnet).
      now rewrite Ht, Hd.
    + intros _.
      match goal with
      | |- perform_calculation ?g = _ => exact (perform_calculation_valid g net Hnet)
      end.
  - rewrite (perform_calculation_invalid g1 Hbad) in H. inversion H; subst g1'.
    split; [|discriminate].
    rewrite Ht in Hbad. rewrite (perform_calculation_invalid g2 Hbad).
    now rewrite Ht, Hd.
Qed.

Lemma X20_calculation_forgets_witness :
  exists g',
    perform_calculation
      (Gui "10.1.2.3/8" [("Input IP/CIDR", VStr "stale")] DISABLED [] []) = inr g'
    /\ perform_calculation (Gui "10.1.2.3/8" [] NORMAL [] []) = inr g'
    /\ (save_button g' = NORMAL -> perform_calculation g' = inr g').
Proof.
  eexists. split; [vm_compute; reflexivity |].
  apply (X20_calculation_forgets
           (Gui "10.1.2.3/8" [("Input IP/CIDR", VStr "stale")] DISABLED [] [])
           (Gui "10.1.2.3/8" [] NORMAL [] [])); [reflexivity | reflexivity |].
  vm_compute; reflexivity.
Defined.

(** ** C8: invalid inputs *)

(** *** Decimal text *)










(** *** What the address parser accepts *)




(** *** What [ip_network] rejects *)









